(** * qmt-cb-rotation: the rebalance / risk-control engine, embedded in Rocq

    A shallow embedding of the parts of the convertible-bond rotation
    program that decide its trading behaviour:

    - [src/models/schemas.py]              (module [Schemas])
    - [src/models/database.py]             (module [Database])
    - [src/services/qmt_service.py]        (modules [QMTService], [QMTTerminal])
    - [src/services/auto_trade_service.py] (module [AutoTradeService])
    - [src/api/api.py]                     (module [Api])
    - [src/utils/datetime_helper.py]       (module [DatetimeHelper])
    - [src/services/scheduler_service.py]  (module [SchedulerService])

    Conventions.  Python [int] is [Z]; a Python [float] is the rational
    number ([Q]) that the binary64 value denotes, comparisons are the
    comparisons of these numbers, and every arithmetic operation rounds its
    exact result to the nearest binary64 value, ties to even ([Py.round64];
    infinities and NaN are not part of the embedding); [str] is [string];
    a [set] of codes is a [gset string];
    a [dict] keyed by code is a [gmap string _]; a database table is the list
    of its rows in insertion order; [None] is [None]; a call that may raise is
    a value of [pyresult].  Calls into the trading terminal, the ranking
    service and the clock are inputs of the functions (environment records). *)

From Stdlib Require Import ZArith QArith Qround Lia Lqa Floats Sorted.
From stdpp Require Import base decidable option list gmap strings.

Local Open Scope string_scope.
Local Open Scope list_scope.
Local Open Scope Z_scope.

(** ** Python values *)

Module Py.

(** The outcome of a call that may raise. *)
Inductive pyresult (A : Type) : Type :=
| Returns (v : A)
| Raises (msg : string).
Arguments Returns {A} v.
Arguments Raises {A} msg.

#[global] Instance pyresult_ret : MRet pyresult := λ A v, Returns v.
#[global] Instance pyresult_bind : MBind pyresult := λ A B f m,
  match m with
  | Returns v => f v
  | Raises msg => Raises msg
  end.

(** [try: body / except Exception: handler] *)
Definition try_except {A : Type} (body : pyresult A) (handler : string → pyresult A)
  : pyresult A :=
  match body with
  | Returns v => Returns v
  | Raises msg => handler msg
  end.

(** [d.get(key, 0)] on a dict of numbers. *)
Definition get_or_zero (x : option Q) : Q := default 0%Q x.

(** [x or d] on an optional number: [None] and [0] are falsy. *)
Definition or_default (x : option Q) (d : Q) : Q :=
  match x with
  | None => d
  | Some v => if Qeq_bool v 0 then d else v
  end.

(** [int(x)] on a float: truncation toward zero. *)
Definition int_of (x : Q) : Z := Z.quot (Qnum x) (Zpos (Qden x)).

(** [int(x)] on a binary64 float that is finite: truncation toward zero,
    from the sign, mantissa and exponent of [x]. *)
Definition int_of_binary64 (x : float) : Z :=
  match Prim2SF x with
  | S754_finite negative m e =>
      let magnitude :=
        if 0 <=? e then Z.shiftl (Zpos m) e else Z.shiftr (Zpos m) (- e) in
      if negative then - magnitude else magnitude
  | _ => 0
  end.

(** [x <= y], [x >= y], [x > y], [x < y] on numbers. *)
Definition le (x y : Q) : bool := Qle_bool x y.
Definition ge (x y : Q) : bool := Qle_bool y x.
Definition lt (x y : Q) : bool := negb (Qle_bool y x).
Definition gt (x y : Q) : bool := negb (Qle_bool x y).

(** [datetime] values of [src/utils/datetime_helper.py]'s [now()]: local
    (Shanghai) microseconds since the epoch. *)
Definition datetime := Z.

(** [datetime.time]: a time of day. *)
Record time := mk_time { hour : Z; minute : Z; second : Z; microsecond : Z }.

Definition usec_per_day : Z := 86400 * 1000000.

(** [dt.time()] *)
Definition time_of (dt : datetime) : time :=
  let us := dt mod usec_per_day in
  {| hour := us / 3600000000;
     minute := (us / 60000000) mod 60;
     second := (us / 1000000) mod 60;
     microsecond := us mod 1000000 |}.

(** [dt.strftime('%Y-%m-%d')]: the calendar day, kept as its day number. *)
Definition date_of (dt : datetime) : Z := dt / usec_per_day.

(** [(a - b).total_seconds()] *)
Definition total_seconds (a b : datetime) : Q := (inject_Z (a - b) / 1000000)%Q.

(** [t1 > t2] on [datetime.time]: lexicographic on
    (hour, minute, second, microsecond). *)
Definition time_gt (t1 t2 : time) : bool :=
  if hour t1 =? hour t2 then
    if minute t1 =? minute t2 then
      if second t1 =? second t2 then microsecond t2 <? microsecond t1
      else second t2 <? second t1
    else minute t2 <? minute t1
  else hour t2 <? hour t1.

(** *** binary64 arithmetic

    A Python [float] is kept as the rational number it denotes.  Every
    arithmetic operation on floats rounds its exact result to the nearest
    binary64 value, ties to the even mantissa, as the interpreter does. *)

(** The integer [floor(log2 (a / d))] for [a, d > 0]. *)
Definition log2_floor (a d : Z) : Z :=
  let k := Z.log2 a - Z.log2 d in
  let above := if 0 <=? k then d * 2 ^ k <=? a else d <=? a * 2 ^ (- k) in
  if above then k else k - 1.

(** [n / d] rounded to an integer, ties to even ([n >= 0], [d > 0]). *)
Definition round_half_even (n d : Z) : Z :=
  let m := n / d in
  let r := n mod d in
  if d <? 2 * r then m + 1
  else if (2 * r =? d) && Z.odd m then m + 1
  else m.

(** The binary64 value nearest to [q]: a mantissa of 53 bits at most and
    an exponent of -1074 at least (so that small values fall on the
    subnormal grid).  Results beyond the largest binary64 value, which the
    interpreter turns into an infinity, are not part of the embedding. *)
Definition round64 (q : Q) : Q :=
  let n := Qnum q in
  let d := Zpos (Qden q) in
  if n =? 0 then 0%Q
  else
    let a := Z.abs n in
    let e := Z.max (log2_floor a d - 52) (-1074) in
    let m := if 0 <=? e then round_half_even a (d * 2 ^ e)
             else round_half_even (a * 2 ^ (- e)) d in
    let magnitude := if 0 <=? e then inject_Z (m * 2 ^ e)
                     else Qred (Qmake m (Z.to_pos (2 ^ (- e)))) in
    if n <? 0 then Qopp magnitude else magnitude.

(** A float literal: the binary64 value nearest to the decimal written. *)
Definition f64 (q : Q) : Q := round64 q.

(** [float(n)] for an [int], also when an [int] meets a float in an
    operation. *)
Definition of_int (n : Z) : Q := round64 (inject_Z n).

(** [x + y], [x - y], [x * y] on floats. *)
Definition fadd (x y : Q) : Q := round64 (x + y).
Definition fsub (x y : Q) : Q := round64 (x - y).
Definition fmul (x y : Q) : Q := round64 (x * y).

(** [x / y] on floats, for [y] other than 0. *)
Definition fdiv (x y : Q) : Q := round64 (x / y).

(** [a / b] on floats: raises [ZeroDivisionError] when [b == 0]. *)
Definition truediv (a b : Q) : pyresult Q :=
  if Qeq_bool b 0 then Raises "ZeroDivisionError" else Returns (fdiv a b).

(** The rational that a finite machine float denotes. *)
Definition value_of (x : float) : Q :=
  match Prim2SF x with
  | S754_finite negative m e =>
      let magnitude := if 0 <=? e then inject_Z (Zpos m * 2 ^ e)
                       else Qred (Qmake (Zpos m) (Z.to_pos (2 ^ (- e)))) in
      if negative then Qopp magnitude else magnitude
  | _ => 0%Q
  end.

End Py.

Import Py.

(** ** src/models/schemas.py *)

Module Schemas.

Inductive buy_amount_type_t := fixed | average.
Inductive order_type_t := limit | market.

Record AppConfig := {
  qmt_path : string;
  account_id : string;
  buy_amount_type : buy_amount_type_t;
  fixed_amount : option Q;
  order_type : order_type_t;
  notification_email : string
}.

Record StrategyConfig := {
  strategy_id : Z;
  strategy_name_cfg : string;
  history_id : Z;
  stop_profit_ratio : Q;
  stop_loss_ratio : Q
}.

Record Position := {
  pos_stock_code : string;
  pos_stock_name : string;
  pos_volume : Z;
  can_use_volume : Z;
  avg_price : Q
}.

Record Asset := {
  cash : Q;
  frozen_cash : Q;
  market_value : Q;
  total_asset : Q
}.

Record BondInfo := {
  code : string;
  name : string;
  price : option Q
}.

(** A row of the position ledger ([PositionRecord], and the columns of
    [PositionRecordTable]). *)
Record PositionRecord := {
  id : Z;
  stock_code : string;
  stock_name : string;
  volume : Z;
  buy_price : Q;
  buy_time : datetime;
  strategy_name : string
}.

End Schemas.

Import Schemas.

(** ** src/models/database.py *)

Module Database.

(** A row of [RefillQueueTable]. *)
Record RefillQueueRow := {
  rq_date : Z;
  rq_stock_code : string;
  rq_stock_name : string;
  rq_volume : Z;
  rq_sell_price : Q;
  rq_reason : string;
  rq_created_at : datetime
}.

(** The two tables the engine works on, rows in insertion order. *)
Record DB := {
  position_records : list PositionRecord;
  refill_queue : list RefillQueueRow
}.

Definition empty : DB := {| position_records := []; refill_queue := [] |}.

Definition with_position_records (db : DB) (rows : list PositionRecord) : DB :=
  {| position_records := rows; refill_queue := refill_queue db |}.

Definition with_refill_queue (db : DB) (rows : list RefillQueueRow) : DB :=
  {| position_records := position_records db; refill_queue := rows |}.

(** The integer primary key given to a new row: one more than the largest
    one in the table. *)
Definition next_id (rows : list PositionRecord) : Z :=
  1 + foldr Z.max 0 (id <$> rows).

(** [session.query(PositionRecordTable).filter_by(stock_code=...).first()]:
    the position in the table and the row. *)
Definition first_by_code (c : string) (rows : list PositionRecord)
  : option (nat * PositionRecord) :=
  list_find (λ r, stock_code r = c) rows.

Definition set_volume (r : PositionRecord) (v : Z) : PositionRecord :=
  {| id := id r; stock_code := stock_code r; stock_name := stock_name r;
     volume := v; buy_price := buy_price r; buy_time := buy_time r;
     strategy_name := strategy_name r |}.

Definition set_volume_price (r : PositionRecord) (v : Z) (p : Q) : PositionRecord :=
  {| id := id r; stock_code := stock_code r; stock_name := stock_name r;
     volume := v; buy_price := p; buy_time := buy_time r;
     strategy_name := strategy_name r |}.

(** [Database.add_position_record] *)
Definition add_position_record (db : DB) (c nm : string) (vol : Z)
    (bp : Q) (bt : datetime) (sn : string) : DB :=
  let rows := position_records db in
  match first_by_code c rows with
  | Some (i, existing) =>
      let total_value := fadd (fmul (of_int (volume existing)) (buy_price existing))
                              (fmul (of_int vol) bp) in
      let total_volume := volume existing + vol in
      let new_price :=
        if 0 <? total_volume then fdiv total_value (of_int total_volume) else bp in
      with_position_records db
        (<[i := set_volume_price existing total_volume new_price]> rows)
  | None =>
      with_position_records db
        (rows ++ [{| id := next_id rows; stock_code := c; stock_name := nm;
                     volume := vol; buy_price := bp; buy_time := bt;
                     strategy_name := sn |}])
  end.

(** [Database.get_position_records] *)
Definition get_position_records (db : DB) : list PositionRecord :=
  position_records db.

(** [Database.get_position_record] *)
Definition get_position_record (db : DB) (c : string) : option PositionRecord :=
  snd <$> first_by_code c (position_records db).

(** [Database.update_position_record] *)
Definition update_position_record (db : DB) (c : string) (sold_volume : Z) : DB :=
  let rows := position_records db in
  match first_by_code c rows with
  | Some (i, record) =>
      let record' := set_volume record (Z.max 0 (volume record - sold_volume)) in
      if volume record' <=? 0
      then with_position_records db (delete i rows)
      else with_position_records db (<[i := record']> rows)
  | None => db
  end.

(** [Database.delete_position_record] *)
Definition delete_position_record (db : DB) (c : string) : DB :=
  with_position_records db
    (filter (λ r, stock_code r ≠ c) (position_records db)).

(** [Database.add_refill_queue] with [date=None]: the row is stamped with
    today's date and the current time. *)
Definition add_refill_queue (db : DB) (now : datetime) (c nm : string)
    (vol : Z) (sell_price : Q) (reason : string) : DB :=
  with_refill_queue db
    (refill_queue db ++
       [{| rq_date := date_of now; rq_stock_code := c; rq_stock_name := nm;
           rq_volume := vol; rq_sell_price := sell_price; rq_reason := reason;
           rq_created_at := now |}]).

(** [ORDER BY created_at], as a stable insertion. *)
Fixpoint insert_by_created_at (r : RefillQueueRow) (l : list RefillQueueRow)
  : list RefillQueueRow :=
  match l with
  | [] => [r]
  | x :: l' =>
      if rq_created_at r <? rq_created_at x then r :: l
      else x :: insert_by_created_at r l'
  end.

Definition order_by_created_at (l : list RefillQueueRow) : list RefillQueueRow :=
  foldl (λ acc r, insert_by_created_at r acc) [] l.

(** [Database.get_refill_queue] with [date=None] *)
Definition get_refill_queue (db : DB) (now : datetime) : list RefillQueueRow :=
  order_by_created_at
    (filter (λ r, rq_date r = date_of now) (refill_queue db)).

(** [Database.clear_refill_queue] with [date=None] *)
Definition clear_refill_queue (db : DB) (now : datetime) : DB :=
  with_refill_queue db
    (filter (λ r, rq_date r ≠ date_of now) (refill_queue db)).

(** [Database.is_refill_queue_empty] with [date=None] *)
Definition is_refill_queue_empty (db : DB) (now : datetime) : bool :=
  bool_decide (length (filter (λ r, rq_date r = date_of now) (refill_queue db)) = 0%nat).

(** A row of [StrategyTable]; its columns are nullable.  The two JSON
    columns are not read by the trading logic and are left out, as in
    [StrategyConfig]. *)
Record StrategyRow := {
  row_strategy_id : option Z;
  row_strategy_name : option string;
  row_history_id : option Z;
  row_stop_profit_ratio : option Q;
  row_stop_loss_ratio : option Q
}.

(** [x or 0] on an optional integer and [x or ''] on an optional string. *)
Definition int_or_zero (x : option Z) : Z := default 0 x.
Definition str_or_empty (x : option string) : string := default "" x.

(** [Database.get_strategy_config]; [table] holds the rows of
    [current_strategy] in insertion order. *)
Definition get_strategy_config (table : list StrategyRow) : option StrategyConfig :=
  match table with
  | [] => None
  | row :: _ =>
      match row_strategy_id row with
      | None => None
      | Some sid =>
          if sid =? 0 then None
          else
            Some {| strategy_id := sid;
                    strategy_name_cfg := str_or_empty (row_strategy_name row);
                    history_id := int_or_zero (row_history_id row);
                    stop_profit_ratio :=
                      or_default (row_stop_profit_ratio row) (f64 (1 # 10));
                    stop_loss_ratio :=
                      or_default (row_stop_loss_ratio row) (f64 (5 # 100)) |}
      end
  end.

(** [Database.save_strategy_config]: the first row is overwritten, or a row
    is added to the empty table. *)
Definition save_strategy_config (table : list StrategyRow) (strategy : StrategyConfig)
  : list StrategyRow :=
  let data := {| row_strategy_id := Some (strategy_id strategy);
                 row_strategy_name := Some (strategy_name_cfg strategy);
                 row_history_id := Some (history_id strategy);
                 row_stop_profit_ratio := Some (stop_profit_ratio strategy);
                 row_stop_loss_ratio := Some (stop_loss_ratio strategy) |} in
  match table with
  | [] => [data]
  | _ :: rest => data :: rest
  end.

(** [Database.clear_strategy_config] *)
Definition clear_strategy_config (table : list StrategyRow) : list StrategyRow := [].

End Database.

(** ** src/services/qmt_service.py *)

Module QMTService.

(** What [ensure_connected] does to the outside world, in order. *)
Inductive event :=
| Probe                   (* a call of [health_check()] *)
| Sleep (interval : Q).   (* a call of [time.sleep(retry_interval)] *)

Definition is_probe (e : event) : bool :=
  match e with Probe => true | Sleep _ => false end.
Definition is_sleep (e : event) : bool :=
  match e with Probe => false | Sleep _ => true end.

(** The loop [for attempt in range(max_retries)], from iteration [attempt]
    with [todo] iterations left.  [health_check k] is what the [k]-th call
    of the expensive check answers (counting from 0). *)
Fixpoint ensure_connected_from (health_check : nat → bool)
    (max_retries : Z) (retry_interval : Q) (todo attempt : nat)
  : bool * list event :=
  match todo with
  | O => (false, [])
  | S todo' =>
      if health_check attempt then (true, [Probe])
      else
        let pause :=
          if Z.of_nat attempt <? max_retries - 1
          then [Sleep retry_interval] else [] in
        let rest := ensure_connected_from health_check max_retries
                      retry_interval todo' (S attempt) in
        (fst rest, Probe :: pause ++ snd rest)
  end.

(** [QMTService.ensure_connected] *)
Definition ensure_connected (health_check : nat → bool)
    (max_retries : Z) (retry_interval : Q) : bool * list event :=
  ensure_connected_from health_check max_retries retry_interval
    (Z.to_nat max_retries) 0.

End QMTService.

(** ** src/services/auto_trade_service.py *)

Module AutoTradeService.
Import Database.

(** The fields of [AutoTradeService] that the trading logic reads and
    writes; [database] holds the current contents of the tables. *)
Record Service := {
  app_config : option AppConfig;
  strategy_config : option StrategyConfig;
  database : option DB
}.

Definition with_database (self : Service) (db : DB) : Service :=
  {| app_config := app_config self; strategy_config := strategy_config self;
     database := Some db |}.

(** The dict returned by [qmt.get_quote]. *)
Record Quote := { lastPrice : option Q; lastClose : option Q }.

(** An order handed to the terminal ([qmt.buy_stock] / [qmt.sell_stock]). *)
Inductive side := Buy | Sell.
Record Order := {
  o_side : side;
  o_stock_code : string;
  o_volume : Z;
  o_price : Q;
  o_price_type : order_type_t
}.

(** [self.app_config.order_type if self.app_config else "limit"] *)
Definition order_type_of (self : Service) : order_type_t :=
  match app_config self with Some cfg => order_type cfg | None => limit end.

(** *** execute_rebalance: the reconciliation *)

Record RebalanceEnv := {
  rb_is_connected : bool;                      (* qmt.is_connected() *)
  rb_ensure_connected : bool;                  (* qmt.ensure_connected(2, 1.0) *)
  rb_today_bonds : pyresult (list BondInfo);   (* factorcat.get_today_bonds(history_id) *)
  rb_positions : pyresult (list Position)      (* qmt.get_positions() *)
}.

(** [{bond.code for bond in target_bonds}] *)
Definition target_codes_of (target_bonds : list BondInfo) : gset string :=
  list_to_set (code <$> target_bonds).

(** [{pos.stock_code for pos in current_positions}] *)
Definition current_codes_of (current_positions : list Position) : gset string :=
  list_to_set (pos_stock_code <$> current_positions).

(** [{r.stock_code: r for r in records}]: a later row replaces an earlier
    one with the same code. *)
Definition records_by_code (records : list PositionRecord)
  : gmap string PositionRecord :=
  foldl (λ d r, <[stock_code r := r]> d) ∅ records.

(** [project_records]: empty without a database. *)
Definition project_records_of (self : Service) : gmap string PositionRecord :=
  match database self with
  | Some db => records_by_code (get_position_records db)
  | None => ∅
  end.

Record RebalancePlan := {
  to_sell_codes : gset string;
  to_buy : gset string
}.

(** [execute_rebalance] up to and including the computation of
    [to_sell_codes] and [to_buy]; [None] when the run stops before. *)
Definition execute_rebalance_plan (self : Service) (env : RebalanceEnv)
  : option RebalancePlan :=
  match strategy_config self with
  | None => None
  | Some _ =>
      if negb (rb_is_connected env) then None
      else if negb (rb_ensure_connected env) then None
      else
        match rb_today_bonds env with
        | Raises _ => None
        | Returns target_bonds =>
            let target_codes := target_codes_of target_bonds in
            match target_bonds with
            | [] => None
            | _ :: _ =>
                match rb_positions env with
                | Raises _ => None
                | Returns current_positions =>
                    let current_codes := current_codes_of current_positions in
                    let project_records := project_records_of self in
                    Some {| to_sell_codes :=
                              dom project_records ∩ (current_codes ∖ target_codes);
                            to_buy := target_codes ∖ current_codes |}
                end
            end
        end
  end.

(** *** _calculate_buy_amount *)

Definition _calculate_buy_amount (self : Service) (get_asset : pyresult Asset)
    (bond_count : Z) : pyresult Q :=
  match app_config self with
  | None => Returns 0%Q
  | Some cfg =>
      if bond_count <=? 0 then Returns 0%Q
      else
        match buy_amount_type cfg with
        | fixed => Returns (or_default (fixed_amount cfg) 10000)
        | average =>
            try_except
              (asset ← get_asset;
               let available := cash asset in
               truediv available (of_int bond_count))
              (λ _, Returns 10000%Q)
        end
  end.

(** *** _buy_bond *)

Record BuyEnv := {
  by_ensure_connected : bool;        (* qmt.ensure_connected(1, 0.5) *)
  by_quote : pyresult Quote;         (* qmt.get_quote(stock_code) *)
  by_order_id : pyresult Z;          (* qmt.buy_stock(...) *)
  by_stock_name : pyresult string;   (* qmt.get_stock_name(stock_code) *)
  by_now : datetime                  (* now() *)
}.

(** [int(amount / price / 10) * 10] *)
Definition buy_volume (amount price : Q) : Z :=
  int_of (fdiv (fdiv amount price) 10) * 10.

(** The same expression on machine floats. *)
Definition buy_volume_binary64 (amount price : float) : Z :=
  int_of_binary64 (amount / price / 10)%float * 10.

(** [_buy_bond]: the new service state and the order handed to the
    terminal, if any. *)
Definition _buy_bond (self : Service) (env : BuyEnv) (c : string) (amount : Q)
  : Service * option Order :=
  if negb (by_ensure_connected env) then (self, None)
  else
    match by_quote env with
    | Raises _ => (self, None)
    | Returns quote =>
        let price := get_or_zero (lastPrice quote) in
        if Py.le price 0 then (self, None)
        else
          let vol := buy_volume amount price in
          if vol <? 10 then (self, None)
          else
            let order := {| o_side := Buy; o_stock_code := c; o_volume := vol;
                            o_price := price; o_price_type := order_type_of self |} in
            match by_order_id env with
            | Raises _ => (self, Some order)
            | Returns order_id =>
                if 0 <? order_id then
                  match database self, by_stock_name env with
                  | Some db, Returns nm =>
                      (with_database self
                         (add_position_record db c nm vol price (by_now env)
                            "调仓买入"),
                       Some order)
                  | _, _ => (self, Some order)
                  end
                else (self, Some order)
            end
    end.

(** *** _sell_bond *)

Record SellEnv := {
  sl_ensure_connected : bool;        (* qmt.ensure_connected(1, 0.5) *)
  sl_quote : pyresult Quote;         (* qmt.get_quote(stock_code) *)
  sl_is_suspended : bool;            (* qmt.is_suspended(stock_code) *)
  sl_order_id : pyresult Z           (* qmt.sell_stock(...) *)
}.

(** [next((p for p in positions if p.stock_code == stock_code), None)] *)
Definition find_position (c : string) (positions : list Position) : option Position :=
  snd <$> list_find (λ p, pos_stock_code p = c) positions.

Definition _sell_bond (self : Service) (env : SellEnv) (c : string)
    (positions : list Position) (record : option PositionRecord)
  : Service * option Order :=
  match find_position c positions with
  | None => (self, None)
  | Some pos =>
      if can_use_volume pos <=? 0 then (self, None)
      else
        let sell_volume :=
          match record with
          | Some r => Z.min (volume r) (can_use_volume pos)
          | None => can_use_volume pos
          end in
        if sell_volume <=? 0 then (self, None)
        else if negb (sl_ensure_connected env) then (self, None)
        else
          match sl_quote env with
          | Raises _ => (self, None)
          | Returns quote =>
              let price := get_or_zero (lastPrice quote) in
              if Py.le price 0 then (self, None)
              else if sl_is_suspended env then (self, None)
              else
                let order := {| o_side := Sell; o_stock_code := c;
                                o_volume := sell_volume; o_price := price;
                                o_price_type := order_type_of self |} in
                match sl_order_id env with
                | Raises _ => (self, Some order)
                | Returns order_id =>
                    if 0 <? order_id then
                      match database self, record with
                      | Some db, Some _ =>
                          (with_database self
                             (update_position_record db c sell_volume),
                           Some order)
                      | _, _ => (self, Some order)
                      end
                    else (self, Some order)
                end
          end
  end.

(** *** execute_rebalance: the sells and the buys *)

Record TradeEnv := {
  tr_sell : string → SellEnv;       (* the terminal, when the code is sold *)
  tr_asset : pyresult Asset;        (* qmt.get_asset() *)
  tr_buy : string → BuyEnv          (* the terminal, when the code is bought *)
}.

(** The loop [for code in to_sell_codes: self._sell_bond(code,
    current_positions, project_records.get(code))]. *)
Fixpoint sell_codes (self : Service) (sell : string → SellEnv)
    (current_positions : list Position)
    (project_records : gmap string PositionRecord) (codes : list string)
  : Service * list Order :=
  match codes with
  | [] => (self, [])
  | c :: rest =>
      let '(self1, order) :=
        _sell_bond self (sell c) c current_positions (project_records !! c) in
      let '(self2, orders) :=
        sell_codes self1 sell current_positions project_records rest in
      (self2, option_list order ++ orders)
  end.

(** The loop [for code in to_buy: self._buy_bond(code, buy_amount)]. *)
Fixpoint buy_codes (self : Service) (buy : string → BuyEnv) (amount : Q)
    (codes : list string) : Service * list Order :=
  match codes with
  | [] => (self, [])
  | c :: rest =>
      let '(self1, order) := _buy_bond self (buy c) c amount in
      let '(self2, orders) := buy_codes self1 buy amount rest in
      (self2, option_list order ++ orders)
  end.

(** [execute_rebalance]: the new state and the orders handed to the
    terminal.  A Python set is iterated in an order of its own; [elements]
    stands for it. *)
Definition execute_rebalance (self : Service) (env : RebalanceEnv)
    (trade : TradeEnv) : Service * list Order :=
  match execute_rebalance_plan self env, rb_positions env with
  | Some plan, Returns current_positions =>
      let project_records := project_records_of self in
      let '(self1, sells) :=
        sell_codes self (tr_sell trade) current_positions project_records
          (elements (to_sell_codes plan)) in
      match _calculate_buy_amount self1 (tr_asset trade)
              (Z.of_nat (size (to_buy plan))) with
      | Returns buy_amount =>
          let '(self2, buys) :=
            buy_codes self1 (tr_buy trade) buy_amount (elements (to_buy plan)) in
          (self2, sells ++ buys)
      | Raises _ => (self1, sells)
      end
  | _, _ => (self, [])
  end.

(** *** The risk monitor *)

(** The reason of a protective sell: ["止盈"] or ["止损"]. *)
Inductive stop_reason := stop_profit | stop_loss.

Definition reason_text (r : stop_reason) : string :=
  match r with stop_profit => "止盈" | stop_loss => "止损" end.

(** The dict returned by [_execute_stop_order] on success. *)
Record SoldInfo := {
  si_stock_code : string;
  si_stock_name : string;
  si_volume : Z;
  si_sell_price : Q;
  si_reason : stop_reason
}.

Record CheckEnv := {
  ck_ensure_connected : bool;        (* qmt.ensure_connected(1, 0.5) *)
  ck_quote : pyresult Quote;         (* qmt.get_quote(pos.stock_code) *)
  ck_is_suspended : bool;            (* qmt.is_suspended(pos.stock_code) *)
  ck_order_id : pyresult Z           (* qmt.sell_stock(...) *)
}.

Record StopResult := {
  sr_self : Service;
  sr_order : option Order;
  sr_sold : option SoldInfo
}.

Definition no_sale (self : Service) : StopResult :=
  {| sr_self := self; sr_order := None; sr_sold := None |}.

(** [_execute_stop_order] *)
Definition _execute_stop_order (self : Service) (sell_order_id : pyresult Z)
    (pos : Position) (record : PositionRecord) (price : Q) (reason : stop_reason)
  : StopResult :=
  let sell_volume := Z.min (volume record) (can_use_volume pos) in
  if sell_volume <=? 0 then no_sale self
  else
    let order := {| o_side := Sell; o_stock_code := pos_stock_code pos;
                    o_volume := sell_volume; o_price := price;
                    o_price_type := order_type_of self |} in
    match sell_order_id with
    | Raises _ => {| sr_self := self; sr_order := Some order; sr_sold := None |}
    | Returns order_id =>
        if 0 <? order_id then
          {| sr_self :=
               match database self with
               | Some db =>
                   with_database self
                     (update_position_record db (pos_stock_code pos) sell_volume)
               | None => self
               end;
             sr_order := Some order;
             sr_sold := Some {| si_stock_code := pos_stock_code pos;
                                si_stock_name := pos_stock_name pos;
                                si_volume := sell_volume;
                                si_sell_price := price;
                                si_reason := reason |} |}
        else {| sr_self := self; sr_order := Some order; sr_sold := None |}
    end.

(** [(current_price - last_close) / last_close] *)
Definition pct_change_of (current_price last_close : Q) : Q :=
  fdiv (fsub current_price last_close) last_close.

(** The [if pct_change >= profit_ratio: ... elif pct_change <= -loss_ratio: ...]
    of [_check_single_position]: which sell path is entered. *)
Definition stop_branch (pct_change profit_ratio loss_ratio : Q) : option stop_reason :=
  if Py.ge pct_change profit_ratio then Some stop_profit
  else if Py.le pct_change (- loss_ratio)%Q then Some stop_loss
  else None.

(** [_check_single_position] up to the call of [_execute_stop_order]: the
    price to sell at and the path entered, [None] when the position is
    left alone. *)
Definition stop_path (env : CheckEnv) (profit_ratio loss_ratio : Q)
  : option (Q * stop_reason) :=
  if negb (ck_ensure_connected env) then None
  else
    match ck_quote env with
    | Raises _ => None
    | Returns quote =>
        let current_price := get_or_zero (lastPrice quote) in
        let last_close := get_or_zero (lastClose quote) in
        if Py.le current_price 0 then None
        else if ck_is_suspended env then None
        else if Py.le last_close 0 then None
        else
          let pct_change := pct_change_of current_price last_close in
          (λ reason, (current_price, reason))
            <$> stop_branch pct_change profit_ratio loss_ratio
    end.

(** [_check_single_position] *)
Definition _check_single_position (self : Service) (env : CheckEnv)
    (pos : Position) (record : PositionRecord) (profit_ratio loss_ratio : Q)
  : StopResult :=
  match stop_path env profit_ratio loss_ratio with
  | Some (current_price, reason) =>
      _execute_stop_order self (ck_order_id env) pos record current_price reason
  | None => no_sale self
  end.

(** *** The replenishment queue *)

(** [datetime.strptime("14:50", "%H:%M").time()] *)
Definition refill_deadline : time := mk_time 14 50 0 0.

(** The loop [for item in sold_items: self.database.add_refill_queue(...)];
    [clock k] is the clock reading of the [k]-th insertion. *)
Fixpoint add_items (db : DB) (clock : nat → datetime) (k : nat)
    (sold_items : list SoldInfo) : DB :=
  match sold_items with
  | [] => db
  | item :: rest =>
      add_items
        (add_refill_queue db (clock k) (si_stock_code item) (si_stock_name item)
           (si_volume item) (si_sell_price item) (reason_text (si_reason item)))
        clock (S k) rest
  end.

(** [_add_to_refill_queue]; [now_time] is the reading of [now()] that is
    compared with the deadline. *)
Definition _add_to_refill_queue (self : Service) (now_time : datetime)
    (clock : nat → datetime) (sold_items : list SoldInfo) : Service :=
  match sold_items with
  | [] => self
  | _ :: _ =>
      match database self with
      | None => self
      | Some db =>
          let current_time := time_of now_time in
          if time_gt current_time refill_deadline then self
          else with_database self (add_items db clock 0 sold_items)
      end
  end.

(** *** execute_stop_profit_loss_check *)

Record MonitorEnv := {
  mn_is_connected : bool;                  (* qmt.is_connected() *)
  mn_positions : pyresult (list Position); (* qmt.get_positions() *)
  mn_check : nat → CheckEnv;               (* the terminal, at the k-th ledger row *)
  mn_now : datetime;                       (* now() in _add_to_refill_queue *)
  mn_clock : nat → datetime                (* now() at the k-th queue insertion *)
}.

(** [{pos.stock_code: pos for pos in positions}] *)
Definition positions_by_code (positions : list Position) : gmap string Position :=
  foldl (λ d p, <[pos_stock_code p := p]> d) ∅ positions.

(** The loop [for record in project_records] with its [sold_items]. *)
Fixpoint check_records (self : Service) (check : nat → CheckEnv) (k : nat)
    (position_dict : gmap string Position) (profit_ratio loss_ratio : Q)
    (project_records : list PositionRecord)
  : Service * list Order * list SoldInfo :=
  match project_records with
  | [] => (self, [], [])
  | record :: rest =>
      match position_dict !! stock_code record with
      | Some pos =>
          let res := _check_single_position self (check k) pos record
                       profit_ratio loss_ratio in
          let '(self', orders, sold) :=
            check_records (sr_self res) check (S k) position_dict
              profit_ratio loss_ratio rest in
          (self', (option_list (sr_order res) ++ orders)%list,
           (option_list (sr_sold res) ++ sold)%list)
      | None =>
          check_records self check (S k) position_dict
            profit_ratio loss_ratio rest
      end
  end.

Definition execute_stop_profit_loss_check (self : Service) (env : MonitorEnv)
  : Service * list Order :=
  match strategy_config self with
  | None => (self, [])
  | Some strategy =>
      if negb (mn_is_connected env) then (self, [])
      else
        match database self with
        | None => (self, [])
        | Some db =>
            match get_position_records db with
            | [] => (self, [])
            | project_records =>
                match mn_positions env with
                | Raises _ => (self, [])
                | Returns positions =>
                    let position_dict := positions_by_code positions in
                    let profit_ratio := stop_profit_ratio strategy in
                    let loss_ratio := stop_loss_ratio strategy in
                    let '(self', orders, sold_items) :=
                      check_records self (mn_check env) 0 position_dict
                        profit_ratio loss_ratio project_records in
                    (_add_to_refill_queue self' (mn_now env) (mn_clock env)
                       sold_items,
                     orders)
                end
            end
        end
  end.

(** *** execute_scheduled_refill *)

Record RefillEnv := {
  rf_is_connected : bool;                      (* qmt.is_connected() *)
  rf_now_get : datetime;                       (* now() in get_refill_queue *)
  rf_today_bonds : pyresult (list BondInfo);   (* factorcat.get_today_bonds(history_id) *)
  rf_positions : pyresult (list Position);     (* qmt.get_positions() *)
  rf_asset : pyresult Asset;                   (* qmt.get_asset() *)
  rf_buy : nat → BuyEnv;                       (* the terminal, at the k-th buy *)
  rf_now_clear : datetime                      (* now() in clear_refill_queue *)
}.

(** [{item['stock_code'] for item in refill_queue}] *)
Definition queue_codes_of (refill_queue : list RefillQueueRow) : gset string :=
  list_to_set (rq_stock_code <$> refill_queue).

(** Steps 5 to 7: [current_codes -= {queued codes}] and
    [[bond for bond in target_bonds if bond.code not in current_codes]]. *)
Definition refill_candidates (target_bonds : list BondInfo)
    (positions : list Position) (refill_queue : list RefillQueueRow)
  : list BondInfo :=
  let current_codes := current_codes_of positions ∖ queue_codes_of refill_queue in
  filter (λ bond, code bond ∉ current_codes) target_bonds.

(** Step 8: [candidates[:total_refill_count]]. *)
Definition refill_to_buy (target_bonds : list BondInfo)
    (positions : list Position) (refill_queue : list RefillQueueRow)
  : list BondInfo :=
  let total_refill_count := length refill_queue in
  take total_refill_count (refill_candidates target_bonds positions refill_queue).

(** The loop [for bond in to_buy: self._buy_bond(bond.code, buy_amount)]:
    the codes [_buy_bond] is called with, in order, and the orders made. *)
Fixpoint buy_each (self : Service) (buy : nat → BuyEnv) (k : nat) (amount : Q)
    (bonds : list BondInfo) : Service * list string * list Order :=
  match bonds with
  | [] => (self, [], [])
  | bond :: rest =>
      let '(self1, order) := _buy_bond self (buy k) (code bond) amount in
      let '(self2, called, orders) := buy_each self1 buy (S k) amount rest in
      (self2, code bond :: called, (option_list order ++ orders)%list)
  end.

(** [execute_scheduled_refill]: the new state, the codes [_buy_bond] was
    called with and the orders made. *)
Definition execute_scheduled_refill (self : Service) (env : RefillEnv)
  : Service * list string * list Order :=
  match strategy_config self with
  | None => (self, [], [])
  | Some _ =>
      if negb (rf_is_connected env) then (self, [], [])
      else
        match database self with
        | None => (self, [], [])
        | Some db =>
            match get_refill_queue db (rf_now_get env) with
            | [] => (self, [], [])
            | refill_queue =>
                match rf_today_bonds env with
                | Raises _ | Returns [] => (self, [], [])
                | Returns target_bonds =>
                    match rf_positions env with
                    | Raises _ => (self, [], [])
                    | Returns positions =>
                        match refill_candidates target_bonds positions refill_queue with
                        | [] => (self, [], [])
                        | _ :: _ =>
                            let to_buy :=
                              refill_to_buy target_bonds positions refill_queue in
                            match _calculate_buy_amount self (rf_asset env)
                                    (Z.of_nat (length to_buy)) with
                            | Raises _ => (self, [], [])
                            | Returns buy_amount =>
                                if Py.le buy_amount 0 then (self, [], [])
                                else
                                  let '(self', called, orders) :=
                                    buy_each self (rf_buy env) 0 buy_amount to_buy in
                                  (match database self' with
                                   | Some db' =>
                                       with_database self'
                                         (clear_refill_queue db' (rf_now_clear env))
                                   | None => self'
                                   end,
                                   called, orders)
                            end
                        end
                    end
                end
            end
        end
  end.

(** *** get_positions_with_quote *)

(** A dict of the list returned by [get_positions_with_quote], without its
    ['market_value'] entry. *)
Record PositionView := {
  pv_stock_code : string;
  pv_stock_name : string;
  pv_volume : Z;
  pv_can_use_volume : Z;
  pv_avg_price : Q;
  pv_current_price : Q;
  pv_profit_loss : Q;
  pv_profit_loss_ratio : Q;
  pv_stop_profit_price : Q;
  pv_stop_loss_price : Q
}.

Record ViewEnv := {
  vw_is_connected : bool;                   (* qmt.is_connected() *)
  vw_ensure_connected : bool;               (* qmt.ensure_connected(1, 0.5) *)
  vw_positions : pyresult (list Position);  (* qmt.get_positions() *)
  vw_quote : string → pyresult Quote        (* qmt.get_quote(pos.stock_code) *)
}.

(** The keys of [{r.stock_code: r for r in records}] in the order the dict
    iterates them: each code once, at the place of its first row. *)
Definition dict_keys (records : list PositionRecord) : list string :=
  foldl (λ keys r, if decide (stock_code r ∈ keys) then keys
                   else keys ++ [stock_code r]) [] records.

(** [stock_code.startswith('11') or stock_code.startswith('12')] *)
Definition is_bond_code (c : string) : bool :=
  String.prefix "11" c || String.prefix "12" c.

(** The dict built for one position from its quote. *)
Definition position_view (self : Service) (pos : Position) (quote : Quote)
  : PositionView :=
  let current_price := get_or_zero (lastPrice quote) in
  let profit_loss :=
    if Py.gt current_price 0
    then fmul (fsub current_price (avg_price pos)) (of_int (pos_volume pos))
    else 0%Q in
  let profit_loss_ratio :=
    if Py.gt (avg_price pos) 0 && Py.gt current_price 0
    then fdiv (fsub current_price (avg_price pos)) (avg_price pos) else 0%Q in
  let '(stop_profit_price, stop_loss_price) :=
    match strategy_config self with
    | Some strategy =>
        let last_close := get_or_zero (lastClose quote) in
        if Py.gt last_close 0
        then (fmul last_close (fadd 1 (stop_profit_ratio strategy)),
              fmul last_close (fsub 1 (stop_loss_ratio strategy)))
        else (0%Q, 0%Q)
    | None => (0%Q, 0%Q)
    end in
  {| pv_stock_code := pos_stock_code pos;
     pv_stock_name := pos_stock_name pos;
     pv_volume := pos_volume pos;
     pv_can_use_volume := can_use_volume pos;
     pv_avg_price := avg_price pos;
     pv_current_price := current_price;
     pv_profit_loss := profit_loss;
     pv_profit_loss_ratio := profit_loss_ratio;
     pv_stop_profit_price := stop_profit_price;
     pv_stop_loss_price := stop_loss_price |}.

(** The loop [for stock_code, record in project_records.items()]. *)
Fixpoint view_codes (self : Service) (get_quote : string → pyresult Quote)
    (position_dict : gmap string Position) (codes : list string)
  : pyresult (list PositionView) :=
  match codes with
  | [] => Returns []
  | c :: rest =>
      match position_dict !! c with
      | None => view_codes self get_quote position_dict rest
      | Some pos =>
          if pos_volume pos <=? 0 then view_codes self get_quote position_dict rest
          else if negb (is_bond_code c) then
            view_codes self get_quote position_dict rest
          else
            quote ← get_quote (pos_stock_code pos);
            result ← view_codes self get_quote position_dict rest;
            Returns (position_view self pos quote :: result)
      end
  end.

(** [get_positions_with_quote] *)
Definition get_positions_with_quote (self : Service) (env : ViewEnv)
  : pyresult (list PositionView) :=
  if negb (vw_is_connected env) then Returns []
  else if negb (vw_ensure_connected env) then Returns []
  else
    match database self with
    | None => Returns []
    | Some db =>
        match get_position_records db with
        | [] => Returns []
        | records =>
            positions ← vw_positions env;
            let position_dict := positions_by_code positions in
            view_codes self (vw_quote env) position_dict (dict_keys records)
        end
    end.

End AutoTradeService.

(** ** src/api/api.py: connection health check and reconnection *)

Module Api.

(** What a health-check firing does to the outside world, in order. *)
Inductive event :=
| AddLog (level : string)                (* self._add_log(level, ...) *)
| Disconnect                             (* self.qmt.disconnect() *)
| Sleep (seconds : Z)                    (* time.sleep(2) *)
| Connect                                (* self.qmt.connect(path, account) *)
| ErrorNotification (title : string)     (* notification.send_trade_error_notification *)
| SuccessNotification (title : string).  (* notification.send_trade_success_notification *)

#[global] Instance event_eq_dec : EqDecision event.
Proof. solve_decision. Defined.

(** The health/reconnect fields of [Api]. *)
Record State := {
  _running : bool;
  _qmt_reconnect_count : Z;
  _qmt_max_reconnect_attempts : Z;
  _qmt_last_health_check_time : option datetime;
  _qmt_last_reconnect_time : option datetime
}.

(** The values set by [Api.__init__]. *)
Definition init : State :=
  {| _running := false; _qmt_reconnect_count := 0;
     _qmt_max_reconnect_attempts := 3;
     _qmt_last_health_check_time := None;
     _qmt_last_reconnect_time := None |}.

(** The assignments a successful [start_trading] makes to these fields. *)
Definition start_trading (st : State) : State :=
  {| _running := true; _qmt_reconnect_count := 0;
     _qmt_max_reconnect_attempts := _qmt_max_reconnect_attempts st;
     _qmt_last_health_check_time := _qmt_last_health_check_time st;
     _qmt_last_reconnect_time := _qmt_last_reconnect_time st |}.

(** The assignments a successful [stop_trading] makes to these fields. *)
Definition stop_trading (st : State) : State :=
  {| _running := false; _qmt_reconnect_count := 0;
     _qmt_max_reconnect_attempts := _qmt_max_reconnect_attempts st;
     _qmt_last_health_check_time := None;
     _qmt_last_reconnect_time := None |}.

Definition set_count (st : State) (n : Z) : State :=
  {| _running := _running st; _qmt_reconnect_count := n;
     _qmt_max_reconnect_attempts := _qmt_max_reconnect_attempts st;
     _qmt_last_health_check_time := _qmt_last_health_check_time st;
     _qmt_last_reconnect_time := _qmt_last_reconnect_time st |}.

Definition set_last_health_check_time (st : State) (t : datetime) : State :=
  {| _running := _running st; _qmt_reconnect_count := _qmt_reconnect_count st;
     _qmt_max_reconnect_attempts := _qmt_max_reconnect_attempts st;
     _qmt_last_health_check_time := Some t;
     _qmt_last_reconnect_time := _qmt_last_reconnect_time st |}.

Definition set_last_reconnect_time (st : State) (t : datetime) : State :=
  {| _running := _running st; _qmt_reconnect_count := _qmt_reconnect_count st;
     _qmt_max_reconnect_attempts := _qmt_max_reconnect_attempts st;
     _qmt_last_health_check_time := _qmt_last_health_check_time st;
     _qmt_last_reconnect_time := Some t |}.

(** What the collaborators answer during one firing of the health check. *)
Record FiringEnv := {
  fe_now_health : datetime;         (* now() in _qmt_health_check_callback *)
  fe_healthy : bool;                (* qmt.health_check_simple(timeout=3.0) *)
  fe_now_cooldown : datetime;       (* now() in the cool-down test *)
  fe_now_attempt : datetime;        (* now() stored as _qmt_last_reconnect_time *)
  fe_config : pyresult AppConfig;   (* db.get_config() *)
  fe_connect : pyresult bool;       (* qmt.connect(path, account) *)
  fe_revalidated : bool             (* qmt.is_connected() and qmt.health_check() *)
}.

(** The [except Exception as reconnect_error] handler of [_reconnect_qmt]. *)
Definition reconnect_failed (st : State) (done : list event) : State * list event :=
  (st,
   done ++ [AddLog "ERROR"] ++
     (if _qmt_max_reconnect_attempts st <=? _qmt_reconnect_count st
      then [ErrorNotification "QMT重连失败"] else []))%list.

(** [Api._reconnect_qmt] *)
Definition _reconnect_qmt (st : State) (env : FiringEnv) : State * list event :=
  if _qmt_max_reconnect_attempts st <=? _qmt_reconnect_count st then
    (st, [AddLog "ERROR"; ErrorNotification "QMT连接异常"])
  else
    let too_soon :=
      match _qmt_last_reconnect_time st with
      | Some last =>
          let time_since_last_reconnect := total_seconds (fe_now_cooldown env) last in
          Py.lt time_since_last_reconnect 60
      | None => false
      end in
    if too_soon then (st, [])
    else
      let st := set_last_reconnect_time st (fe_now_attempt env) in
      let st := set_count st (_qmt_reconnect_count st + 1) in
      let done := [AddLog "INFO"] in
      match fe_config env with
      | Raises _ => reconnect_failed st done
      | Returns config =>
          if bool_decide (qmt_path config = "") || bool_decide (account_id config = "")
          then (st, done)
          else
            let done := (done ++ [Disconnect; Sleep 2; Connect])%list in
            match fe_connect env with
            | Raises _ => reconnect_failed st done
            | Returns _ =>
                if fe_revalidated env then
                  (set_count st 0,
                   (done ++ [AddLog "SUCCESS"; SuccessNotification "QMT重连成功"])%list)
                else reconnect_failed st done
            end
      end.

(** [Api._qmt_health_check_callback] *)
Definition _qmt_health_check_callback (st : State) (env : FiringEnv)
  : State * list event :=
  if negb (_running st) then (st, [])
  else
    let st := set_last_health_check_time st (fe_now_health env) in
    let is_healthy := fe_healthy env in
    if negb is_healthy then
      let '(st', done) := _reconnect_qmt st env in
      (st', AddLog "WARNING" :: done)
    else if 0 <? _qmt_reconnect_count st then
      (set_count st 0, [AddLog "SUCCESS"])
    else (st, []).

(** Successive firings of the health-check job. *)
Fixpoint firings (st : State) (envs : list FiringEnv) : State * list event :=
  match envs with
  | [] => (st, [])
  | env :: rest =>
      let '(st1, done1) := _qmt_health_check_callback st env in
      let '(st2, done2) := firings st1 rest in
      (st2, (done1 ++ done2)%list)
  end.

Definition is_reconnect_step (e : event) : bool :=
  match e with Disconnect | Connect => true | _ => false end.

Definition is_terminal_notification (e : event) : bool :=
  match e with ErrorNotification _ => true | _ => false end.

(** *** The log buffer *)

(** An entry of [self._log_entries]. *)
Record LogEntry := {
  log_time : string;      (* now().strftime('%Y-%m-%d %H:%M:%S') *)
  log_level : string;
  log_message : string
}.

(** [l[:stop]] *)
Definition slice_to {A : Type} (l : list A) (stop : Z) : list A :=
  if stop <? 0 then take (Z.to_nat (Z.of_nat (length l) + stop)) l
  else take (Z.to_nat stop) l.

(** [_add_log]; [now_str] is the formatted clock reading. *)
Definition _add_log (_log_entries : list LogEntry) (now_str level message : string)
  : list LogEntry :=
  let entry := {| log_time := now_str; log_level := level; log_message := message |} in
  let _log_entries := entry :: _log_entries in
  if 200 <? Z.of_nat (length _log_entries) then slice_to _log_entries 200
  else _log_entries.

(** [get_logs]: the list handed back in the success result. *)
Definition get_logs (_log_entries : list LogEntry) (limit : Z) : list LogEntry :=
  slice_to _log_entries limit.

End Api.

(** ** Notions used in the statements *)

Module Notions.
Import Database QMTService AutoTradeService.

(** The ledger's code set: the codes of the rows of the position ledger
    (no code at all when the service has no database). *)
Definition ledger_codes_of (database : option DB) : gset string :=
  match database with
  | Some db => list_to_set (stock_code <$> position_records db)
  | None => ∅
  end.

Definition bond (c : string) : BondInfo :=
  {| code := c; name := ""; price := None |}.

Definition holding (c : string) (vol : Z) : Position :=
  {| pos_stock_code := c; pos_stock_name := ""; pos_volume := vol;
     can_use_volume := vol; avg_price := 100 |}.

Definition ledger_row (i : Z) (c : string) (vol : Z) : PositionRecord :=
  {| id := i; stock_code := c; stock_name := ""; volume := vol;
     buy_price := 100; buy_time := 0; strategy_name := "调仓买入" |}.

Definition some_strategy : StrategyConfig :=
  {| strategy_id := 1; strategy_name_cfg := "s"; history_id := 1;
     stop_profit_ratio := f64 (1 # 10); stop_loss_ratio := f64 (5 # 100) |}.

(** A service with a strategy selected, over the given ledger rows. *)
Definition service_over (cfg : option AppConfig) (rows : list PositionRecord) : Service :=
  {| app_config := cfg; strategy_config := Some some_strategy;
     database := Some {| position_records := rows; refill_queue := [] |} |}.

(** The terminal as [_buy_bond] sees it once the connection is ensured
    and the quote carries [p] as last price. *)
Definition quoted (p : Q) (order_id : pyresult Z) (nm : pyresult string)
    (t : datetime) : BuyEnv :=
  {| by_ensure_connected := true;
     by_quote := Returns {| lastPrice := Some p; lastClose := None |};
     by_order_id := order_id; by_stock_name := nm; by_now := t |}.

(** A firing of the health check at [t] seconds that finds the session
    down and whose reconnection, if tried, fails in [connect]. *)
Definition failing_firing (t : Z) : Api.FiringEnv :=
  {| Api.fe_now_health := t * 1000000;
     Api.fe_healthy := false;
     Api.fe_now_cooldown := t * 1000000;
     Api.fe_now_attempt := t * 1000000;
     Api.fe_config :=
       Returns {| qmt_path := "C:/qmt/userdata_mini"; account_id := "8880001";
                  buy_amount_type := fixed; fixed_amount := Some 10000%Q;
                  order_type := limit; notification_email := "" |};
     Api.fe_connect := Raises "连接 QMT 失败";
     Api.fe_revalidated := false |}.

(** The health check firing every 30 seconds, from [t]. *)
Definition failing_firings (t : Z) (n : nat) : list Api.FiringEnv :=
  (λ k : nat, failing_firing (t + 30 * Z.of_nat k)) <$> seq 0 n.

Definition count_events (P : Api.event → bool) (done : list Api.event) : nat :=
  length (filter (λ e, P e = true) done).

(** The replenishment queue the service sees (nothing without a
    database). *)
Definition queue_of (self : Service) : list RefillQueueRow :=
  match database self with
  | Some db => refill_queue db
  | None => []
  end.

(** The cut-off 14:50:00 as microseconds since midnight. *)
Definition cutoff_usec : Z := (14 * 3600 + 50 * 60) * 1000000.

(** The clock reading at [h:m:s] and [us] microseconds on day [d]. *)
Definition at_time (d h m s us : Z) : datetime :=
  d * usec_per_day + ((h * 60 + m) * 60 + s) * 1000000 + us.

Definition sold (c : string) (vol : Z) (p : Q) (reason : stop_reason) : SoldInfo :=
  {| si_stock_code := c; si_stock_name := ""; si_volume := vol;
     si_sell_price := p; si_reason := reason |}.

(** [k] failed probes, each followed by a sleep, then one more probe. *)
Fixpoint probes_with_sleeps (interval : Q) (k : nat) : list QMTService.event :=
  match k with
  | O => [Probe]
  | S k' => Probe :: Sleep interval :: probes_with_sleeps interval k'
  end.

Definition count_probes (done : list QMTService.event) : nat :=
  length (filter (λ e, is_probe e = true) done).

Definition count_sleeps (done : list QMTService.event) : nat :=
  length (filter (λ e, is_sleep e = true) done).

Definition fixed_config (amount : option Q) : AppConfig :=
  {| qmt_path := "C:/qmt/userdata_mini"; account_id := "8880001";
     buy_amount_type := fixed; fixed_amount := amount;
     order_type := limit; notification_email := "" |}.

(** The tables after one buy of 10000 at 105.3 on empty tables. *)
Definition bought_once : DB :=
  default Database.empty
    (database
       (fst (_buy_bond (service_over (Some (fixed_config (Some 10000%Q))) [])
               (quoted (f64 (1053 # 10)) (Returns 1) (Returns "bond A") 0)
               "113001" 10000))).


Definition queued (d : Z) (c : string) (t : datetime) : RefillQueueRow :=
  {| rq_date := d; rq_stock_code := c; rq_stock_name := ""; rq_volume := 10;
     rq_sell_price := 110; rq_reason := "止盈"; rq_created_at := t |}.

(** A replenishment with two queued sells (X and Y), holdings A and X, and
    the target list A, B, C, D. *)
Definition refill_service : Service :=
  {| app_config := Some (fixed_config (Some 10000%Q));
     strategy_config := Some some_strategy;
     database :=
       Some {| position_records := [ledger_row 1 "A" 10];
               refill_queue := [queued 0 "X" (at_time 0 10 0 0 0);
                                queued 0 "Y" (at_time 0 11 0 0 0)] |} |}.

Definition refill_env : RefillEnv :=
  {| rf_is_connected := true;
     rf_now_get := at_time 0 14 50 0 0;
     rf_today_bonds := Returns [bond "A"; bond "B"; bond "C"; bond "D"];
     rf_positions := Returns [holding "A" 10; holding "X" 10];
     rf_asset := Raises "QMT 未连接";
     rf_buy := λ _, quoted 100 (Returns 1) (Returns "") (at_time 0 14 50 0 1);
     rf_now_clear := at_time 0 14 50 0 2 |}.

(** The scenario of the rebalance: target A, B, C; ledger A, X; the broker
    holds A, X, Y; every quote is 100 and every order is accepted. *)
Definition scenario_service : Service :=
  service_over None [ledger_row 1 "A" 10; ledger_row 2 "X" 10].

Definition scenario_env : RebalanceEnv :=
  {| rb_is_connected := true; rb_ensure_connected := true;
     rb_today_bonds := Returns [bond "A"; bond "B"; bond "C"];
     rb_positions := Returns [holding "A" 10; holding "X" 10; holding "Y" 10] |}.

Definition scenario_trade : TradeEnv :=
  {| tr_sell := λ _, {| sl_ensure_connected := true;
                        sl_quote := Returns {| lastPrice := Some 100%Q;
                                               lastClose := Some 100%Q |};
                        sl_is_suspended := false;
                        sl_order_id := Returns 1 |};
     tr_asset := Raises "QMT 未连接";
     tr_buy := λ _, quoted 100 (Returns 1) (Returns "") 0 |}.


(** The tables the engine can be in: it starts from empty tables; the
    ledger is written by [_buy_bond] (through [add_position_record]), by
    the decrement [update_position_record] that [_sell_bond] and
    [_execute_stop_order] call, and by [delete_position_record]; the
    replenishment queue changes independently of the ledger. *)
Inductive reachable : DB → Prop :=
| reach_empty : reachable Database.empty
| reach_buy (db db' : DB) (self : Service) (env : BuyEnv) (c : string) (amount : Q) :
    reachable db →
    database self = Some db →
    database (fst (_buy_bond self env c amount)) = Some db' →
    reachable db'
| reach_decrement (db : DB) (c : string) (sold_volume : Z) :
    reachable db → reachable (update_position_record db c sold_volume)
| reach_delete (db : DB) (c : string) :
    reachable db → reachable (delete_position_record db c)
| reach_queue (db : DB) (queue : list RefillQueueRow) :
    reachable db → reachable (with_refill_queue db queue).

(** The ledger invariant: every row has a positive volume and no two rows
    have the same code. *)
Definition ledger_ok (rows : list PositionRecord) : Prop :=
  Forall (λ r, 0 < volume r) rows ∧ NoDup (stock_code <$> rows).

End Notions.

(** ** src/utils/datetime_helper.py *)

Module DatetimeHelper.

(** The module-level cache [_cached_trading_day_date],
    [_cached_is_trading_day]; the date string is kept as its day number. *)
Record Cache := {
  _cached_trading_day_date : option Z;
  _cached_is_trading_day : option bool
}.

Definition no_cache : Cache :=
  {| _cached_trading_day_date := None; _cached_is_trading_day := None |}.

(** [dt.weekday()]: Monday is 0.  Day 0 of the epoch, 1970-01-01, was a
    Thursday. *)
Definition weekday (dt : datetime) : Z := (date_of dt + 3) mod 7.

Record CalendarEnv := {
  cal_now : datetime;                     (* now(), formatted as today *)
  cal_trading_dates : pyresult (list Z);  (* xtdata.get_trading_dates('SH', today, today) *)
  cal_now_weekday : datetime              (* now(), asked for its weekday *)
}.

(** [is_trading_day(qmt_service)]; [qmt_service] tells whether a service
    was passed.  The answer and the cache afterwards. *)
Definition is_trading_day (qmt_service : bool) (cache : Cache) (env : CalendarEnv)
  : bool * Cache :=
  if negb qmt_service then (weekday (cal_now_weekday env) <? 5, cache)
  else
    let today := date_of (cal_now env) in
    match bool_decide (_cached_trading_day_date cache = Some today),
          _cached_is_trading_day cache with
    | true, Some cached => (cached, cache)
    | _, _ =>
        match cal_trading_dates env with
        | Returns trading_dates =>
            let result := bool_decide (0 < length trading_dates)%nat in
            (result, {| _cached_trading_day_date := Some today;
                        _cached_is_trading_day := Some result |})
        | Raises _ => (weekday (cal_now_weekday env) <? 5, cache)
        end
    end.

End DatetimeHelper.

(** ** src/services/scheduler_service.py *)

Module SchedulerService.
Import DatetimeHelper.

(** A registered callback: what a call of it does to the rest of the
    program, and how it ends. *)
Definition callback (W : Type) : Type := W → W * pyresult unit.

Record Scheduler (W : Type) := {
  _qmt : bool;                                      (* self._qmt is not None *)
  _bond_selection_callback : option (callback W);
  _stop_profit_loss_callback : option (callback W);
  _qmt_health_check_callback : option (callback W);
  _token_refresh_callback : option (callback W);
  _refill_callback : option (callback W);
  _last_health_log_time : option datetime
}.
Arguments _qmt {W} _.
Arguments _bond_selection_callback {W} _.
Arguments _stop_profit_loss_callback {W} _.
Arguments _qmt_health_check_callback {W} _.
Arguments _token_refresh_callback {W} _.
Arguments _refill_callback {W} _.
Arguments _last_health_log_time {W} _.

(** [try: callback() / except Exception as e: logger.error(...)] *)
Definition guarded {W : Type} (cb : callback W) (w : W) : W := fst (cb w).

(** [_is_trading_day] *)
Definition _is_trading_day {W : Type} (self : Scheduler W) (cache : Cache)
    (env : CalendarEnv) : bool * Cache :=
  is_trading_day (_qmt self) cache env.

(** [_is_trading_time].  On a trading day the function goes on to
    [now = now().time()].  The assignment makes [now] a local name of the
    function, so the call [now()] reads that local before it is bound and
    raises [UnboundLocalError]; the comparison with the trading hours
    below it is never reached. *)
Definition _is_trading_time {W : Type} (self : Scheduler W) (cache : Cache)
    (env : CalendarEnv) : pyresult bool * Cache :=
  let '(trading_day, cache) := _is_trading_day self cache env in
  if negb trading_day then (Returns false, cache)
  else (Raises "UnboundLocalError", cache).

(** [_execute_bond_selection] *)
Definition _execute_bond_selection {W : Type} (self : Scheduler W) (cache : Cache)
    (env : CalendarEnv) (w : W) : Cache * W :=
  let '(trading_day, cache) := _is_trading_day self cache env in
  if negb trading_day then (cache, w)
  else
    match _bond_selection_callback self with
    | Some cb => (cache, guarded cb w)
    | None => (cache, w)
    end.

(** [_execute_stop_profit_loss]: the cache, the rest of the program and
    how the job ends.  The call of [_is_trading_time] is outside the
    [try], so what it raises ends the job. *)
Definition _execute_stop_profit_loss {W : Type} (self : Scheduler W) (cache : Cache)
    (env : CalendarEnv) (w : W) : Cache * W * pyresult unit :=
  let '(trading_time, cache) := _is_trading_time self cache env in
  match trading_time with
  | Raises msg => (cache, w, Raises msg)
  | Returns trading_time =>
      if negb trading_time then (cache, w, Returns ())
      else
        match _stop_profit_loss_callback self with
        | Some cb => (cache, guarded cb w, Returns ())
        | None => (cache, w, Returns ())
        end
  end.

(** [_execute_qmt_health_check].  Its first statement is [now = now()]:
    [now] is a local name of the function here too, so the call raises
    [UnboundLocalError] before the time of the last log line is looked at
    and before the callback is called. *)
Definition _execute_qmt_health_check {W : Type} (self : Scheduler W) (w : W)
  : Scheduler W * W * pyresult unit :=
  (self, w, Raises "UnboundLocalError").

(** [_execute_token_refresh] *)
Definition _execute_token_refresh {W : Type} (self : Scheduler W) (w : W) : W :=
  match _token_refresh_callback self with
  | Some cb => guarded cb w
  | None => w
  end.

(** [_execute_refill] *)
Definition _execute_refill {W : Type} (self : Scheduler W) (cache : Cache)
    (env : CalendarEnv) (w : W) : Cache * W :=
  let '(trading_day, cache) := _is_trading_day self cache env in
  if negb trading_day then (cache, w)
  else
    match _refill_callback self with
    | Some cb => (cache, guarded cb w)
    | None => (cache, w)
    end.

End SchedulerService.

(** ** src/services/qmt_service.py: the session, its queries and orders *)

Module QMTTerminal.
Import QMTService AutoTradeService.

(** The fields of [QMTService] that tell whether there is a session. *)
Record Session := {
  connected : bool;
  trader : bool;     (* self.trader is not None *)
  account : bool     (* self.account is not None *)
}.

(** [QMTService.__init__] *)
Definition init : Session :=
  {| connected := false; trader := false; account := false |}.

(** What the terminal answers during [connect]. *)
Record ConnectEnv := {
  cn_trader : pyresult unit;        (* _init_qmt_modules(); self.xttrader(...) *)
  cn_account : pyresult unit;       (* self.xttype(account_id) *)
  cn_start : pyresult unit;         (* register_callback(...); trader.start() *)
  cn_connect_result : pyresult Z;   (* trader.connect() *)
  cn_subscribe_result : pyresult Z  (* trader.subscribe(account) *)
}.

(** [connect]: the session afterwards and the outcome.  Whatever raises
    in the body is raised again after [self.connected = False]. *)
Definition connect (self : Session) (env : ConnectEnv) : Session * pyresult bool :=
  match cn_trader env with
  | Raises msg =>
      ({| connected := false; trader := trader self; account := account self |},
       Raises msg)
  | Returns _ =>
      match cn_account env with
      | Raises msg =>
          ({| connected := false; trader := true; account := account self |},
           Raises msg)
      | Returns _ =>
          let failed msg : Session * pyresult bool :=
            ({| connected := false; trader := true; account := true |},
             Raises msg) in
          match cn_start env with
          | Raises msg => failed msg
          | Returns _ =>
              match cn_connect_result env with
              | Raises msg => failed msg
              | Returns connect_result =>
                  if negb (connect_result =? 0) then failed "连接 QMT 失败"
                  else
                    match cn_subscribe_result env with
                    | Raises msg => failed msg
                    | Returns subscribe_result =>
                        if negb (subscribe_result =? 0) then failed "订阅账号失败"
                        else
                          ({| connected := true; trader := true; account := true |},
                           Returns true)
                    end
              end
          end
      end
  end.

(** [disconnect] *)
Definition disconnect (self : Session) : Session :=
  if trader self
  then {| connected := false; trader := false; account := false |}
  else self.

(** [is_connected] *)
Definition is_connected (self : Session) : bool := connected self && trader self.

(** [health_check_simple] *)
Definition health_check_simple (self : Session) : bool := is_connected self.

(** [health_check]; [query_stock_asset] is the answer of
    [self.trader.query_stock_asset(self.account)]. *)
Definition health_check (self : Session) (query_stock_asset : pyresult (option Asset))
  : bool :=
  if negb (is_connected self) then false
  else
    match query_stock_asset with
    | Returns (Some _) => true
    | Returns None => false
    | Raises _ => false
    end.

(** [get_asset] *)
Definition get_asset (self : Session) (query_stock_asset : pyresult (option Asset))
  : pyresult Asset :=
  if negb (is_connected self) then Raises "QMT 未连接"
  else
    asset ← query_stock_asset;
    match asset with
    | None => Raises "查询资产失败"
    | Some asset =>
        Returns {| cash := cash asset; frozen_cash := frozen_cash asset;
                   market_value := market_value asset;
                   total_asset := total_asset asset |}
    end.

(** The loop of [get_positions] over the rows of the terminal. *)
Fixpoint named_positions (get_stock_name : string → pyresult string)
    (positions : list Position) : pyresult (list Position) :=
  match positions with
  | [] => Returns []
  | pos :: rest =>
      if 0 <? pos_volume pos then
        stock_name ← get_stock_name (pos_stock_code pos);
        result ← named_positions get_stock_name rest;
        Returns ({| pos_stock_code := pos_stock_code pos;
                    pos_stock_name := stock_name;
                    pos_volume := pos_volume pos;
                    can_use_volume := can_use_volume pos;
                    avg_price := avg_price pos |} :: result)
      else named_positions get_stock_name rest
  end.

(** [get_positions]; [query_stock_positions] is the answer of
    [self.trader.query_stock_positions(self.account)]. *)
Definition get_positions (self : Session)
    (query_stock_positions : pyresult (option (list Position)))
    (get_stock_name : string → pyresult string) : pyresult (list Position) :=
  if negb (is_connected self) then Raises "QMT 未连接"
  else
    positions ← query_stock_positions;
    match positions with
    | None => Returns []
    | Some positions => named_positions get_stock_name positions
    end.

(** The arguments of [self.trader.order_stock(account, stock_code,
    STOCK_BUY or STOCK_SELL, volume, FIX_PRICE, price, ...)]. *)
Record WireOrder := {
  w_side : side;
  w_stock_code : string;
  w_volume : Z;
  w_price : Q
}.

(** [buy_stock]: the outcome and the order that reached the terminal. *)
Definition buy_stock (self : Session) (get_quote : pyresult Quote)
    (order_stock : WireOrder → pyresult Z)
    (stock_code : string) (volume : Z) (price : Q) (price_type : order_type_t)
  : pyresult Z * option WireOrder :=
  if negb (is_connected self) then (Raises "QMT 未连接", None)
  else
    let priced : pyresult Q :=
      match price_type with
      | market =>
          quote ← get_quote;
          let current_price := get_or_zero (lastPrice quote) in
          if Py.le current_price 0 then Raises "无法获取当前价格"
          else Returns (fmul current_price (f64 (101 # 100)))
      | limit => Returns price
      end in
    match priced with
    | Raises msg => (Raises msg, None)
    | Returns price =>
        let sent := {| w_side := Buy; w_stock_code := stock_code;
                       w_volume := volume; w_price := price |} in
        (order_stock sent, Some sent)
    end.

(** [sell_stock] *)
Definition sell_stock (self : Session) (get_quote : pyresult Quote)
    (order_stock : WireOrder → pyresult Z)
    (stock_code : string) (volume : Z) (price : Q) (price_type : order_type_t)
  : pyresult Z * option WireOrder :=
  if negb (is_connected self) then (Raises "QMT 未连接", None)
  else
    let priced : pyresult Q :=
      match price_type with
      | market =>
          quote ← get_quote;
          let current_price := get_or_zero (lastPrice quote) in
          if Py.le current_price 0 then Raises "无法获取当前价格"
          else Returns (fmul current_price (f64 (99 # 100)))
      | limit => Returns price
      end in
    match priced with
    | Raises msg => (Raises msg, None)
    | Returns price =>
        let sent := {| w_side := Sell; w_stock_code := stock_code;
                       w_volume := volume; w_price := price |} in
        (order_stock sent, Some sent)
    end.

(** How the engine hands an order to the terminal: [qmt.buy_stock(...)]
    or [qmt.sell_stock(...)] with the order's code, volume, price and
    [price_type]. *)
Definition place (self : Session) (get_quote : pyresult Quote)
    (order_stock : WireOrder → pyresult Z) (o : Order)
  : pyresult Z * option WireOrder :=
  match o_side o with
  | Buy => buy_stock self get_quote order_stock
             (o_stock_code o) (o_volume o) (o_price o) (o_price_type o)
  | Sell => sell_stock self get_quote order_stock
              (o_stock_code o) (o_volume o) (o_price o) (o_price_type o)
  end.

End QMTTerminal.

(** ** Further notions used in the statements *)

Module MoreNotions.
Import Database QMTService AutoTradeService Notions.

(** The order of the creation times of two queue rows. *)
Definition created_le (a b : RefillQueueRow) : Prop :=
  rq_created_at a <= rq_created_at b.

(** A reconnection that goes through: the configuration is complete,
    [connect] returns and the session answers the check that follows. *)
Definition reconnect_succeeds (env : Api.FiringEnv) : Prop :=
  ∃ config ok,
    Api.fe_config env = Returns config
    ∧ qmt_path config ≠ "" ∧ account_id config ≠ ""
    ∧ Api.fe_connect env = Returns ok
    ∧ Api.fe_revalidated env = true.

(** The cool-down of 60 seconds has passed since the last attempt, if there
    was one (clock readings are in microseconds). *)
Definition cooled_down (st : Api.State) (env : Api.FiringEnv) : Prop :=
  match Api._qmt_last_reconnect_time st with
  | Some last => 60000000 <= Api.fe_now_cooldown env - last
  | None => True
  end.

Definition count_connects (done : list Api.event) : nat :=
  count_events (λ e, bool_decide (e = Api.Connect)) done.

(** [_add_log] once for each entry of [added], oldest first. *)
Definition add_logs (entries added : list Api.LogEntry) : list Api.LogEntry :=
  foldl (λ acc e, Api._add_log acc (Api.log_time e) (Api.log_level e)
                    (Api.log_message e)) entries added.

(** What [save_strategy_config] then [get_strategy_config] make of a
    configuration whose id is not 0. *)
Definition reloaded (strategy : StrategyConfig) : StrategyConfig :=
  {| strategy_id := strategy_id strategy;
     strategy_name_cfg := strategy_name_cfg strategy;
     history_id := history_id strategy;
     stop_profit_ratio :=
       if Qeq_bool (stop_profit_ratio strategy) 0 then f64 (1 # 10)
       else stop_profit_ratio strategy;
     stop_loss_ratio :=
       if Qeq_bool (stop_loss_ratio strategy) 0 then f64 (5 # 100)
       else stop_loss_ratio strategy |}.

(** The rest of the program after a job called its callback, if set. *)
Definition after_call {W : Type} (cb : option (SchedulerService.callback W))
    (w : W) : W :=
  match cb with Some f => fst (f w) | None => w end.

(** The position handed on by [get_positions] for a row of the terminal,
    once its name was looked up. *)
Definition named (pos : Position) (stock_name : string) : Position :=
  {| pos_stock_code := pos_stock_code pos; pos_stock_name := stock_name;
     pos_volume := pos_volume pos; can_use_volume := can_use_volume pos;
     avg_price := avg_price pos |}.

(** The factor [buy_stock] and [sell_stock] apply to the last price of a
    ["market"] order. *)
Definition market_factor (s : side) : Q :=
  match s with Buy => f64 (101 # 100) | Sell => f64 (99 # 100) end.

(** A firing of the health check at [t] seconds that finds the session
    down and whose reconnection goes through. *)
Definition recovering_firing (t : Z) : Api.FiringEnv :=
  {| Api.fe_now_health := t * 1000000;
     Api.fe_healthy := false;
     Api.fe_now_cooldown := t * 1000000;
     Api.fe_now_attempt := t * 1000000;
     Api.fe_config := Returns (fixed_config (Some 10000%Q));
     Api.fe_connect := Returns true;
     Api.fe_revalidated := true |}.

(** The configuration with ["market"] orders. *)
Definition market_config : AppConfig :=
  {| qmt_path := "C:/qmt/userdata_mini"; account_id := "8880001";
     buy_amount_type := fixed; fixed_amount := Some 10000%Q;
     order_type := market; notification_email := "" |}.

(** Tables with the ledger rows A and X and one queued sell on each of
    the days 0 and 1. *)
Definition two_rows : DB :=
  {| position_records := [ledger_row 1 "A" 10; ledger_row 2 "X" 10];
     refill_queue := [queued 0 "Y" (at_time 0 10 0 0 0);
                      queued 1 "Z" (at_time 1 10 0 0 0)] |}.

(** A quote at 110 after a close at 100. *)
Definition risen_quote : Quote :=
  {| lastPrice := Some 110%Q; lastClose := Some 100%Q |}.

(** The session after a successful [connect]. *)
Definition connected_session : QMTTerminal.Session :=
  {| QMTTerminal.connected := true; QMTTerminal.trader := true;
     QMTTerminal.account := true |}.

Definition log_entry (message : string) : Api.LogEntry :=
  {| Api.log_time := "2026-11-04 09:30:00"; Api.log_level := "INFO";
     Api.log_message := message |}.

(** The calendar on Wednesday 2026-11-04 (day 20761), as the terminal
    answers it or fails to. *)
Definition calendar (h : Z) (trading_dates : pyresult (list Z))
  : DatetimeHelper.CalendarEnv :=
  {| DatetimeHelper.cal_now := at_time 20761 h 0 0 0;
     DatetimeHelper.cal_trading_dates := trading_dates;
     DatetimeHelper.cal_now_weekday := at_time 20761 h 0 0 0 |}.




(** The guards of [_buy_bond] before its order: the connection check
    succeeds, the quote is returned with a price above 0, and the amount
    buys at least one lot of 10 at that price. *)
Definition buy_goes_out (env : BuyEnv) (amount : Q) : bool :=
  by_ensure_connected env &&
  match by_quote env with
  | Returns quote =>
      negb (Py.le (get_or_zero (lastPrice quote)) 0)
      && (10 <=? buy_volume amount (get_or_zero (lastPrice quote)))
  | Raises _ => false
  end.

(** The codes of [bonds] whose buy goes out, in the order of [bonds];
    [buy k] is the terminal at the [k]-th buy. *)
Fixpoint codes_going_out (buy : nat → BuyEnv) (k : nat) (amount : Q)
    (bonds : list BondInfo) : list string :=
  match bonds with
  | [] => []
  | bond :: rest =>
      (if buy_goes_out (buy k) amount then [code bond] else [])
      ++ codes_going_out buy (S k) amount rest
  end.

(** The replenishment of [refill_env] when the terminal has no price for
    the first bond to buy. *)
Definition refill_env_without_price : RefillEnv :=
  {| rf_is_connected := rf_is_connected refill_env;
     rf_now_get := rf_now_get refill_env;
     rf_today_bonds := rf_today_bonds refill_env;
     rf_positions := rf_positions refill_env;
     rf_asset := rf_asset refill_env;
     rf_buy := λ k, match k with
                    | O => quoted 0 (Returns 1) (Returns "") (at_time 0 14 50 0 1)
                    | S _ => rf_buy refill_env k
                    end;
     rf_now_clear := rf_now_clear refill_env |}.

(** A scheduler over a terminal service, with no callback registered. *)
Definition idle_scheduler : SchedulerService.Scheduler unit :=
  {| SchedulerService._qmt := true;
     SchedulerService._bond_selection_callback := None;
     SchedulerService._stop_profit_loss_callback := None;
     SchedulerService._qmt_health_check_callback := None;
     SchedulerService._token_refresh_callback := None;
     SchedulerService._refill_callback := None;
     SchedulerService._last_health_log_time := None |}.

End MoreNotions.

(** * Properties *)

Import Database QMTService AutoTradeService Notions MoreNotions.

(** ** Comparisons of Python numbers *)

Section Comparisons.

Lemma le_true (x y : Q) : Py.le x y = true ↔ (x <= y)%Q.
Proof. apply Qle_bool_iff. Qed.

Lemma le_false (x y : Q) : Py.le x y = false ↔ (y < x)%Q.
Proof.
  unfold Py.le. rewrite <- Bool.not_true_iff_false, Qle_bool_iff.
  split; [apply Qnot_le_lt | apply Qlt_not_le].
Qed.



Lemma lt_true (x y : Q) : Py.lt x y = true ↔ (x < y)%Q.
Proof. unfold Py.lt. rewrite Bool.negb_true_iff. apply (le_false y x). Qed.

Lemma lt_false (x y : Q) : Py.lt x y = false ↔ (y <= x)%Q.
Proof. unfold Py.lt. rewrite Bool.negb_false_iff. apply Qle_bool_iff. Qed.

End Comparisons.

(** ** The stop conditions of the risk monitor *)

Section StopConditions.



(** With a usable quote, [_check_single_position] enters the path that
    [stop_branch] picks for the day's change. *)
Lemma stop_path_usable_quote (order_id : pyresult Z) (cur close p l : Q) :
  (0 < cur)%Q → (0 < close)%Q →
  stop_path {| ck_ensure_connected := true;
               ck_quote := Returns {| lastPrice := Some cur; lastClose := Some close |};
               ck_is_suspended := false;
               ck_order_id := order_id |} p l
  = (λ reason, (cur, reason)) <$> stop_branch (pct_change_of cur close) p l.
Proof.
  intros Hcur Hclose. unfold stop_path; simpl.
  apply le_false in Hcur. apply le_false in Hclose.
  rewrite Hcur, Hclose. reflexivity.
Qed.





End StopConditions.

(** ** The position ledger *)

Section Ledger.

Implicit Types (db : DB) (rows : list PositionRecord) (r : PositionRecord).

Lemma first_by_code_Some c rows i r :
  first_by_code c rows = Some (i, r) →
  rows !! i = Some r ∧ stock_code r = c.
Proof.
  unfold first_by_code. intros H. apply list_find_Some in H. tauto.
Qed.

Lemma first_by_code_None c rows :
  first_by_code c rows = None ↔ c ∉ stock_code <$> rows.
Proof.
  unfold first_by_code. rewrite list_find_None, Forall_forall.
  rewrite list_elem_of_fmap. split.
  - intros H [r [-> Hr]]. exact (H r Hr eq_refl).
  - intros H r Hr E. apply H. exists r. auto.
Qed.

(** What the decrement does to the table, row by row. *)
Lemma update_position_record_found db c sold_volume i r :
  first_by_code c (position_records db) = Some (i, r) →
  update_position_record db c sold_volume
  = with_position_records db
      (if Z.max 0 (volume r - sold_volume) <=? 0
       then delete i (position_records db)
       else <[i := set_volume r (Z.max 0 (volume r - sold_volume))]>
              (position_records db)).
Proof.
  intros H. unfold update_position_record. rewrite H. simpl.
  destruct (Z.max 0 (volume r - sold_volume) <=? 0); reflexivity.
Qed.

Lemma update_position_record_missing db c sold_volume :
  first_by_code c (position_records db) = None →
  update_position_record db c sold_volume = db.
Proof. intros H. unfold update_position_record. rewrite H. reflexivity. Qed.

Lemma codes_insert_same rows i r r' :
  rows !! i = Some r → stock_code r' = stock_code r →
  stock_code <$> <[i := r']> rows = stock_code <$> rows.
Proof.
  intros Hi E. rewrite list_fmap_insert, E.
  apply list_insert_id. rewrite list_lookup_fmap, Hi. reflexivity.
Qed.

Lemma ledger_ok_insert rows i r r' :
  ledger_ok rows → rows !! i = Some r →
  stock_code r' = stock_code r → 0 < volume r' →
  ledger_ok (<[i := r']> rows).
Proof.
  intros [Hv Hn] Hi E Hpos. split.
  - apply Forall_insert; assumption.
  - rewrite (codes_insert_same rows i r r') by assumption. assumption.
Qed.

Lemma ledger_ok_delete rows i :
  ledger_ok rows → ledger_ok (delete i rows).
Proof.
  intros [Hv Hn]. split.
  - apply Forall_delete. assumption.
  - eapply sublist_NoDup; [exact Hn|].
    apply fmap_sublist, sublist_delete.
Qed.

Lemma ledger_ok_update db c sold_volume :
  ledger_ok (position_records db) →
  ledger_ok (position_records (update_position_record db c sold_volume)).
Proof.
  intros Hok.
  destruct (first_by_code c (position_records db)) as [[i r]|] eqn:Hf.
  - rewrite (update_position_record_found db c sold_volume i r Hf). simpl.
    destruct (Z.leb_spec (Z.max 0 (volume r - sold_volume)) 0).
    + apply ledger_ok_delete. assumption.
    + apply first_by_code_Some in Hf as [Hi _].
      apply (ledger_ok_insert _ i r); simpl; auto.
  - rewrite update_position_record_missing; assumption.
Qed.

Lemma ledger_ok_add db c nm vol bp bt sn :
  0 < vol →
  ledger_ok (position_records db) →
  ledger_ok (position_records (add_position_record db c nm vol bp bt sn)).
Proof.
  intros Hvol Hok. unfold add_position_record.
  destruct (first_by_code c (position_records db)) as [[i r]|] eqn:Hf; simpl.
  - apply first_by_code_Some in Hf as [Hi _].
    apply (ledger_ok_insert _ i r); simpl; auto.
    destruct Hok as [Hv _].
    pose proof (Forall_lookup_1 _ _ _ _ Hv Hi) as Hr. simpl in Hr. lia.
  - destruct Hok as [Hv Hn]. split.
    + apply Forall_app. split; [assumption|].
      constructor; [simpl; lia | constructor].
    + rewrite fmap_app. simpl. apply NoDup_app. split; [assumption|].
      split.
      * intros x Hx Hx'. apply list_elem_of_singleton in Hx'. subst x.
        apply first_by_code_None in Hf. contradiction.
      * apply NoDup_singleton.
Qed.

Lemma ledger_ok_delete_record db c :
  ledger_ok (position_records db) →
  ledger_ok (position_records (delete_position_record db c)).
Proof.
  intros [Hv Hn]. unfold delete_position_record; simpl. split.
  - rewrite Forall_forall in Hv |- *. intros r Hr.
    apply list_elem_of_filter in Hr as [_ Hr]. auto.
  - eapply sublist_NoDup; [exact Hn|].
    apply fmap_sublist, sublist_filter.
Qed.

(** [_buy_bond] leaves the tables alone or adds at least one lot. *)
Lemma buy_bond_database self env c amount db db' :
  database self = Some db →
  database (fst (_buy_bond self env c amount)) = Some db' →
  db' = db ∨
  ∃ nm vol bp bt sn, 10 <= vol ∧ db' = add_position_record db c nm vol bp bt sn.
Proof.
  intros Hdb. unfold _buy_bond.
  destruct (by_ensure_connected env); simpl; [|left; congruence].
  destruct (by_quote env) as [quote|]; simpl; [|left; congruence].
  destruct (Py.le _ 0); simpl; [left; congruence|].
  destruct (Z.ltb_spec (buy_volume amount (get_or_zero (lastPrice quote))) 10);
    simpl; [left; congruence|].
  destruct (by_order_id env) as [order_id|]; simpl; [|left; congruence].
  destruct (0 <? order_id); simpl; [|left; congruence].
  rewrite Hdb.
  destruct (by_stock_name env) as [nm|]; simpl; [|left; congruence].
  intros E. right. inversion E. eauto 10.
Qed.

Lemma reachable_ledger_ok db : reachable db → ledger_ok (position_records db).
Proof.
  induction 1 as [|db db' self env c amount _ IH Hdb Hbuy|db c sold _ IH
                 |db c _ IH|db queue _ IH].
  - split; simpl; constructor.
  - destruct (buy_bond_database _ _ _ _ _ _ Hdb Hbuy)
      as [->|(nm & vol & bp & bt & sn & Hvol & ->)]; [assumption|].
    apply ledger_ok_add; [lia | assumption].
  - apply ledger_ok_update. assumption.
  - apply ledger_ok_delete_record. assumption.
  - assumption.
Qed.

Lemma first_by_code_insert c rows i r r' :
  first_by_code c rows = Some (i, r) → stock_code r' = c →
  first_by_code c (<[i := r']> rows) = Some (i, r').
Proof.
  unfold first_by_code. intros H E.
  apply list_find_Some in H as (Hi & _ & Hbefore).
  apply list_find_Some. split; [|split; [assumption|]].
  - apply list_lookup_insert_eq. eapply lookup_lt_Some. eassumption.
  - intros j y Hj Hlt. rewrite list_lookup_insert_ne in Hj by lia.
    eapply Hbefore; eassumption.
Qed.

Lemma code_gone_after_delete rows i r :
  NoDup (stock_code <$> rows) → rows !! i = Some r →
  stock_code r ∉ stock_code <$> delete i rows.
Proof.
  intros Hn Hi.
  rewrite <- (take_drop_middle rows i r Hi) in Hn.
  rewrite fmap_app, fmap_cons in Hn.
  apply NoDup_app in Hn as (_ & Hleft & Hright).
  apply NoDup_cons in Hright as [Hright _].
  rewrite delete_take_drop, fmap_app. intros Hin.
  apply elem_of_app in Hin as [Hin|Hin].
  - apply (Hleft _ Hin). left.
  - contradiction.
Qed.

(** C3.  In every state of the tables the engine can reach, each ledger
    row has a volume above 0 (so never below 0, and never 0).  A decrement
    of [sold_volume] against the row found for a code sets its volume to
    max(0, volume − sold_volume): when that is above 0 the row is kept
    with the new volume, when it is 0 the row is deleted and the code has
    no row left.  The decrement keeps volumes that were all ≥ 0 that way
    on any table. *)
Theorem ledger_volume_invariant :
  (∀ db r, reachable db → r ∈ position_records db → 0 < volume r)
  ∧ (∀ db c sold_volume i r,
       first_by_code c (position_records db) = Some (i, r) →
       let new_volume := Z.max 0 (volume r - sold_volume) in
       (0 < new_volume →
        update_position_record db c sold_volume
        = with_position_records db
            (<[i := set_volume r new_volume]> (position_records db))
        ∧ get_position_record (update_position_record db c sold_volume) c
          = Some (set_volume r new_volume))
       ∧ (new_volume = 0 →
          update_position_record db c sold_volume
          = with_position_records db (delete i (position_records db))))
  ∧ (∀ db c sold_volume r,
       reachable db → get_position_record db c = Some r →
       Z.max 0 (volume r - sold_volume) = 0 →
       get_position_record (update_position_record db c sold_volume) c = None)
  ∧ (∀ db c sold_volume,
       Forall (λ r, 0 <= volume r) (position_records db) →
       Forall (λ r, 0 <= volume r)
         (position_records (update_position_record db c sold_volume))).
Proof.
  split; [|split; [|split]].
  - intros db r Hreach Hr.
    destruct (reachable_ledger_ok db Hreach) as [Hv _].
    rewrite Forall_forall in Hv. auto.
  - intros db c sold i r Hf new_volume.
    rewrite (update_position_record_found db c sold i r Hf).
    fold new_volume. split.
    + intros Hpos. destruct (Z.leb_spec new_volume 0); [lia|].
      split; [reflexivity|].
      unfold get_position_record; simpl.
      rewrite (first_by_code_insert c _ i r); [reflexivity|assumption|].
      apply first_by_code_Some in Hf. simpl. tauto.
    + intros ->. reflexivity.
  - intros db c sold r Hreach Hget Hzero.
    unfold get_position_record in Hget.
    destruct (first_by_code c (position_records db)) as [[i r0]|] eqn:Hf;
      [|discriminate].
    simpl in Hget. injection Hget as ->.
    rewrite (update_position_record_found db c sold i r Hf), Hzero. simpl.
    unfold get_position_record; simpl.
    destruct (reachable_ledger_ok db Hreach) as [_ Hn].
    apply first_by_code_Some in Hf as [Hi <-].
    pose proof (code_gone_after_delete _ i r Hn Hi) as Hgone.
    apply first_by_code_None in Hgone. rewrite Hgone. reflexivity.
  - intros db c sold Hv.
    destruct (first_by_code c (position_records db)) as [[i r]|] eqn:Hf.
    + rewrite (update_position_record_found db c sold i r Hf). simpl.
      destruct (Z.max 0 (volume r - sold) <=? 0).
      * apply Forall_delete. assumption.
      * apply Forall_insert; [assumption|]. simpl. lia.
    + rewrite update_position_record_missing; assumption.
Qed.

End Ledger.

(** ** The volume of a buy order *)

Section BuyVolume.




Lemma buy_bond_order self env c amount o :
  snd (_buy_bond self env c amount) = Some o →
  ∃ quote, by_quote env = Returns quote ∧
    o_price o = get_or_zero (lastPrice quote) ∧
    (0 < o_price o)%Q ∧
    o_volume o = buy_volume amount (o_price o) ∧
    10 <= o_volume o ∧ o_side o = Buy ∧ o_stock_code o = c.
Proof.
  unfold _buy_bond.
  destruct (by_ensure_connected env); simpl; [|discriminate].
  destruct (by_quote env) as [quote|]; simpl; [|discriminate].
  destruct (Py.le _ 0) eqn:Hp; simpl; [discriminate|].
  apply le_false in Hp.
  destruct (Z.ltb_spec (buy_volume amount (get_or_zero (lastPrice quote))) 10);
    simpl; [discriminate|].
  intros Ho. exists quote.
  assert (E : o = {| o_side := Buy; o_stock_code := c;
                     o_volume := buy_volume amount (get_or_zero (lastPrice quote));
                     o_price := get_or_zero (lastPrice quote);
                     o_price_type := order_type_of self |}).
  { destruct (by_order_id env) as [order_id|]; simpl in Ho; [|congruence].
    destruct (0 <? order_id); simpl in Ho; [|congruence].
    destruct (database self), (by_stock_name env); simpl in Ho; congruence. }
  subst o; simpl. auto 10.
Qed.



End BuyVolume.

(** ** The reconciliation of [execute_rebalance] *)

Section Rebalance.

Lemma dom_records_fold (records : list PositionRecord)
    (acc : gmap string PositionRecord) :
  dom (foldl (λ d r, <[stock_code r := r]> d) acc records)
  = dom acc ∪ list_to_set (stock_code <$> records).
Proof.
  revert acc. induction records as [|r records IH]; intros acc; simpl.
  - set_solver.
  - rewrite IH, dom_insert_L. set_solver.
Qed.

Lemma dom_records_by_code (records : list PositionRecord) :
  dom (records_by_code records) = list_to_set (stock_code <$> records).
Proof.
  unfold records_by_code. rewrite dom_records_fold, dom_empty_L. set_solver.
Qed.

Lemma dom_project_records (self : Service) :
  dom (project_records_of self) = ledger_codes_of (database self).
Proof.
  unfold project_records_of, ledger_codes_of.
  destruct (database self) as [db|].
  - apply dom_records_by_code.
  - apply dom_empty_L.
Qed.

Lemma rebalance_plan_sets self env plan :
  execute_rebalance_plan self env = Some plan →
  ∃ target_bonds positions,
    rb_today_bonds env = Returns target_bonds
    ∧ rb_positions env = Returns positions
    ∧ to_sell_codes plan
      = ledger_codes_of (database self)
        ∩ (current_codes_of positions ∖ target_codes_of target_bonds)
    ∧ to_buy plan = target_codes_of target_bonds ∖ current_codes_of positions.
Proof.
  unfold execute_rebalance_plan.
  destruct (strategy_config self); [|discriminate].
  destruct (rb_is_connected env); [|discriminate].
  destruct (rb_ensure_connected env); [|discriminate]. simpl.
  destruct (rb_today_bonds env) as [target_bonds|]; [|discriminate].
  destruct target_bonds as [|b bonds]; [discriminate|].
  destruct (rb_positions env) as [positions|]; [|discriminate].
  intros E. injection E as <-. simpl.
  exists (b :: bonds), positions. rewrite dom_project_records. auto.
Qed.

Lemma sell_bond_order self env c positions record o :
  snd (_sell_bond self env c positions record) = Some o →
  o_side o = Sell ∧ o_stock_code o = c.
Proof.
  unfold _sell_bond.
  destruct (find_position c positions) as [pos|]; [|discriminate].
  destruct (can_use_volume pos <=? 0); [discriminate|].
  destruct (_ <=? 0); [discriminate|].
  destruct (sl_ensure_connected env); [|discriminate]. simpl.
  destruct (sl_quote env) as [quote|]; [|discriminate].
  destruct (Py.le _ 0); [discriminate|].
  destruct (sl_is_suspended env); [discriminate|].
  destruct (sl_order_id env) as [order_id|]; simpl.
  - destruct (0 <? order_id); simpl.
    + destruct (database self), record; simpl; intros E; injection E as <-; auto.
    + intros E; injection E as <-; auto.
  - intros E; injection E as <-; auto.
Qed.

Lemma sell_codes_orders self sell positions project_records codes o :
  o ∈ snd (sell_codes self sell positions project_records codes) →
  o_side o = Sell ∧ o_stock_code o ∈ codes.
Proof.
  revert self. induction codes as [|c rest IH]; intros self; simpl.
  - intros H. inversion H.
  - destruct (_sell_bond self (sell c) c positions (project_records !! c))
      as [self1 order] eqn:Hsell.
    specialize (IH self1).
    destruct (sell_codes self1 sell positions project_records rest)
      as [self2 orders].
    simpl in *. intros Ho. apply elem_of_app in Ho as [Ho|Ho].
    + destruct order as [o'|]; simpl in Ho; [|inversion Ho].
      apply list_elem_of_singleton in Ho. subst o'.
      assert (E : snd (_sell_bond self (sell c) c positions (project_records !! c))
                  = Some o) by (rewrite Hsell; reflexivity).
      apply sell_bond_order in E as [-> ->]. split; [reflexivity | left].
    + destruct (IH Ho) as [-> Hin]. split; [reflexivity | right; assumption].
Qed.

Lemma buy_codes_orders self buy amount codes o :
  o ∈ snd (buy_codes self buy amount codes) →
  o_side o = Buy ∧ o_stock_code o ∈ codes.
Proof.
  revert self. induction codes as [|c rest IH]; intros self; simpl.
  - intros H. inversion H.
  - destruct (_buy_bond self (buy c) c amount) as [self1 order] eqn:Hbuy.
    specialize (IH self1).
    destruct (buy_codes self1 buy amount rest) as [self2 orders].
    simpl in *. intros Ho. apply elem_of_app in Ho as [Ho|Ho].
    + destruct order as [o'|]; simpl in Ho; [|inversion Ho].
      apply list_elem_of_singleton in Ho. subst o'.
      assert (E : snd (_buy_bond self (buy c) c amount) = Some o)
        by (rewrite Hbuy; reflexivity).
      apply buy_bond_order in E as (_ & _ & _ & _ & _ & _ & -> & ->).
      split; [reflexivity | left].
    + destruct (IH Ho) as [-> Hin]. split; [reflexivity | right; assumption].
Qed.

(** The orders of a whole run: sells are for codes of the sell set, buys
    for codes of the buy set. *)
Lemma rebalance_orders self env trade plan o :
  execute_rebalance_plan self env = Some plan →
  o ∈ snd (execute_rebalance self env trade) →
  (o_side o = Sell ∧ o_stock_code o ∈ to_sell_codes plan)
  ∨ (o_side o = Buy ∧ o_stock_code o ∈ to_buy plan).
Proof.
  intros Hplan. unfold execute_rebalance. rewrite Hplan.
  destruct (rebalance_plan_sets self env plan Hplan)
    as (target_bonds & positions & _ & -> & _).
  pose proof (sell_codes_orders self (tr_sell trade) positions
                (project_records_of self) (elements (to_sell_codes plan)) o)
    as Hsell.
  destruct (sell_codes self (tr_sell trade) positions (project_records_of self)
              (elements (to_sell_codes plan))) as [self1 sells].
  simpl in Hsell.
  destruct (_calculate_buy_amount self1 (tr_asset trade)
              (Z.of_nat (size (to_buy plan)))) as [buy_amount|].
  - pose proof (buy_codes_orders self1 (tr_buy trade) buy_amount
                  (elements (to_buy plan)) o) as Hbuy.
    destruct (buy_codes self1 (tr_buy trade) buy_amount (elements (to_buy plan)))
      as [self2 buys].
    simpl in *. intros Ho. apply elem_of_app in Ho as [Ho|Ho].
    + left. destruct (Hsell Ho) as [E Hin]. split; [assumption|].
      apply elem_of_elements. assumption.
    + right. destruct (Hbuy Ho) as [E Hin]. split; [assumption|].
      apply elem_of_elements. assumption.
  - simpl. intros Ho. left. destruct (Hsell Ho) as [E Hin].
    split; [assumption|]. apply elem_of_elements. assumption.
Qed.

(** C1.  Whenever [execute_rebalance] gets as far as computing its two
    sets (a strategy is selected, the terminal is connected, the target
    list is not empty and the holdings are returned), the sell set is
    L ∩ (C − T) and the buy set is T − C, where L is the ledger's code set,
    C the codes of the broker's holdings and T the codes of the target
    list; so the sell set is within L and the buy set shares no code with
    C.  In any run, every sell order is for a code of L and no buy order is
    for a code of C.  For T = {A,B,C}, L = {A,X}, C = {A,X,Y} the sets are
    {X} and {B,C}. *)
Theorem rebalance_sell_and_buy_sets :
  (∀ (cfg : option AppConfig) (strategy : StrategyConfig) (db : option DB)
     (first_bond : BondInfo) (more_bonds : list BondInfo)
     (positions : list Position),
      let self := {| app_config := cfg; strategy_config := Some strategy;
                     database := db |} in
      let env := {| rb_is_connected := true; rb_ensure_connected := true;
                    rb_today_bonds := Returns (first_bond :: more_bonds);
                    rb_positions := Returns positions |} in
      let L := ledger_codes_of db in
      let C := current_codes_of positions in
      let T := target_codes_of (first_bond :: more_bonds) in
      execute_rebalance_plan self env
      = Some {| to_sell_codes := L ∩ (C ∖ T); to_buy := T ∖ C |}
      ∧ L ∩ (C ∖ T) ⊆ L
      ∧ (∀ c, c ∈ C → c ∉ T ∖ C))
  ∧ (∀ (self : Service) (env : RebalanceEnv) (trade : TradeEnv) (o : Order),
       o ∈ snd (execute_rebalance self env trade) →
       (o_side o = Sell → o_stock_code o ∈ ledger_codes_of (database self))
       ∧ (o_side o = Buy →
          ∀ positions, rb_positions env = Returns positions →
                       o_stock_code o ∉ current_codes_of positions))
  ∧ execute_rebalance_plan scenario_service scenario_env
    = Some {| to_sell_codes := {["X"]}; to_buy := {["B"; "C"]} |}.
Proof.
  split; [|split].
  - intros cfg strategy db first_bond more_bonds positions self env L C T.
    split; [|set_solver].
    unfold execute_rebalance_plan; simpl.
    rewrite dom_project_records. reflexivity.
  - intros self env trade o Ho.
    destruct (execute_rebalance_plan self env) as [plan|] eqn:Hplan.
    + destruct (rebalance_plan_sets self env plan Hplan)
        as (target_bonds & positions & _ & Hpos & Hsell & Hbuy).
      destruct (rebalance_orders self env trade plan o Hplan Ho)
        as [[Hside Hin]|[Hside Hin]].
      * split; [|congruence]. intros _. set_solver.
      * split; [congruence|]. intros _ positions' Hpos'.
        assert (positions' = positions) as -> by congruence. set_solver.
    + unfold execute_rebalance in Ho. rewrite Hplan in Ho. inversion Ho.
  - vm_compute. reflexivity.
Qed.

End Rebalance.

(** ** Reconnection after the attempts are used up *)

Section Reconnect.
Import Api.

Lemma reconnect_at_limit st env :
  _qmt_max_reconnect_attempts st <= _qmt_reconnect_count st →
  _reconnect_qmt st env = (st, [AddLog "ERROR"; ErrorNotification "QMT连接异常"]).
Proof.
  intros H. unfold _reconnect_qmt.
  destruct (Z.leb_spec (_qmt_max_reconnect_attempts st) (_qmt_reconnect_count st));
    [reflexivity | lia].
Qed.



Lemma count_events_app P (l k : list event) :
  count_events P (l ++ k) = (count_events P l + count_events P k)%nat.
Proof. unfold count_events. rewrite filter_app, length_app. reflexivity. Qed.





End Reconnect.

(** ** The cut-off of the replenishment queue *)

Section Cutoff.

(** The comparison of [_add_to_refill_queue] reads the clock to the
    microsecond: a reading is past the deadline exactly when its time of
    day is later than 14:50:00.000000. *)
Lemma past_deadline_iff (now_time : datetime) :
  time_gt (time_of now_time) refill_deadline = true
  ↔ cutoff_usec < now_time mod usec_per_day.
Proof.
  unfold time_gt, time_of, refill_deadline, cutoff_usec, usec_per_day.
  cbn [hour minute second microsecond].
  change (86400 * 1000000) with 86400000000.
  change ((14 * 3600 + 50 * 60) * 1000000) with 53400000000.
  set (us := now_time mod 86400000000).
  assert (Hus : 0 <= us < 86400000000) by (apply Z.mod_pos_bound; lia).
  replace (us / 3600000000) with (us / 1000000 / 60 / 60)
    by (rewrite !Z.div_div by lia; reflexivity).
  replace (us / 60000000) with (us / 1000000 / 60)
    by (rewrite !Z.div_div by lia; reflexivity).
  pose proof (Z.div_mod us 1000000 ltac:(lia)) as E1.
  pose proof (Z.mod_pos_bound us 1000000 ltac:(lia)) as B1.
  set (q2 := us / 1000000) in *.
  pose proof (Z.div_mod q2 60 ltac:(lia)) as E2.
  pose proof (Z.mod_pos_bound q2 60 ltac:(lia)) as B2.
  set (q1 := q2 / 60) in *.
  pose proof (Z.div_mod q1 60 ltac:(lia)) as E3.
  pose proof (Z.mod_pos_bound q1 60 ltac:(lia)) as B3.
  set (h := q1 / 60) in *.
  destruct (Z.eqb_spec h 14);
    [destruct (Z.eqb_spec (q1 mod 60) 50);
       [destruct (Z.eqb_spec (q2 mod 60) 0)|]|];
    rewrite Z.ltb_lt; lia.
Qed.

Lemma add_items_tables db clock k sold_items :
  position_records (add_items db clock k sold_items) = position_records db
  ∧ length (refill_queue (add_items db clock k sold_items))
    = (length (refill_queue db) + length sold_items)%nat.
Proof.
  revert db k. induction sold_items as [|item rest IH]; intros db k; simpl.
  - split; [reflexivity | lia].
  - destruct (IH (add_refill_queue db (clock k) (si_stock_code item)
                    (si_stock_name item) (si_volume item) (si_sell_price item)
                    (reason_text (si_reason item))) (S k)) as [-> ->].
    simpl. rewrite length_app. simpl. split; [reflexivity | lia].
Qed.

Lemma add_to_refill_queue_past self now_time clock sold_items :
  time_gt (time_of now_time) refill_deadline = true →
  _add_to_refill_queue self now_time clock sold_items = self.
Proof.
  intros Hpast. unfold _add_to_refill_queue.
  destruct sold_items; [reflexivity|].
  destruct (database self); [|reflexivity].
  rewrite Hpast. reflexivity.
Qed.

Lemma add_to_refill_queue_in_time self db now_time clock item rest :
  database self = Some db →
  time_gt (time_of now_time) refill_deadline = false →
  length (queue_of (_add_to_refill_queue self now_time clock (item :: rest)))
  = (length (refill_queue db) + S (length rest))%nat.
Proof.
  intros Hdb Hin. unfold _add_to_refill_queue. rewrite Hdb, Hin.
  unfold queue_of; simpl.
  destruct (add_items_tables
              (add_refill_queue db (clock 0%nat) (si_stock_code item)
                 (si_stock_name item) (si_volume item) (si_sell_price item)
                 (reason_text (si_reason item))) clock 1 rest) as [_ ->].
  simpl. rewrite length_app. simpl. lia.
Qed.

Lemma update_position_record_queue db c sold_volume :
  refill_queue (update_position_record db c sold_volume) = refill_queue db.
Proof.
  unfold update_position_record.
  destruct (first_by_code c (position_records db)) as [[i r]|]; [|reflexivity].
  destruct (volume _ <=? 0); reflexivity.
Qed.

Lemma execute_stop_order_queue self order_id pos record p reason :
  queue_of (sr_self (_execute_stop_order self order_id pos record p reason))
  = queue_of self.
Proof.
  unfold _execute_stop_order.
  destruct (Z.min _ _ <=? 0); [reflexivity|].
  destruct order_id as [n|]; [|reflexivity].
  destruct (0 <? n); [|reflexivity]. simpl.
  unfold queue_of. destruct (database self) as [db|] eqn:Hdb; simpl.
  - apply update_position_record_queue.
  - rewrite Hdb. reflexivity.
Qed.

Lemma check_records_queue self check k position_dict p l records :
  queue_of (fst (fst (check_records self check k position_dict p l records)))
  = queue_of self.
Proof.
  revert self k. induction records as [|record rest IH]; intros self k; simpl.
  - reflexivity.
  - destruct (position_dict !! stock_code record) as [pos|]; [|apply IH].
    set (res := _check_single_position self (check k) pos record p l).
    specialize (IH (sr_self res) (S k)).
    destruct (check_records (sr_self res) check (S k) position_dict p l rest)
      as [[self' orders] sold_items].
    simpl in *. rewrite IH. unfold res, _check_single_position.
    destruct (stop_path (check k) p l) as [[current_price reason]|];
      [apply execute_stop_order_queue | reflexivity].
Qed.

(** The risk monitor is the only caller of [_add_to_refill_queue]; a run
    of it whose clock reading is past the deadline leaves the queue as it
    was. *)
Lemma monitor_past_deadline self env :
  time_gt (time_of (mn_now env)) refill_deadline = true →
  queue_of (fst (execute_stop_profit_loss_check self env)) = queue_of self.
Proof.
  intros Hpast. unfold execute_stop_profit_loss_check.
  destruct (strategy_config self) as [strategy|]; [|reflexivity].
  destruct (mn_is_connected env); [|reflexivity]. cbn [negb].
  destruct (database self) as [db|] eqn:Hdb; [|reflexivity].
  destruct (get_position_records db) as [|r0 records]; [reflexivity|].
  destruct (mn_positions env) as [positions|]; [|reflexivity].
  pose proof (check_records_queue self (mn_check env) 0
                (positions_by_code positions) (stop_profit_ratio strategy)
                (stop_loss_ratio strategy) (r0 :: records)) as Hq.
  destruct (check_records self (mn_check env) 0 (positions_by_code positions)
              (stop_profit_ratio strategy) (stop_loss_ratio strategy)
              (r0 :: records)) as [[self' orders] sold_items].
  cbn [fst snd] in *. rewrite add_to_refill_queue_past by assumption. assumption.
Qed.

(** C6.  When the clock reading that [_add_to_refill_queue] takes is past
    14:50 (its time of day is later than 14:50:00.000000), the batch is
    refused: the service and its tables are left as they were, so no item
    is written.  Hence whenever the call changes anything, the reading
    was not past the cut-off; a batch of [n] records handed over by then
    (a reading at 14:50:00.000000 itself still counts) adds [n] items.
    A run of the risk monitor, the only caller, whose reading is past the
    cut-off leaves the queue as it was. *)
Theorem refill_queue_cutoff :
  (∀ self now_time clock sold_items,
      cutoff_usec < now_time mod usec_per_day →
      _add_to_refill_queue self now_time clock sold_items = self
      ∧ queue_of (_add_to_refill_queue self now_time clock sold_items)
        = queue_of self)
  ∧ (∀ self env,
       cutoff_usec < mn_now env mod usec_per_day →
       queue_of (fst (execute_stop_profit_loss_check self env)) = queue_of self)
  ∧ (∀ self now_time clock sold_items,
       _add_to_refill_queue self now_time clock sold_items ≠ self →
       now_time mod usec_per_day <= cutoff_usec)
  ∧ (∀ self db now_time clock item rest,
       database self = Some db →
       now_time mod usec_per_day <= cutoff_usec →
       length (queue_of (_add_to_refill_queue self now_time clock (item :: rest)))
       = (length (refill_queue db) + S (length rest))%nat).
Proof.
  split; [|split; [|split]].
  - intros self now_time clock sold_items Hpast.
    apply past_deadline_iff in Hpast.
    rewrite add_to_refill_queue_past by assumption. auto.
  - intros self env Hpast. apply monitor_past_deadline.
    apply past_deadline_iff. assumption.
  - intros self now_time clock sold_items Hchanged.
    destruct (Z_lt_le_dec cutoff_usec (now_time mod usec_per_day)) as [Hpast|];
      [|assumption].
    apply past_deadline_iff in Hpast.
    rewrite add_to_refill_queue_past in Hchanged by assumption.
    contradiction.
  - intros self db now_time clock item rest Hdb Hin.
    apply add_to_refill_queue_in_time; [assumption|].
    apply Bool.not_true_iff_false. rewrite past_deadline_iff. lia.
Qed.

End Cutoff.

(** ** The candidates of the scheduled replenishment *)

Section Refill.

Lemma buy_each_called self buy k amount bonds :
  snd (fst (buy_each self buy k amount bonds)) = code <$> bonds.
Proof.
  revert self k. induction bonds as [|b rest IH]; intros self k; simpl.
  - reflexivity.
  - destruct (_buy_bond self (buy k) (code b) amount) as [self1 order].
    specialize (IH self1 (S k)).
    destruct (buy_each self1 buy (S k) amount rest) as [[self2 called] orders].
    simpl in *. rewrite IH. reflexivity.
Qed.

Lemma buy_each_orders self buy k amount bonds :
  o_stock_code <$> snd (buy_each self buy k amount bonds)
  `sublist_of` code <$> bonds.
Proof.
  revert self k. induction bonds as [|b rest IH]; intros self k; simpl.
  - constructor.
  - destruct (_buy_bond self (buy k) (code b) amount) as [self1 order] eqn:Hbuy.
    specialize (IH self1 (S k)).
    destruct (buy_each self1 buy (S k) amount rest) as [[self2 called] orders].
    simpl in *. destruct order as [o|]; simpl.
    + assert (Ho : snd (_buy_bond self (buy k) (code b) amount) = Some o)
        by (rewrite Hbuy; reflexivity).
      apply buy_bond_order in Ho as (_ & _ & _ & _ & _ & _ & _ & ->).
      apply sublist_skip. assumption.
    + apply sublist_cons. assumption.
Qed.

Lemma refill_to_buy_first target_bonds positions refill_queue :
  let candidates := refill_candidates target_bonds positions refill_queue in
  refill_to_buy target_bonds positions refill_queue
  = take (length refill_queue `min` length candidates) candidates.
Proof.
  intros candidates. unfold refill_to_buy. fold candidates.
  destruct (Nat.le_ge_cases (length refill_queue) (length candidates)) as [H|H].
  - rewrite Nat.min_l by assumption. reflexivity.
  - rewrite Nat.min_r by assumption.
    rewrite !take_ge by lia. reflexivity.
Qed.

Lemma buy_bond_goes_out self env c amount :
  o_stock_code <$> option_list (snd (_buy_bond self env c amount))
  = if buy_goes_out env amount then [c] else [].
Proof.
  unfold _buy_bond, buy_goes_out.
  destruct (by_ensure_connected env); cbn [negb andb]; [|reflexivity].
  destruct (by_quote env) as [quote|]; [|reflexivity].
  destruct (Py.le (get_or_zero (lastPrice quote)) 0); cbn [negb andb];
    [reflexivity|].
  destruct (Z.ltb_spec (buy_volume amount (get_or_zero (lastPrice quote))) 10);
    destruct (Z.leb_spec 10 (buy_volume amount (get_or_zero (lastPrice quote))));
    try lia; [reflexivity|].
  destruct (by_order_id env) as [order_id|]; [|reflexivity].
  destruct (0 <? order_id); [|reflexivity].
  destruct (database self), (by_stock_name env); reflexivity.
Qed.

Lemma buy_each_going_out self buy k amount bonds :
  o_stock_code <$> snd (buy_each self buy k amount bonds)
  = codes_going_out buy k amount bonds.
Proof.
  revert self k. induction bonds as [|b rest IH]; intros self k; simpl.
  - reflexivity.
  - pose proof (buy_bond_goes_out self (buy k) (code b) amount) as Hone.
    destruct (_buy_bond self (buy k) (code b) amount) as [self1 order].
    specialize (IH self1 (S k)).
    destruct (buy_each self1 buy (S k) amount rest) as [[self2 called] orders].
    cbn [fst snd] in *. rewrite fmap_app, Hone, IH. reflexivity.
Qed.

Lemma scheduled_refill_orders self env strategy db target_bonds positions amount :
  strategy_config self = Some strategy →
  rf_is_connected env = true →
  database self = Some db →
  rf_today_bonds env = Returns target_bonds →
  rf_positions env = Returns positions →
  let refill_queue := get_refill_queue db (rf_now_get env) in
  let to_buy := refill_to_buy target_bonds positions refill_queue in
  _calculate_buy_amount self (rf_asset env) (Z.of_nat (length to_buy))
  = Returns amount →
  ((0 < amount)%Q →
   o_stock_code <$> snd (execute_scheduled_refill self env)
   = codes_going_out (rf_buy env) 0 amount to_buy)
  ∧ ((amount <= 0)%Q → snd (execute_scheduled_refill self env) = []).
Proof.
  intros Hs Hc Hdb Ht Hp. cbv zeta.
  unfold execute_scheduled_refill.
  rewrite Hs, Hc, Hdb, Ht, Hp; simpl.
  destruct (get_refill_queue db (rf_now_get env)) as [|item queue].
  { intros _. split; reflexivity. }
  destruct target_bonds as [|b T].
  { intros _. split; reflexivity. }
  destruct (refill_candidates (b :: T) positions (item :: queue)) eqn:Hcand.
  { intros _. unfold refill_to_buy. rewrite Hcand. split; reflexivity. }
  intros Hamount. rewrite Hamount. split.
  - intros Hpos. apply le_false in Hpos. rewrite Hpos.
    set (to_buy := refill_to_buy (b :: T) positions (item :: queue)).
    pose proof (buy_each_going_out self (rf_buy env) 0 amount to_buy) as Horders.
    destruct (buy_each self (rf_buy env) 0 amount to_buy) as [[self' called] orders].
    exact Horders.
  - intros Hle. apply le_true in Hle. rewrite Hle. reflexivity.
Qed.

(** C7 (amended).  In [execute_scheduled_refill] the candidates are
    exactly the bonds of the target list [T] whose code is not in
    C − codes(Q), that is, not held by the broker or queued, in the order
    of [T] (C the codes of the broker's holdings, Q the queued sell
    records), and the bonds selected for buying are the first
    min(|Q|, number of candidates) candidates in that order.  When the run
    reaches the buys with an amount above 0, a buy order is sent, in that
    order, for exactly those selected bonds whose own buy passes the
    guards of [_buy_bond] (connection check, price above 0, at least one
    lot), and for no other bond; with an amount of 0 or less no order is
    sent. *)
Theorem refill_takes_first_candidates :
  (∀ (T : list BondInfo) (positions : list Position) (Q : list RefillQueueRow),
      let candidates := refill_candidates T positions Q in
      candidates
      = filter (λ b, code b ∉ pos_stock_code <$> positions
                     ∨ code b ∈ rq_stock_code <$> Q) T
      ∧ candidates `sublist_of` T
      ∧ refill_to_buy T positions Q
        = take (length Q `min` length candidates) candidates
      ∧ length (refill_to_buy T positions Q)
        = (length Q `min` length candidates)%nat)
  ∧ (∀ self env strategy db T positions amount,
       strategy_config self = Some strategy →
       rf_is_connected env = true →
       database self = Some db →
       rf_today_bonds env = Returns T →
       rf_positions env = Returns positions →
       let Q := get_refill_queue db (rf_now_get env) in
       let candidates := refill_candidates T positions Q in
       _calculate_buy_amount self (rf_asset env)
         (Z.of_nat (length (refill_to_buy T positions Q))) = Returns amount →
       ((0 < amount)%Q →
        o_stock_code <$> snd (execute_scheduled_refill self env)
        = codes_going_out (rf_buy env) 0 amount
            (take (length Q `min` length candidates) candidates))
       ∧ ((amount <= 0)%Q → snd (execute_scheduled_refill self env) = [])).
Proof.
  split.
  - intros T positions Q candidates.
    assert (Hfilter : candidates
                      = filter (λ b, code b ∉ pos_stock_code <$> positions
                                     ∨ code b ∈ rq_stock_code <$> Q) T).
    { unfold candidates, refill_candidates. apply list_filter_iff. intros b.
      unfold current_codes_of, queue_codes_of.
      rewrite elem_of_difference, !elem_of_list_to_set.
      destruct (decide (code b ∈ pos_stock_code <$> positions));
        destruct (decide (code b ∈ rq_stock_code <$> Q)); tauto. }
    split; [exact Hfilter|]. split; [apply sublist_filter|]. split.
    + apply refill_to_buy_first.
    + rewrite refill_to_buy_first, length_take. fold candidates. lia.
  - intros self env strategy db T positions amount Hs Hc Hdb Ht Hp Q candidates
      Hamount.
    pose proof (scheduled_refill_orders self env strategy db T positions amount
                  Hs Hc Hdb Ht Hp Hamount) as Horders.
    cbv zeta in Horders. fold Q in Horders.
    rewrite refill_to_buy_first in Horders. exact Horders.
Qed.

(** The claim as first stated does not hold: with two queued sells and
    the candidates B, C, D, the bonds selected are B and C, but when the
    terminal has no price for B only C is bought. *)
Lemma first_candidates_not_all_bought :
  code <$> refill_to_buy [bond "A"; bond "B"; bond "C"; bond "D"]
             [holding "A" 10; holding "X" 10] (queue_of refill_service)
  = ["B"; "C"]
  ∧ o_stock_code <$> snd (execute_scheduled_refill refill_service
                            refill_env_without_price)
    = ["C"]
  ∧ o_stock_code <$> snd (execute_scheduled_refill refill_service
                            refill_env_without_price)
    ≠ ["B"; "C"].
Proof. vm_compute. repeat split; congruence. Qed.

End Refill.

(** ** The bounded retry of [ensure_connected] *)

Section EnsureConnected.

Variable health_check : nat → bool.
Variable max_retries : Z.
Variable retry_interval : Q.

Lemma count_probes_probe (done : list QMTService.event) :
  count_probes (Probe :: done) = S (count_probes done).
Proof. unfold count_probes. rewrite filter_cons_True by reflexivity. reflexivity. Qed.

Lemma count_probes_sleep (done : list QMTService.event) :
  count_probes (Sleep retry_interval :: done) = count_probes done.
Proof. unfold count_probes. rewrite filter_cons_False by discriminate. reflexivity. Qed.

Lemma count_sleeps_probe (done : list QMTService.event) :
  count_sleeps (Probe :: done) = count_sleeps done.
Proof. unfold count_sleeps. rewrite filter_cons_False by discriminate. reflexivity. Qed.

Lemma count_sleeps_sleep (done : list QMTService.event) :
  count_sleeps (Sleep retry_interval :: done) = S (count_sleeps done).
Proof. unfold count_sleeps. rewrite filter_cons_True by reflexivity. reflexivity. Qed.

Lemma loop_step (todo attempt : nat) :
  ensure_connected_from health_check max_retries retry_interval (S todo) attempt
  = if health_check attempt then (true, [Probe])
    else
      let rest := ensure_connected_from health_check max_retries
                    retry_interval todo (S attempt) in
      (fst rest,
       Probe :: (if Z.of_nat attempt <? max_retries - 1
                 then [Sleep retry_interval] else []) ++ snd rest).
Proof. reflexivity. Qed.

Lemma loop_probes_bounded (todo attempt : nat) :
  (count_probes (snd (ensure_connected_from health_check max_retries
                        retry_interval todo attempt)) <= todo)%nat.
Proof.
  revert attempt. induction todo as [|todo IH]; intros attempt; simpl.
  - unfold count_probes. simpl. lia.
  - destruct (health_check attempt); simpl.
    + rewrite count_probes_probe. unfold count_probes. simpl. lia.
    + specialize (IH (S attempt)). rewrite count_probes_probe.
      destruct (Z.of_nat attempt <? max_retries - 1); simpl;
        rewrite ?count_probes_sleep; lia.
Qed.

Lemma loop_all_fail (todo attempt : nat) :
  Z.of_nat (attempt + S todo) = max_retries →
  (∀ j, (attempt <= j < attempt + S todo)%nat → health_check j = false) →
  ensure_connected_from health_check max_retries retry_interval (S todo) attempt
  = (false, probes_with_sleeps retry_interval todo).
Proof.
  revert attempt. induction todo as [|todo IH]; intros attempt Hn Hfail.
  - simpl. rewrite (Hfail attempt) by lia.
    destruct (Z.ltb_spec (Z.of_nat attempt) (max_retries - 1)); [lia|].
    reflexivity.
  - rewrite loop_step, (Hfail attempt) by lia.
    destruct (Z.ltb_spec (Z.of_nat attempt) (max_retries - 1)); [|lia].
    cbv zeta. rewrite (IH (S attempt)); [reflexivity | lia |].
    intros j Hj. apply Hfail. lia.
Qed.

Lemma loop_first_success (k todo attempt : nat) :
  (k < todo)%nat →
  Z.of_nat (attempt + todo) = max_retries →
  health_check (attempt + k) = true →
  (∀ j, (attempt <= j < attempt + k)%nat → health_check j = false) →
  ensure_connected_from health_check max_retries retry_interval todo attempt
  = (true, probes_with_sleeps retry_interval k).
Proof.
  revert todo attempt. induction k as [|k IH]; intros todo attempt Hk Hn Hok Hfail.
  - destruct todo as [|todo]; [lia|]. simpl.
    rewrite Nat.add_0_r in Hok. rewrite Hok. reflexivity.
  - destruct todo as [|todo]; [lia|].
    rewrite loop_step, (Hfail attempt) by lia.
    destruct (Z.ltb_spec (Z.of_nat attempt) (max_retries - 1)); [|lia].
    cbv zeta. rewrite (IH todo (S attempt)); [reflexivity | lia | lia | |].
    + rewrite <- Hok. f_equal. lia.
    + intros j Hj. apply Hfail. lia.
Qed.

Lemma probes_with_sleeps_counts (k : nat) :
  count_probes (probes_with_sleeps retry_interval k) = S k
  ∧ count_sleeps (probes_with_sleeps retry_interval k) = k.
Proof.
  induction k as [|k [IH1 IH2]]; simpl.
  - rewrite count_probes_probe, count_sleeps_probe. auto.
  - rewrite count_probes_probe, count_probes_sleep,
      count_sleeps_probe, count_sleeps_sleep, IH1, IH2. auto.
Qed.

End EnsureConnected.

Section EnsureConnectedClaim.

(** C8.  [ensure_connected(max_retries, retry_interval)] probes at most
    [max_retries] times.  If the probe number [k] (from 0, below
    [max_retries]) is the first to succeed it returns true right there,
    after [k + 1] probes and [k] sleeps, each sleep between two probes.
    If all [max_retries] probes fail it returns false after [max_retries]
    probes with [max_retries − 1] sleeps between them, none after the
    last.  With [max_retries = 2] and a check that always fails: probe,
    sleep, probe, false. *)
Theorem ensure_connected_retries :
  (∀ health_check max_retries retry_interval,
      (count_probes (snd (ensure_connected health_check max_retries retry_interval))
       <= Z.to_nat max_retries)%nat)
  ∧ (∀ health_check max_retries retry_interval (k : nat),
       (k < Z.to_nat max_retries)%nat →
       health_check k = true →
       (∀ j, (j < k)%nat → health_check j = false) →
       ensure_connected health_check max_retries retry_interval
       = (true, probes_with_sleeps retry_interval k))
  ∧ (∀ health_check max_retries retry_interval,
       0 < max_retries →
       (∀ j, (j < Z.to_nat max_retries)%nat → health_check j = false) →
       ensure_connected health_check max_retries retry_interval
       = (false, probes_with_sleeps retry_interval (Z.to_nat max_retries - 1)))
  ∧ (∀ retry_interval k,
       count_probes (probes_with_sleeps retry_interval k) = S k
       ∧ count_sleeps (probes_with_sleeps retry_interval k) = k)
  ∧ (∀ retry_interval,
       ensure_connected (λ _, false) 2 retry_interval
       = (false, [Probe; Sleep retry_interval; Probe])).
Proof.
  split; [|split; [|split; [|split]]].
  - intros. apply loop_probes_bounded.
  - intros health_check max_retries retry_interval k Hk Hok Hfail.
    unfold ensure_connected.
    apply loop_first_success; try assumption; [lia|].
    intros j Hj. apply Hfail. lia.
  - intros health_check max_retries retry_interval Hn Hfail.
    unfold ensure_connected.
    destruct (Z.to_nat max_retries) as [|todo] eqn:E; [lia|].
    rewrite loop_all_fail.
    + f_equal. f_equal. lia.
    + lia.
    + intros j Hj. apply Hfail. lia.
  - intros. apply probes_with_sleeps_counts.
  - reflexivity.
Qed.

End EnsureConnectedClaim.

(** ** The amount of a buy *)

Section BuyAmount.

Lemma round_half_even_floor (n d : Z) : n / d <= round_half_even n d.
Proof.
  unfold round_half_even.
  destruct (d <? 2 * (n mod d)); [lia|].
  destruct ((2 * (n mod d) =? d) && Z.odd (n / d)); lia.
Qed.

(** [float(n)] of a positive [int] is above 0. *)
Lemma of_int_pos (n : Z) : 0 < n → (0 < of_int n)%Q.
Proof.
  intros Hn. unfold of_int, round64. cbn [Qnum Qden inject_Z].
  destruct (Z.eqb_spec n 0); [lia|].
  destruct (Z.ltb_spec n 0); [lia|].
  rewrite (Z.abs_eq n) by lia.
  pose proof (Z.log2_nonneg n) as Hlog.
  destruct (Z.log2_spec n Hn) as [Hlow _].
  assert (Hfloor : log2_floor n 1 = Z.log2 n).
  { unfold log2_floor. change (Z.log2 1) with 0. rewrite Z.sub_0_r.
    destruct (Z.leb_spec 0 (Z.log2 n)); [|lia].
    destruct (Z.leb_spec (1 * 2 ^ Z.log2 n) n); [reflexivity|lia]. }
  rewrite Hfloor.
  rewrite (Z.max_l (Z.log2 n - 52) (-1074)) by lia.
  destruct (Z.leb_spec 0 (Z.log2 n - 52)) as [He|He].
  - pose proof (round_half_even_floor n (1 * 2 ^ (Z.log2 n - 52))) as Hm.
    assert (Hpow : 0 < 2 ^ (Z.log2 n - 52)) by (apply Z.pow_pos_nonneg; lia).
    assert (Hle : 2 ^ (Z.log2 n - 52) <= 2 ^ Z.log2 n)
      by (apply Z.pow_le_mono_r; lia).
    assert (1 <= n / (1 * 2 ^ (Z.log2 n - 52))).
    { apply Z.div_le_lower_bound; lia. }
    unfold Qlt. cbn [Qnum Qden inject_Z]. nia.
  - pose proof (round_half_even_floor (n * 2 ^ (- (Z.log2 n - 52))) 1) as Hm.
    assert (Hpow : 0 < 2 ^ (- (Z.log2 n - 52))) by (apply Z.pow_pos_nonneg; lia).
    rewrite Z.div_1_r in Hm.
    rewrite Qred_correct.
    unfold Qlt. cbn [Qnum Qden]. nia.
Qed.

(** C9.  [_calculate_buy_amount] returns 0 when there is no app config
    or the count is ≤ 0.  In fixed mode it returns the configured fixed
    amount, and 10000 when that is unset or 0.  In average mode it returns
    the available cash divided by the count (one binary64 division),
    and 10000 when the asset query raises.  It never raises. *)
Theorem calculate_buy_amount_cases :
  (∀ self get_asset bond_count,
      app_config self = None →
      _calculate_buy_amount self get_asset bond_count = Returns 0%Q)
  ∧ (∀ self get_asset bond_count,
       bond_count <= 0 →
       _calculate_buy_amount self get_asset bond_count = Returns 0%Q)
  ∧ (∀ self cfg get_asset bond_count,
       app_config self = Some cfg → 0 < bond_count →
       buy_amount_type cfg = fixed →
       (fixed_amount cfg = None →
        _calculate_buy_amount self get_asset bond_count = Returns 10000%Q)
       ∧ (∀ v, fixed_amount cfg = Some v → (v == 0)%Q →
               _calculate_buy_amount self get_asset bond_count = Returns 10000%Q)
       ∧ (∀ v, fixed_amount cfg = Some v → ¬ (v == 0)%Q →
               _calculate_buy_amount self get_asset bond_count = Returns v))
  ∧ (∀ self cfg get_asset bond_count,
       app_config self = Some cfg → 0 < bond_count →
       buy_amount_type cfg = average →
       (∀ msg, get_asset = Raises msg →
               _calculate_buy_amount self get_asset bond_count = Returns 10000%Q)
       ∧ (∀ asset, get_asset = Returns asset →
                   _calculate_buy_amount self get_asset bond_count
                   = Returns (fdiv (cash asset) (of_int bond_count))))
  ∧ (∀ self get_asset bond_count,
       ∃ amount, _calculate_buy_amount self get_asset bond_count = Returns amount).
Proof.
  split; [|split; [|split; [|split]]].
  - intros self get_asset n Hcfg. unfold _calculate_buy_amount.
    rewrite Hcfg. reflexivity.
  - intros self get_asset n Hn. unfold _calculate_buy_amount.
    destruct (app_config self); [|reflexivity].
    destruct (Z.leb_spec n 0); [reflexivity | lia].
  - intros self cfg get_asset n Hcfg Hn Hfixed. unfold _calculate_buy_amount.
    rewrite Hcfg, Hfixed.
    destruct (Z.leb_spec n 0); [lia|].
    split; [|split].
    + intros ->. reflexivity.
    + intros v -> Hv. simpl. apply Qeq_bool_iff in Hv. rewrite Hv. reflexivity.
    + intros v -> Hv. simpl.
      destruct (Qeq_bool v 0) eqn:E; [|reflexivity].
      apply Qeq_bool_iff in E. contradiction.
  - intros self cfg get_asset n Hcfg Hn Havg. unfold _calculate_buy_amount.
    rewrite Hcfg, Havg.
    destruct (Z.leb_spec n 0); [lia|].
    split.
    + intros msg ->. reflexivity.
    + intros asset ->. simpl. unfold truediv.
      destruct (Qeq_bool (of_int n) 0) eqn:E; [|reflexivity].
      apply Qeq_bool_iff in E. pose proof (of_int_pos n Hn). lra.
  - intros self get_asset n. unfold _calculate_buy_amount.
    destruct (app_config self) as [cfg|]; [|eauto].
    destruct (n <=? 0); [eauto|].
    destruct (buy_amount_type cfg); [eauto|].
    destruct get_asset as [asset|]; simpl; [|eauto].
    destruct (truediv (cash asset) (of_int n)); simpl; eauto.
Qed.

End BuyAmount.

(** ** A decrement for a code without a ledger row *)

Section MissingRow.

(** C10.  [update_position_record] for a code that has no row in the
    ledger returns the tables as they were: no row is created, none is
    changed, and the replenishment queue is untouched. *)
Theorem decrement_without_row_is_noop :
  ∀ (db : DB) (c : string) (sold_volume : Z),
    get_position_record db c = None →
    update_position_record db c sold_volume = db.
Proof.
  intros db c sold_volume Hnone.
  apply update_position_record_missing.
  unfold get_position_record in Hnone.
  destruct (first_by_code c (position_records db)); [discriminate | reflexivity].
Qed.

End MissingRow.

(** ** The properties at concrete inputs *)

Section Instances.
Import Api.

(** In the scenario the run sells X, which the ledger has. *)
Lemma rebalance_sell_and_buy_sets_witness :
  let o := {| o_side := Sell; o_stock_code := "X"; o_volume := 10;
              o_price := 100; o_price_type := limit |} in
  o ∈ snd (execute_rebalance scenario_service scenario_env scenario_trade)
  ∧ o_stock_code o ∈ ledger_codes_of (database scenario_service).
Proof.
  intros o.
  assert (Ho : o ∈ snd (execute_rebalance scenario_service scenario_env
                          scenario_trade)).
  { vm_compute. left. }
  split; [exact Ho|].
  exact (proj1 (proj1 (proj2 rebalance_sell_and_buy_sets) scenario_service
                  scenario_env scenario_trade o Ho) eq_refl).
Defined.


(** The row of the one buy has volume 90; selling 100 of it deletes it. *)
Lemma ledger_volume_invariant_witness :
  let row := {| id := 1; stock_code := "113001"; stock_name := "bond A";
                volume := 90; buy_price := f64 (1053 # 10); buy_time := 0;
                strategy_name := "调仓买入" |} in
  0 < volume row
  ∧ get_position_record (update_position_record bought_once "113001" 100) "113001"
    = None.
Proof.
  intros row.
  assert (Hreach : reachable bought_once).
  { apply (reach_buy Database.empty bought_once
             (service_over (Some (fixed_config (Some 10000%Q))) [])
             (quoted (f64 (1053 # 10)) (Returns 1) (Returns "bond A") 0)
             "113001" 10000).
    - apply reach_empty.
    - reflexivity.
    - vm_compute. reflexivity. }
  destruct ledger_volume_invariant as (Hpos & _ & Hgone & _).
  split.
  - apply (Hpos bought_once row Hreach). vm_compute. left.
  - apply (Hgone bought_once "113001" 100 row Hreach).
    + vm_compute. reflexivity.
    + reflexivity.
Defined.



(** A sell reported one second after 14:50 is not queued. *)
Lemma refill_queue_cutoff_witness :
  _add_to_refill_queue refill_service (at_time 0 14 50 1 0)
    (λ _, at_time 0 14 50 1 1) [sold "113001" 90 110 stop_profit]
  = refill_service.
Proof.
  apply (proj1 refill_queue_cutoff refill_service (at_time 0 14 50 1 0)
           (λ _, at_time 0 14 50 1 1) [sold "113001" 90 110 stop_profit]).
  reflexivity.
Defined.

(** The comparison with the deadline is strict: a batch handed over at a
    reading of exactly 14:50:00.000000 is still queued, one microsecond
    later it is not. *)
Example enqueue_at_the_deadline :
  length (queue_of (_add_to_refill_queue refill_service (at_time 0 14 50 0 0)
                      (λ _, at_time 0 14 50 0 1)
                      [sold "113001" 90 110 stop_profit])) = 3%nat
  ∧ length (queue_of (_add_to_refill_queue refill_service (at_time 0 14 50 0 1)
                        (λ _, at_time 0 14 50 0 2)
                        [sold "113001" 90 110 stop_profit])) = 2%nat.
Proof. split; reflexivity. Qed.

(** Two queued sells, candidates B, C, D, every quote at 100: B and C are
    bought, in that order. *)
Lemma refill_takes_first_candidates_witness :
  o_stock_code <$> snd (execute_scheduled_refill refill_service refill_env)
  = ["B"; "C"].
Proof.
  apply (proj1 (proj2 refill_takes_first_candidates refill_service refill_env
                  some_strategy
                  {| position_records := [ledger_row 1 "A" 10];
                     refill_queue := [queued 0 "X" (at_time 0 10 0 0 0);
                                      queued 0 "Y" (at_time 0 11 0 0 0)] |}
                  [bond "A"; bond "B"; bond "C"; bond "D"]
                  [holding "A" 10; holding "X" 10] 10000%Q
                  eq_refl eq_refl eq_refl eq_refl eq_refl eq_refl)).
  reflexivity.
Defined.

(** Three retries allowed, the second probe succeeds. *)
Lemma ensure_connected_retries_witness :
  ensure_connected (λ k, Nat.eqb k 1) 3 (1 # 2)
  = (true, [Probe; QMTService.Sleep (1 # 2); Probe]).
Proof.
  apply (proj1 (proj2 ensure_connected_retries) (λ k, Nat.eqb k 1) 3 (1 # 2) 1%nat).
  - vm_compute. lia.
  - reflexivity.
  - intros j Hj. assert (j = 0%nat) as -> by lia. reflexivity.
Defined.

(** A fixed amount of 0 is replaced by 10000. *)
Lemma calculate_buy_amount_cases_witness :
  _calculate_buy_amount (service_over (Some (fixed_config (Some 0%Q))) [])
    (Raises "QMT 未连接") 2
  = Returns 10000%Q.
Proof.
  destruct calculate_buy_amount_cases as (_ & _ & Hfixed & _).
  apply (proj1 (proj2 (Hfixed (service_over (Some (fixed_config (Some 0%Q))) [])
                         (fixed_config (Some 0%Q)) (Raises "QMT 未连接") 2
                         eq_refl eq_refl eq_refl))
           0%Q eq_refl).
  reflexivity.
Defined.

(** A decrement for a code the ledger does not have. *)
Lemma decrement_without_row_is_noop_witness :
  update_position_record bought_once "128001" 10 = bought_once.
Proof.
  apply (decrement_without_row_is_noop bought_once "128001" 10).
  vm_compute. reflexivity.
Defined.

(** The spec's scenario in binary64 arithmetic: 10000 / 105.3 / 10 is
    9.49..., so nine lots as well. *)
Example buy_volume_binary64_scenario :
  buy_volume_binary64 10000 0x1.a533333333333p+6 = 90.
Proof. vm_compute. reflexivity. Qed.

End Instances.

(** * Further properties of the code *)

(** ** The ledger operations of [database.py] *)

Section LedgerOperations.

Implicit Types (db : DB) (rows : list PositionRecord) (r : PositionRecord).

Lemma first_by_code_insert_other c c' rows i r r' :
  rows !! i = Some r → stock_code r = c → stock_code r' = c → c' ≠ c →
  first_by_code c' (<[i := r']> rows) = first_by_code c' rows.
Proof.
  intros Hi Hr Hr' Hne. unfold first_by_code.
  apply option_eq. intros [j y].
  rewrite list_find_insert_Some. split.
  - intros [[Hlt H]|[(-> & -> & _ & Hp & _)
                    |[(Hlt & _ & H & _)|(z & _ & _ & _ & Hz & Hiz & _)]]].
    + exact H.
    + congruence.
    + exact H.
    + rewrite Hi in Hiz. injection Hiz as E. subst z. congruence.
  - intros H. pose proof H as H'.
    apply list_find_Some in H' as (Hj & Hy & Hleast). simpl in Hy.
    destruct (lt_eq_lt_dec j i) as [[Hlt| -> ]|Hgt].
    + left. auto.
    + rewrite Hi in Hj. injection Hj as E. subst y. congruence.
    + right. right. left. split; [assumption|]. split; [congruence|].
      split; [assumption|]. intros z Hz. congruence.
Qed.

Lemma first_by_code_delete_other c c' rows i r :
  rows !! i = Some r → stock_code r = c → c' ≠ c →
  snd <$> first_by_code c' (delete i rows) = snd <$> first_by_code c' rows.
Proof.
  intros Hi Hr Hne. unfold first_by_code.
  rewrite <- (take_drop_middle rows i r Hi) at 2.
  rewrite delete_take_drop.
  destruct (list_find (λ r0, stock_code r0 = c') (take i rows)) as [[j y]|] eqn:Hl.
  - rewrite (list_find_app_l _ _ _ _ _ Hl), (list_find_app_l _ _ _ _ _ Hl).
    reflexivity.
  - rewrite !list_find_app_r by assumption. simpl.
    destruct (decide (stock_code r = c')) as [E|_]; [congruence|].
    destruct (list_find (λ r0, stock_code r0 = c') (drop (S i) rows)) as [[j y]|];
      reflexivity.
Qed.

Lemma first_by_code_append c rows r :
  first_by_code c rows = None → stock_code r = c →
  first_by_code c (rows ++ [r]) = Some (length rows, r).
Proof.
  intros Hnone Hr. unfold first_by_code in *.
  rewrite list_find_app_r by assumption. simpl.
  destruct (decide (stock_code r = c)); [|contradiction]. reflexivity.
Qed.

Lemma first_by_code_append_other c c' rows r :
  stock_code r = c → c' ≠ c →
  snd <$> first_by_code c' (rows ++ [r]) = snd <$> first_by_code c' rows.
Proof.
  intros Hr Hne. unfold first_by_code.
  destruct (list_find (λ r0, stock_code r0 = c') rows) as [[j y]|] eqn:Hl.
  - rewrite (list_find_app_l _ _ _ _ _ Hl). reflexivity.
  - rewrite list_find_app_r by assumption. simpl.
    destruct (decide (stock_code r = c')); [congruence | reflexivity].
Qed.

(** The lookups after [add_position_record]. *)
Lemma add_position_record_lookup :
  ∀ db c nm vol bp bt sn,
    (get_position_record db c = None →
     get_position_record (add_position_record db c nm vol bp bt sn) c
     = Some {| id := next_id (position_records db); stock_code := c;
               stock_name := nm; volume := vol; buy_price := bp;
               buy_time := bt; strategy_name := sn |})
    ∧ (∀ r, get_position_record db c = Some r →
            get_position_record (add_position_record db c nm vol bp bt sn) c
            = Some (set_volume_price r (volume r + vol)
                      (if 0 <? volume r + vol
                       then fdiv (fadd (fmul (of_int (volume r)) (buy_price r))
                                       (fmul (of_int vol) bp))
                                 (of_int (volume r + vol))
                       else bp)))
    ∧ (∀ c', c' ≠ c →
             get_position_record (add_position_record db c nm vol bp bt sn) c'
             = get_position_record db c').
Proof.
  intros db c nm vol bp bt sn.
  unfold get_position_record, add_position_record.
  destruct (first_by_code c (position_records db)) as [[i r0]|] eqn:Hf; simpl.
  - pose proof (first_by_code_Some _ _ _ _ Hf) as [Hi Hc].
    split; [discriminate|]. split.
    + intros r E. injection E as <-.
      rewrite (first_by_code_insert c _ i r0); [reflexivity | assumption | assumption].
    + intros c' Hne.
      rewrite (first_by_code_insert_other c c' _ i r0); auto.
  - split; [|split].
    + intros _. rewrite first_by_code_append; [reflexivity | assumption | reflexivity].
    + discriminate.
    + intros c' Hne. apply (first_by_code_append_other c); [reflexivity | assumption].
Qed.

(** X1.  Buying and reading back.  After [add_position_record] for a
    code, [get_position_record] of that code returns: for a code without a
    row, a new row with the bought volume, price, name and time; for a code
    with a row, that row with the volumes added and the price replaced by
    the volume-weighted average as the program computes it, in binary64
    (the name and the first buy time are kept).
    The record of every other code reads as before. *)
Theorem add_then_get_position_record :
  ∀ db c nm vol bp bt sn,
    (get_position_record db c = None →
     get_position_record (add_position_record db c nm vol bp bt sn) c
     = Some {| id := next_id (position_records db); stock_code := c;
               stock_name := nm; volume := vol; buy_price := bp;
               buy_time := bt; strategy_name := sn |})
    ∧ (∀ r, get_position_record db c = Some r →
            get_position_record (add_position_record db c nm vol bp bt sn) c
            = Some (set_volume_price r (volume r + vol)
                      (if 0 <? volume r + vol
                       then fdiv (fadd (fmul (of_int (volume r)) (buy_price r))
                                       (fmul (of_int vol) bp))
                                 (of_int (volume r + vol))
                       else bp)))
    ∧ (∀ c', c' ≠ c →
             get_position_record (add_position_record db c nm vol bp bt sn) c'
             = get_position_record db c').
Proof.
  intros db c nm vol bp bt sn.
  destruct (add_position_record_lookup db c nm vol bp bt sn)
    as (Hnew & Hexisting & Hother).
  split; [exact Hnew|]. split; [exact Hexisting | exact Hother].
Qed.

End LedgerOperations.

Section LedgerFrame.

Implicit Types (db : DB) (rows : list PositionRecord) (r : PositionRecord).

Lemma first_by_code_filter_other c c' rows :
  c' ≠ c →
  snd <$> first_by_code c' (filter (λ r, stock_code r ≠ c) rows)
  = snd <$> first_by_code c' rows.
Proof.
  intros Hne. unfold first_by_code.
  induction rows as [|r rows IH]; [reflexivity|].
  rewrite filter_cons. simpl.
  destruct (decide (stock_code r ≠ c)) as [Hr|Hr]; simpl.
  - destruct (decide (stock_code r = c')); [reflexivity|].
    destruct (list_find _ (filter _ rows)) as [[j1 y1]|],
             (list_find _ rows) as [[j2 y2]|]; simpl in *; congruence.
  - destruct (decide (stock_code r = c')) as [E|_].
    + exfalso. apply Hr. congruence.
    + destruct (list_find _ (filter _ rows)) as [[j1 y1]|],
               (list_find _ rows) as [[j2 y2]|]; simpl in *; congruence.
Qed.

Lemma first_by_code_filter_same c rows :
  first_by_code c (filter (λ r, stock_code r ≠ c) rows) = None.
Proof.
  apply first_by_code_None. intros Hin.
  apply list_elem_of_fmap in Hin as [r [E Hr]].
  apply list_elem_of_filter in Hr as [Hr _]. congruence.
Qed.

(** X3.  After [delete_position_record] for a code no record of that code
    is left, the record of every other code reads as before, and the
    replenishment queue is untouched. *)
Theorem delete_position_record_lookup :
  ∀ db c,
    get_position_record (delete_position_record db c) c = None
    ∧ (∀ c', c' ≠ c →
             get_position_record (delete_position_record db c) c'
             = get_position_record db c')
    ∧ refill_queue (delete_position_record db c) = refill_queue db.
Proof.
  intros db c. unfold get_position_record, delete_position_record; simpl.
  split; [|split].
  - rewrite first_by_code_filter_same. reflexivity.
  - intros c' Hne. apply first_by_code_filter_other. assumption.
  - reflexivity.
Qed.

(** X4.  A decrement for one code leaves the record of every other code
    and the replenishment queue as they were. *)
Theorem update_position_record_other_codes :
  ∀ db c sold_volume c',
    c' ≠ c →
    get_position_record (update_position_record db c sold_volume) c'
    = get_position_record db c'
    ∧ refill_queue (update_position_record db c sold_volume) = refill_queue db.
Proof.
  intros db c sold c' Hne. split; [|apply update_position_record_queue].
  unfold get_position_record.
  destruct (first_by_code c (position_records db)) as [[i r]|] eqn:Hf.
  - rewrite (update_position_record_found db c sold i r Hf). simpl.
    apply first_by_code_Some in Hf as [Hi Hc].
    destruct (Z.max 0 (volume r - sold) <=? 0).
    + apply (first_by_code_delete_other c c' _ i r); assumption.
    + rewrite (first_by_code_insert_other c c' _ i r); auto.
  - rewrite update_position_record_missing by assumption. reflexivity.
Qed.

End LedgerFrame.

(** ** The replenishment queue of [database.py] *)

Section QueueOperations.

Implicit Types (db : DB) (q : list RefillQueueRow) (r : RefillQueueRow).

Lemma insert_by_created_at_perm r q : insert_by_created_at r q ≡ₚ r :: q.
Proof.
  induction q as [|x q IH]; simpl; [reflexivity|].
  destruct (rq_created_at r <? rq_created_at x); [reflexivity|].
  rewrite IH. apply Permutation_swap.
Qed.

Lemma insert_by_created_at_sorted r q :
  StronglySorted created_le q → StronglySorted created_le (insert_by_created_at r q).
Proof.
  induction 1 as [|x q Hsorted IH Hx]; simpl.
  - repeat constructor.
  - destruct (Z.ltb_spec (rq_created_at r) (rq_created_at x)).
    + constructor; [constructor; assumption|].
      constructor; [unfold created_le; lia|].
      eapply Forall_impl; [exact Hx|]. unfold created_le. intros y Hy. lia.
    + constructor; [assumption|].
      rewrite insert_by_created_at_perm.
      constructor; [unfold created_le; lia | assumption].
Qed.

Lemma order_by_created_at_fold acc q :
  foldl (λ acc r, insert_by_created_at r acc) acc q ≡ₚ acc ++ q
  ∧ (StronglySorted created_le acc →
     StronglySorted created_le (foldl (λ acc r, insert_by_created_at r acc) acc q)).
Proof.
  revert acc. induction q as [|r q IH]; intros acc; simpl.
  - rewrite app_nil_r. auto.
  - destruct (IH (insert_by_created_at r acc)) as [Hperm Hsorted]. split.
    + rewrite Hperm, insert_by_created_at_perm.
      change (r :: acc) with ([r] ++ acc).
      rewrite (Permutation_app_comm [r] acc), <- app_assoc. reflexivity.
    + intros Hacc. apply Hsorted, insert_by_created_at_sorted. assumption.
Qed.

Lemma get_refill_queue_perm db now :
  get_refill_queue db now
  ≡ₚ filter (λ r, rq_date r = date_of now) (refill_queue db).
Proof.
  unfold get_refill_queue, order_by_created_at.
  apply (order_by_created_at_fold []).
Qed.

(** X5.  [get_refill_queue] returns exactly the rows of the queue table
    that carry today's date, each as often as it is stored, ordered by
    creation time, oldest first; a row of another date is never returned. *)
Theorem get_refill_queue_todays_rows :
  ∀ db now,
    get_refill_queue db now
    ≡ₚ filter (λ r, rq_date r = date_of now) (refill_queue db)
    ∧ (∀ r, r ∈ get_refill_queue db now ↔
            r ∈ refill_queue db ∧ rq_date r = date_of now)
    ∧ StronglySorted (λ a b, rq_created_at a <= rq_created_at b)
        (get_refill_queue db now).
Proof.
  intros db now. split; [apply get_refill_queue_perm|]. split.
  - intros r. rewrite get_refill_queue_perm, list_elem_of_filter. tauto.
  - unfold get_refill_queue, order_by_created_at.
    apply (order_by_created_at_fold []). constructor.
Qed.

(** X6.  Queueing and reading back.  A row added by [add_refill_queue] is
    in the queue read on the same day, with the fields it was given, and
    that queue is one row longer; the queue read on another day and the
    ledger are as before. *)
Theorem add_then_get_refill_queue :
  ∀ db t c nm vol p reason now,
    let row := {| rq_date := date_of t; rq_stock_code := c; rq_stock_name := nm;
                  rq_volume := vol; rq_sell_price := p; rq_reason := reason;
                  rq_created_at := t |} in
    let db' := add_refill_queue db t c nm vol p reason in
    (date_of now = date_of t →
     row ∈ get_refill_queue db' now
     ∧ length (get_refill_queue db' now) = S (length (get_refill_queue db now)))
    ∧ (date_of now ≠ date_of t →
       get_refill_queue db' now = get_refill_queue db now)
    ∧ position_records db' = position_records db.
Proof.
  intros db t c nm vol p reason now row db'.
  assert (Hfilter :
    filter (λ r, rq_date r = date_of now) (refill_queue db')
    = filter (λ r, rq_date r = date_of now) (refill_queue db)
      ++ (if decide (date_of t = date_of now) then [row] else [])).
  { unfold db', add_refill_queue; simpl. rewrite filter_app. reflexivity. }
  split; [|split; [|reflexivity]].
  - intros Hday.
    destruct (decide (date_of t = date_of now)) as [_|Hne]; [|congruence].
    split.
    + rewrite get_refill_queue_perm, Hfilter.
      apply elem_of_app. right. left.
    + rewrite !get_refill_queue_perm, Hfilter, length_app. simpl. lia.
  - intros Hday.
    destruct (decide (date_of t = date_of now)) as [E|_]; [congruence|].
    unfold get_refill_queue. rewrite Hfilter, app_nil_r. reflexivity.
Qed.

(** X7.  After [clear_refill_queue] the queue of the day reads empty and
    [is_refill_queue_empty] answers true, while the queue of any other day
    and the ledger are as before. *)
Theorem clear_refill_queue_of_the_day :
  ∀ db now,
    get_refill_queue (clear_refill_queue db now) now = []
    ∧ is_refill_queue_empty (clear_refill_queue db now) now = true
    ∧ (∀ other, date_of other ≠ date_of now →
                get_refill_queue (clear_refill_queue db now) other
                = get_refill_queue db other)
    ∧ position_records (clear_refill_queue db now) = position_records db.
Proof.
  intros db now.
  assert (Hnone :
    filter (λ r, rq_date r = date_of now)
      (refill_queue (clear_refill_queue db now)) = []).
  { unfold clear_refill_queue; simpl.
    induction (refill_queue db) as [|r q IH]; [reflexivity|].
    rewrite filter_cons.
    destruct (decide (rq_date r ≠ date_of now)) as [Hr|Hr].
    - rewrite filter_cons.
      destruct (decide (rq_date r = date_of now)); [contradiction | exact IH].
    - exact IH. }
  split; [|split; [|split; [|reflexivity]]].
  - unfold get_refill_queue. rewrite Hnone. reflexivity.
  - unfold is_refill_queue_empty. rewrite Hnone. reflexivity.
  - intros other Hother. unfold get_refill_queue, clear_refill_queue; simpl.
    f_equal.
    induction (refill_queue db) as [|r q IH]; [reflexivity|].
    rewrite (filter_cons (λ r, rq_date r ≠ date_of now)).
    destruct (decide (rq_date r ≠ date_of now)) as [Hr|Hr].
    + rewrite !filter_cons.
      destruct (decide (rq_date r = date_of other)); [f_equal|]; exact IH.
    + rewrite filter_cons.
      destruct (decide (rq_date r = date_of other)) as [E|_]; [|exact IH].
      exfalso. apply Hr. congruence.
Qed.

End QueueOperations.

(** ** Orders and the ledger in [auto_trade_service.py] *)

Section Orders.

Lemma find_position_Some c positions pos :
  find_position c positions = Some pos →
  pos ∈ positions ∧ pos_stock_code pos = c.
Proof.
  unfold find_position. intros H.
  destruct (list_find _ positions) as [[i p]|] eqn:Hf; [|discriminate].
  injection H as ->. apply list_find_Some in Hf as (Hi & Hc & _).
  split; [eapply list_elem_of_lookup_2; eassumption | exact Hc].
Qed.

(** What [_sell_bond] does, according to the terminal's answers. *)
Lemma sell_bond_cases self env c positions record :
  (* nothing is sent and nothing changes *)
  _sell_bond self env c positions record = (self, None)
  ∨ ∃ pos quote o,
      find_position c positions = Some pos
      ∧ sl_quote env = Returns quote
      ∧ sl_is_suspended env = false
      ∧ sl_ensure_connected env = true
      ∧ o = {| o_side := Sell; o_stock_code := c;
               o_volume := match record with
                           | Some r => Z.min (volume r) (can_use_volume pos)
                           | None => can_use_volume pos
                           end;
               o_price := get_or_zero (lastPrice quote);
               o_price_type := order_type_of self |}
      ∧ 0 < o_volume o ∧ (0 < o_price o)%Q
      ∧ snd (_sell_bond self env c positions record) = Some o
      ∧ ((∃ n db r, sl_order_id env = Returns n ∧ 0 < n
                    ∧ database self = Some db ∧ record = Some r
                    ∧ fst (_sell_bond self env c positions record)
                      = with_database self
                          (update_position_record db c (o_volume o)))
         ∨ fst (_sell_bond self env c positions record) = self).
Proof.
  unfold _sell_bond.
  destruct (find_position c positions) as [pos|]; [|left; reflexivity].
  destruct (can_use_volume pos <=? 0); [left; reflexivity|].
  set (sell_volume := match record with
                      | Some r => Z.min (volume r) (can_use_volume pos)
                      | None => can_use_volume pos
                      end).
  destruct (Z.leb_spec sell_volume 0) as [|Hpos]; [left; reflexivity|].
  destruct (sl_ensure_connected env); [|left; reflexivity]. simpl.
  destruct (sl_quote env) as [quote|]; [|left; reflexivity].
  destruct (Py.le (get_or_zero (lastPrice quote)) 0) eqn:Hp; [left; reflexivity|].
  apply le_false in Hp.
  destruct (sl_is_suspended env); [left; reflexivity|].
  right. exists pos, quote. eexists. repeat (split; [reflexivity|]).
  simpl. split; [exact Hpos|]. split; [exact Hp|].
  destruct (sl_order_id env) as [n|]; simpl; [|split; [reflexivity | right; reflexivity]].
  destruct (Z.ltb_spec 0 n); simpl; [|split; [reflexivity | right; reflexivity]].
  destruct (database self) as [db|], record as [r|]; simpl;
    (split; [reflexivity|]); try (right; reflexivity).
  left. exists n, db, r. auto.
Qed.

(** What [_execute_stop_order] does, according to the terminal's answer. *)
Lemma execute_stop_order_cases self order_id pos record p reason :
  let sell_volume := Z.min (volume record) (can_use_volume pos) in
  let o := {| o_side := Sell; o_stock_code := pos_stock_code pos;
              o_volume := sell_volume; o_price := p;
              o_price_type := order_type_of self |} in
  let res := _execute_stop_order self order_id pos record p reason in
  (sell_volume <= 0 ∧ res = no_sale self)
  ∨ (0 < sell_volume ∧ sr_order res = Some o
     ∧ ((∃ n, order_id = Returns n ∧ 0 < n
              ∧ sr_sold res = Some {| si_stock_code := pos_stock_code pos;
                                      si_stock_name := pos_stock_name pos;
                                      si_volume := sell_volume;
                                      si_sell_price := p; si_reason := reason |}
              ∧ sr_self res
                = match database self with
                  | Some db => with_database self
                                 (update_position_record db (pos_stock_code pos)
                                    sell_volume)
                  | None => self
                  end)
        ∨ ((∀ n, order_id = Returns n → n <= 0)
           ∧ sr_sold res = None ∧ sr_self res = self))).
Proof.
  intros sell_volume o res. unfold res, _execute_stop_order. fold sell_volume.
  destruct (Z.leb_spec sell_volume 0) as [Hle|Hpos]; [left; auto|].
  right. split; [assumption|].
  destruct order_id as [n|]; simpl.
  - destruct (Z.ltb_spec 0 n); simpl.
    + split; [reflexivity|]. left. exists n. auto.
    + split; [reflexivity|]. right. split; [|auto].
      intros m E. injection E as <-. assumption.
  - split; [reflexivity|]. right. split; [|auto]. intros m E. discriminate.
Qed.

End Orders.

Section SellBounds.

Lemma sell_codes_origin self sell positions project_records codes o :
  o ∈ snd (sell_codes self sell positions project_records codes) →
  ∃ c self', c ∈ codes
    ∧ snd (_sell_bond self' (sell c) c positions (project_records !! c)) = Some o.
Proof.
  revert self. induction codes as [|c rest IH]; intros self; simpl.
  - intros H. inversion H.
  - destruct (_sell_bond self (sell c) c positions (project_records !! c))
      as [self1 order] eqn:Hsell.
    specialize (IH self1).
    destruct (sell_codes self1 sell positions project_records rest)
      as [self2 orders].
    simpl in *. intros Ho. apply elem_of_app in Ho as [Ho|Ho].
    + destruct order as [o'|]; simpl in Ho; [|inversion Ho].
      apply list_elem_of_singleton in Ho. subst o'.
      exists c, self. split; [left|]. rewrite Hsell. reflexivity.
    + destruct (IH Ho) as (c' & self' & Hin & Hsome).
      exists c', self'. split; [right; assumption | assumption].
Qed.

Lemma sell_bond_with_record self env c positions r o :
  snd (_sell_bond self env c positions (Some r)) = Some o →
  ∃ pos, pos ∈ positions ∧ pos_stock_code pos = c
    ∧ o_stock_code o = c
    ∧ o_volume o = Z.min (volume r) (can_use_volume pos)
    ∧ 0 < o_volume o ∧ (0 < o_price o)%Q.
Proof.
  intros Ho.
  destruct (sell_bond_cases self env c positions (Some r))
    as [E|(pos & quote & o' & Hpos & _ & _ & _ & -> & Hv & Hp & Hsome & _)].
  - rewrite E in Ho. discriminate.
  - rewrite Hsome in Ho. injection Ho as <-.
    apply find_position_Some in Hpos as [Hin Hc].
    exists pos. simpl in *. auto 10.
Qed.

(** X8.  A sell never exceeds what the ledger and the broker both allow.
    An order made by [_sell_bond] for a ledger record, or by
    [_execute_stop_order], is for min(ledger volume, available volume) units,
    a number above 0; so is every sell order of a whole [execute_rebalance]
    run, for the ledger record and the broker position of its code. *)
Theorem sells_within_ledger_and_available :
  (∀ self env c positions r o,
      snd (_sell_bond self env c positions (Some r)) = Some o →
      ∃ pos, pos ∈ positions ∧ pos_stock_code pos = c
        ∧ o_volume o = Z.min (volume r) (can_use_volume pos)
        ∧ 0 < o_volume o <= volume r ∧ o_volume o <= can_use_volume pos)
  ∧ (∀ self order_id pos r p reason o,
       sr_order (_execute_stop_order self order_id pos r p reason) = Some o →
       o_stock_code o = pos_stock_code pos
       ∧ o_volume o = Z.min (volume r) (can_use_volume pos)
       ∧ 0 < o_volume o <= volume r ∧ o_volume o <= can_use_volume pos)
  ∧ (∀ self env trade o,
       o ∈ snd (execute_rebalance self env trade) → o_side o = Sell →
       ∃ r pos positions,
         project_records_of self !! o_stock_code o = Some r
         ∧ rb_positions env = Returns positions
         ∧ pos ∈ positions ∧ pos_stock_code pos = o_stock_code o
         ∧ o_volume o = Z.min (volume r) (can_use_volume pos)
         ∧ 0 < o_volume o <= volume r ∧ o_volume o <= can_use_volume pos).
Proof.
  split; [|split].
  - intros self env c positions r o Ho.
    apply sell_bond_with_record in Ho as (pos & Hin & Hc & _ & Hv & Hpos & _).
    exists pos. repeat split; try assumption; lia.
  - intros self order_id pos r p reason o Ho.
    destruct (execute_stop_order_cases self order_id pos r p reason)
      as [[_ E]|(Hpos & Hsome & _)].
    + rewrite E in Ho. discriminate.
    + rewrite Hsome in Ho. injection Ho as <-. simpl.
      repeat split; try assumption; lia.
  - intros self env trade o Ho Hside.
    unfold execute_rebalance in Ho.
    destruct (execute_rebalance_plan self env) as [plan|] eqn:Hplan;
      [|inversion Ho].
    destruct (rebalance_plan_sets self env plan Hplan)
      as (target_bonds & positions & _ & Hpos & Hsell & _).
    rewrite Hpos in Ho.
    pose proof (sell_codes_origin self (tr_sell trade) positions
                  (project_records_of self) (elements (to_sell_codes plan)) o)
      as Horigin.
    destruct (sell_codes self (tr_sell trade) positions (project_records_of self)
                (elements (to_sell_codes plan))) as [self1 sells].
    simpl in Horigin.
    assert (Hin : o ∈ sells).
    { destruct (_calculate_buy_amount self1 (tr_asset trade)
                  (Z.of_nat (size (to_buy plan)))) as [amount|]; [|exact Ho].
      pose proof (buy_codes_orders self1 (tr_buy trade) amount
                    (elements (to_buy plan)) o) as Hbuy.
      destruct (buy_codes self1 (tr_buy trade) amount (elements (to_buy plan)))
        as [self2 buys].
      simpl in *. apply elem_of_app in Ho as [Ho|Ho]; [assumption|].
      destruct (Hbuy Ho) as [E _]. congruence. }
    destruct (Horigin Hin) as (c & self' & Hc & Hsome).
    apply elem_of_elements in Hc.
    assert (Hdom : c ∈ dom (project_records_of self)).
    { rewrite dom_project_records. set_solver. }
    apply elem_of_dom in Hdom as [r Hr]. rewrite Hr in Hsome.
    apply sell_bond_with_record in Hsome
      as (pos & Hpin & Hpc & Hoc & Hv & Hvpos & _).
    exists r, pos, positions. rewrite Hoc.
    repeat split; try assumption; lia.
Qed.

End SellBounds.

Section AcceptedOrders.

(** What [_buy_bond] does to the service, according to the terminal. *)
Lemma buy_bond_state self env c amount :
  fst (_buy_bond self env c amount) = self
  ∨ ∃ db n nm o,
      database self = Some db
      ∧ by_order_id env = Returns n ∧ 0 < n
      ∧ by_stock_name env = Returns nm
      ∧ snd (_buy_bond self env c amount) = Some o
      ∧ fst (_buy_bond self env c amount)
        = with_database self
            (add_position_record db c nm (o_volume o) (o_price o) (by_now env)
               "调仓买入").
Proof.
  unfold _buy_bond.
  destruct (by_ensure_connected env); [|left; reflexivity]. simpl.
  destruct (by_quote env) as [quote|]; [|left; reflexivity].
  destruct (Py.le _ 0); [left; reflexivity|].
  destruct (buy_volume amount _ <? 10); [left; reflexivity|].
  destruct (by_order_id env) as [n|]; simpl; [|left; reflexivity].
  destruct (Z.ltb_spec 0 n); [|left; reflexivity].
  destruct (database self) as [db|]; [|left; reflexivity].
  destruct (by_stock_name env) as [nm|]; [|left; reflexivity].
  right. exists db, n, nm. eexists. simpl. auto 10.
Qed.

Lemma buy_bond_accepted self db env c amount o n nm :
  database self = Some db →
  snd (_buy_bond self env c amount) = Some o →
  by_order_id env = Returns n → 0 < n →
  by_stock_name env = Returns nm →
  fst (_buy_bond self env c amount)
  = with_database self
      (add_position_record db c nm (o_volume o) (o_price o) (by_now env)
         "调仓买入").
Proof.
  intros Hdb Ho Hn Hpos Hnm. revert Ho. unfold _buy_bond.
  destruct (by_ensure_connected env); simpl; [|discriminate].
  destruct (by_quote env) as [quote|]; [|discriminate].
  destruct (Py.le _ 0); [discriminate|].
  destruct (buy_volume amount _ <? 10); [discriminate|].
  rewrite Hn. destruct (Z.ltb_spec 0 n); [|lia].
  rewrite Hdb, Hnm. simpl. intros E. injection E as <-. reflexivity.
Qed.

(** X9.  The ledger changes only when the terminal accepts an order.  If
    the order call raises or returns an id that is not above 0, [_buy_bond]
    and [_sell_bond] return the service as it was, and
    [_execute_stop_order] does so too and reports no sale (so nothing is
    queued for replenishment). *)
Theorem rejected_order_changes_nothing :
  (∀ self env c amount,
      (∀ n, by_order_id env = Returns n → n <= 0) →
      fst (_buy_bond self env c amount) = self)
  ∧ (∀ self env c positions record,
       (∀ n, sl_order_id env = Returns n → n <= 0) →
       fst (_sell_bond self env c positions record) = self)
  ∧ (∀ self order_id pos r p reason,
       (∀ n, order_id = Returns n → n <= 0) →
       sr_self (_execute_stop_order self order_id pos r p reason) = self
       ∧ sr_sold (_execute_stop_order self order_id pos r p reason) = None).
Proof.
  split; [|split].
  - intros self env c amount Hrej.
    destruct (buy_bond_state self env c amount)
      as [E|(db & n & nm & o & _ & Hn & Hpos & _)]; [exact E|].
    specialize (Hrej n Hn). lia.
  - intros self env c positions record Hrej.
    destruct (sell_bond_cases self env c positions record)
      as [E|(pos & quote & o & _ & _ & _ & _ & _ & _ & _ & _ & Hst)].
    + rewrite E. reflexivity.
    + destruct Hst as [(n & db & r & Hn & Hpos & _)|E]; [|exact E].
      specialize (Hrej n Hn). lia.
  - intros self order_id pos r p reason Hrej.
    destruct (execute_stop_order_cases self order_id pos r p reason)
      as [[_ E]|(_ & _ & [(n & Hn & Hpos & _)|(_ & Hsold & Hself)])].
    + rewrite E. auto.
    + specialize (Hrej n Hn). lia.
    + auto.
Qed.

(** X10.  An accepted buy is recorded, unless the name lookup fails.  When
    the terminal accepts the order of [_buy_bond] and the name of the bond
    is found, the ledger record of the code afterwards has the ordered
    volume added (a first buy creates it with the order's volume and
    price) and the records of the other codes are as before.  When
    [get_stock_name] raises, the order has been sent but the service and
    its ledger are left as they were. *)
Theorem accepted_buy_is_recorded :
  (∀ self db env c amount o n nm,
      database self = Some db →
      snd (_buy_bond self env c amount) = Some o →
      by_order_id env = Returns n → 0 < n →
      by_stock_name env = Returns nm →
      ∃ db', database (fst (_buy_bond self env c amount)) = Some db'
        ∧ (get_position_record db c = None →
           ∃ r', get_position_record db' c = Some r'
                 ∧ volume r' = o_volume o ∧ buy_price r' = o_price o
                 ∧ stock_name r' = nm)
        ∧ (∀ r, get_position_record db c = Some r →
                ∃ r', get_position_record db' c = Some r'
                      ∧ volume r' = volume r + o_volume o)
        ∧ (∀ c', c' ≠ c → get_position_record db' c' = get_position_record db c')
        ∧ refill_queue db' = refill_queue db)
  ∧ (∀ self env c amount msg,
       by_stock_name env = Raises msg →
       fst (_buy_bond self env c amount) = self).
Proof.
  split.
  - intros self db env c amount o n nm Hdb Ho Hn Hpos Hnm.
    rewrite (buy_bond_accepted self db env c amount o n nm Hdb Ho Hn Hpos Hnm).
    simpl. eexists. split; [reflexivity|].
    destruct (add_position_record_lookup db c nm (o_volume o) (o_price o)
                (by_now env) "调仓买入") as (Hnew & Hold & Hother).
    split; [|split; [|split]].
    + intros Hnone. eexists. split; [exact (Hnew Hnone)|]. simpl. auto.
    + intros r Hr. eexists. split; [exact (Hold r Hr)|]. reflexivity.
    + exact Hother.
    + unfold add_position_record.
      destruct (first_by_code c (position_records db)) as [[i r]|]; reflexivity.
  - intros self env c amount msg Hnm.
    destruct (buy_bond_state self env c amount)
      as [E|(db & n & nm & o & _ & _ & _ & Hnm' & _)]; [exact E|congruence].
Qed.

End AcceptedOrders.

(** ** The queue after a scheduled replenishment *)

Section RefillClearing.

Lemma buy_bond_keeps_queue self db env c amount :
  database self = Some db →
  ∃ db', database (fst (_buy_bond self env c amount)) = Some db'
    ∧ refill_queue db' = refill_queue db.
Proof.
  intros Hdb.
  destruct (buy_bond_state self env c amount)
    as [->|(db0 & n & nm & o & Hdb0 & _ & _ & _ & _ & ->)].
  - exists db. auto.
  - assert (db0 = db) as -> by congruence. simpl. eexists. split; [reflexivity|].
    unfold add_position_record.
    destruct (first_by_code c (position_records db)) as [[i r]|]; reflexivity.
Qed.

Lemma buy_each_keeps_queue self db buy k amount bonds :
  database self = Some db →
  ∃ db', database (fst (fst (buy_each self buy k amount bonds))) = Some db'
    ∧ refill_queue db' = refill_queue db.
Proof.
  revert self db k. induction bonds as [|b rest IH]; intros self db k Hdb; simpl.
  - exists db. auto.
  - destruct (buy_bond_keeps_queue self db (buy k) (code b) amount Hdb)
      as (db1 & Hdb1 & Hq1).
    destruct (_buy_bond self (buy k) (code b) amount) as [self1 order].
    simpl in Hdb1.
    destruct (IH self1 db1 (S k) Hdb1) as (db2 & Hdb2 & Hq2).
    destruct (buy_each self1 buy (S k) amount rest) as [[self2 called] orders].
    simpl in *. exists db2. split; [assumption | congruence].
Qed.

(** The two ways a scheduled replenishment ends. *)
Lemma scheduled_refill_cases self env :
  execute_scheduled_refill self env = (self, [], [])
  ∨ ∃ db db' called,
      database self = Some db
      ∧ snd (fst (execute_scheduled_refill self env)) = called
      ∧ called ≠ []
      ∧ refill_queue db' = refill_queue db
      ∧ database (fst (fst (execute_scheduled_refill self env)))
        = Some (clear_refill_queue db' (rf_now_clear env)).
Proof.
  unfold execute_scheduled_refill.
  destruct (strategy_config self); [|left; reflexivity].
  destruct (rf_is_connected env); [|left; reflexivity]. cbn [negb].
  destruct (database self) as [db|] eqn:Hdb; [|left; reflexivity].
  destruct (get_refill_queue db (rf_now_get env)) as [|item queue];
    [left; reflexivity|].
  destruct (rf_today_bonds env) as [[|b T]|]; [left; reflexivity| |left; reflexivity].
  destruct (rf_positions env) as [positions|]; [|left; reflexivity].
  destruct (refill_candidates (b :: T) positions (item :: queue))
    as [|cand cands] eqn:Hcand; [left; reflexivity|].
  set (to_buy := refill_to_buy (b :: T) positions (item :: queue)).
  destruct (_calculate_buy_amount self (rf_asset env) (Z.of_nat (length to_buy)))
    as [amount|]; [|left; reflexivity].
  destruct (Py.le amount 0); [left; reflexivity|].
  right.
  pose proof (buy_each_called self (rf_buy env) 0 amount to_buy) as Hcalled.
  destruct (buy_each_keeps_queue self db (rf_buy env) 0 amount to_buy Hdb)
    as (db' & Hdb' & Hq).
  destruct (buy_each self (rf_buy env) 0 amount to_buy) as [[self' called] orders].
  cbn [fst snd] in *. rewrite Hdb'. cbn [fst snd].
  exists db, db', called. split; [reflexivity|]. split; [reflexivity|].
  split; [|split; [assumption | reflexivity]].
  rewrite Hcalled. unfold to_buy, refill_to_buy. rewrite Hcand. discriminate.
Qed.

(** X11.  When the queue of the day is cleared.  A scheduled replenishment
    that calls [_buy_bond] at least once ends with the queue rows of the day
    removed, whatever became of the buys, and with the rows of other days
    kept.  A run that calls [_buy_bond] for no bond (nothing queued, empty
    target list, no candidate, an amount of 0 or less, a failing ranking
    service or terminal) returns the service as it was: the queue of the
    day stays. *)
Theorem scheduled_refill_clears_after_buys :
  ∀ self env,
    (snd (fst (execute_scheduled_refill self env)) ≠ [] →
     queue_of (fst (fst (execute_scheduled_refill self env)))
     = filter (λ r, rq_date r ≠ date_of (rf_now_clear env)) (queue_of self))
    ∧ (snd (fst (execute_scheduled_refill self env)) = [] →
       execute_scheduled_refill self env = (self, [], [])).
Proof.
  intros self env.
  destruct (scheduled_refill_cases self env)
    as [E|(db & db' & called & Hdb & Hcalled & Hne & Hq & Hafter)].
  - rewrite E. simpl. split; [contradiction | reflexivity].
  - rewrite Hcalled. split; [|contradiction].
    intros _. unfold queue_of. rewrite Hafter, Hdb. simpl. rewrite Hq. reflexivity.
Qed.

End RefillClearing.

(** ** The orders of the risk monitor *)

Section MonitorOrders.

Lemma positions_fold_lookup positions (acc : gmap string Position) c pos :
  foldl (λ d p, <[pos_stock_code p := p]> d) acc positions !! c = Some pos →
  (pos ∈ positions ∧ pos_stock_code pos = c) ∨ acc !! c = Some pos.
Proof.
  revert acc. induction positions as [|p rest IH]; intros acc; simpl.
  - auto.
  - intros H. destruct (IH _ H) as [[Hin Hc]|Hacc].
    + left. split; [right; assumption | assumption].
    + destruct (decide (pos_stock_code p = c)) as [E|Hne].
      * rewrite E, lookup_insert_eq in Hacc. injection Hacc as ->.
        left. split; [left | assumption].
      * rewrite lookup_insert_ne in Hacc by assumption. right. assumption.
Qed.

Lemma positions_by_code_lookup positions c pos :
  positions_by_code positions !! c = Some pos →
  pos ∈ positions ∧ pos_stock_code pos = c.
Proof.
  intros H. destruct (positions_fold_lookup positions ∅ c pos H) as [?|E];
    [assumption|]. rewrite lookup_empty in E. discriminate.
Qed.

Lemma stop_path_price env p l current_price reason :
  stop_path env p l = Some (current_price, reason) →
  (0 < current_price)%Q ∧ ck_is_suspended env = false
  ∧ ck_ensure_connected env = true.
Proof.
  unfold stop_path.
  destruct (ck_ensure_connected env); [|discriminate]. simpl.
  destruct (ck_quote env) as [quote|]; [|discriminate].
  destruct (Py.le (get_or_zero (lastPrice quote)) 0) eqn:Hp; [discriminate|].
  destruct (ck_is_suspended env); [discriminate|].
  destruct (Py.le (get_or_zero (lastClose quote)) 0); [discriminate|].
  destruct (stop_branch _ p l); [|discriminate]. simpl.
  intros E. injection E as <- _. apply le_false in Hp. auto.
Qed.

Lemma check_single_position_order self env pos record p l o :
  sr_order (_check_single_position self env pos record p l) = Some o →
  o_side o = Sell ∧ o_stock_code o = pos_stock_code pos
  ∧ o_volume o = Z.min (volume record) (can_use_volume pos)
  ∧ 0 < o_volume o ∧ (0 < o_price o)%Q
  ∧ ck_is_suspended env = false.
Proof.
  unfold _check_single_position.
  destruct (stop_path env p l) as [[current_price reason]|] eqn:Hpath;
    [|discriminate].
  apply stop_path_price in Hpath as (Hprice & Hsusp & _).
  intros Ho.
  destruct (execute_stop_order_cases self (ck_order_id env) pos record
              current_price reason) as [[_ E]|(Hpos & Hsome & _)].
  - rewrite E in Ho. discriminate.
  - rewrite Hsome in Ho. injection Ho as <-. simpl. auto 10.
Qed.

Lemma check_records_orders self check k position_dict p l records o :
  o ∈ snd (fst (check_records self check k position_dict p l records)) →
  ∃ record pos,
    record ∈ records ∧ position_dict !! stock_code record = Some pos
    ∧ o_side o = Sell ∧ o_stock_code o = pos_stock_code pos
    ∧ o_volume o = Z.min (volume record) (can_use_volume pos)
    ∧ 0 < o_volume o ∧ (0 < o_price o)%Q.
Proof.
  revert self k. induction records as [|record rest IH]; intros self k; simpl.
  - intros H. inversion H.
  - destruct (position_dict !! stock_code record) as [pos|] eqn:Hpos.
    + set (res := _check_single_position self (check k) pos record p l).
      pose proof (check_single_position_order self (check k) pos record p l o)
        as Hone. fold res in Hone.
      specialize (IH (sr_self res) (S k)).
      destruct (check_records (sr_self res) check (S k) position_dict p l rest)
        as [[self' orders] sold_items].
      cbn [fst snd] in *. intros Ho. apply elem_of_app in Ho as [Ho|Ho].
      * destruct (sr_order res) as [o'|]; simpl in Ho; [|inversion Ho].
        apply list_elem_of_singleton in Ho. subst o'.
        destruct (Hone eq_refl) as (H1 & H2 & H3 & H4 & H5 & _).
        exists record, pos. split; [left|]. auto 10.
      * destruct (IH Ho) as (record' & pos' & Hin & Hrest).
        exists record', pos'. split; [right; assumption | assumption].
    + intros Ho. destruct (IH self (S k) Ho) as (record' & pos' & Hin & Hrest).
      exists record', pos'. split; [right; assumption | assumption].
Qed.

(** X12.  What the risk monitor may send.  [execute_stop_profit_loss_check]
    does nothing at all without a strategy, a connection, a database, a
    ledger row or the broker's holdings.  Every order it sends is a sell at
    a price above 0, for a code that has both a ledger row and a broker
    position, and for min(volume of the row, available volume) units, a
    number above 0: it never buys and never sells a position the ledger
    does not have. *)
Theorem risk_monitor_orders :
  (∀ self env,
      strategy_config self = None ∨ mn_is_connected env = false
      ∨ database self = None
      ∨ (∃ db, database self = Some db ∧ position_records db = [])
      ∨ (∃ msg, mn_positions env = Raises msg) →
      execute_stop_profit_loss_check self env = (self, []))
  ∧ (∀ self env o,
       o ∈ snd (execute_stop_profit_loss_check self env) →
       o_side o = Sell ∧ (0 < o_price o)%Q
       ∧ ∃ db r positions pos,
           database self = Some db ∧ r ∈ position_records db
           ∧ stock_code r = o_stock_code o
           ∧ mn_positions env = Returns positions ∧ pos ∈ positions
           ∧ pos_stock_code pos = o_stock_code o
           ∧ o_volume o = Z.min (volume r) (can_use_volume pos)
           ∧ 0 < o_volume o).
Proof.
  split.
  - intros self env H. unfold execute_stop_profit_loss_check.
    destruct (strategy_config self) as [strategy|] eqn:Hs; [|reflexivity].
    destruct (mn_is_connected env) eqn:Hc; [|reflexivity]. cbn [negb].
    destruct (database self) as [db|] eqn:Hdb; [|reflexivity].
    unfold get_position_records.
    destruct (position_records db) as [|r0 rows] eqn:Hrows; [reflexivity|].
    destruct (mn_positions env) as [positions|] eqn:Hp; [|reflexivity].
    destruct H as [H|[H|[H|[(db' & E & H)|(msg & H)]]]]; try discriminate.
    assert (db' = db) as -> by congruence. congruence.
  - intros self env o. unfold execute_stop_profit_loss_check.
    destruct (strategy_config self) as [strategy|]; [|intros H; inversion H].
    destruct (mn_is_connected env); [|intros H; inversion H]. cbn [negb].
    destruct (database self) as [db|]; [|intros H; inversion H].
    unfold get_position_records.
    destruct (position_records db) as [|r0 rows] eqn:Hrows;
      [intros H; inversion H|].
    destruct (mn_positions env) as [positions|]; [|intros H; inversion H].
    pose proof (check_records_orders self (mn_check env) 0
                  (positions_by_code positions) (stop_profit_ratio strategy)
                  (stop_loss_ratio strategy) (r0 :: rows) o) as Horders.
    destruct (check_records self (mn_check env) 0 (positions_by_code positions)
                (stop_profit_ratio strategy) (stop_loss_ratio strategy)
                (r0 :: rows)) as [[self' orders] sold_items].
    cbn [fst snd] in *. intros Ho.
    destruct (Horders Ho) as (r & pos & Hr & Hpos & Hside & Hcode & Hvol & Hv & Hp).
    apply positions_by_code_lookup in Hpos as [Hpin Hpc].
    split; [assumption|]. split; [assumption|].
    exists db, r, positions, pos. rewrite Hcode.
    repeat split; try assumption; congruence.
Qed.

End MonitorOrders.

(** ** The reconnection procedure of [api.py], below the limit *)

Section ReconnectSteps.
Import Api.

Lemma too_soon_iff (now last : datetime) :
  Py.lt (total_seconds now last) 60 = true ↔ now - last < 60000000.
Proof.
  rewrite lt_true. unfold total_seconds, Qlt, Qdiv, Qmult, Qinv. simpl.
  destruct (now - last); simpl; lia.
Qed.

Lemma reconnect_too_soon st env last :
  _qmt_reconnect_count st < _qmt_max_reconnect_attempts st →
  _qmt_last_reconnect_time st = Some last →
  fe_now_cooldown env - last < 60000000 →
  _reconnect_qmt st env = (st, []).
Proof.
  intros Hlt Hlast Hsoon. unfold _reconnect_qmt.
  destruct (Z.leb_spec (_qmt_max_reconnect_attempts st) (_qmt_reconnect_count st));
    [lia|].
  rewrite Hlast. apply too_soon_iff in Hsoon. rewrite Hsoon. reflexivity.
Qed.

Lemma cooled_down_not_too_soon st env :
  cooled_down st env →
  match _qmt_last_reconnect_time st with
  | Some last => Py.lt (total_seconds (fe_now_cooldown env) last) 60
  | None => false
  end = false.
Proof.
  unfold cooled_down. destruct (_qmt_last_reconnect_time st) as [last|];
    [|reflexivity].
  intros H. apply Bool.not_true_iff_false. rewrite too_soon_iff. lia.
Qed.

Ltac count_now :=
  repeat match goal with
         | |- context [count_connects ?l] =>
             let n := eval vm_compute in (count_connects l) in
             change (count_connects l) with n
         | |- context [count_events ?P ?l] =>
             let n := eval vm_compute in (count_events P l) in
             change (count_events P l) with n
         end.

(** An attempt that is made: the state and the trace it leaves. *)
Lemma reconnect_attempt st env :
  _qmt_reconnect_count st < _qmt_max_reconnect_attempts st →
  cooled_down st env →
  let st1 := set_count (set_last_reconnect_time st (fe_now_attempt env))
               (_qmt_reconnect_count st + 1) in
  (reconnect_succeeds env
   ∧ _reconnect_qmt st env
     = (set_count st1 0,
        [AddLog "INFO"; Disconnect; Sleep 2; Connect; AddLog "SUCCESS";
         SuccessNotification "QMT重连成功"]))
  ∨ (¬ reconnect_succeeds env
     ∧ fst (_reconnect_qmt st env) = st1
     ∧ (count_connects (snd (_reconnect_qmt st env)) <= 1)%nat
     ∧ (count_events is_terminal_notification (snd (_reconnect_qmt st env)) <= 1)%nat
     ∧ (count_events is_terminal_notification (snd (_reconnect_qmt st env)) = 1%nat →
        _qmt_reconnect_count st + 1 = _qmt_max_reconnect_attempts st)).
Proof.
  intros Hlt Hcool st1. unfold _reconnect_qmt.
  destruct (Z.leb_spec (_qmt_max_reconnect_attempts st) (_qmt_reconnect_count st));
    [lia|].
  rewrite (cooled_down_not_too_soon st env Hcool). cbv zeta.
  unfold reconnect_succeeds, reconnect_failed.
  cbn [_qmt_max_reconnect_attempts _qmt_reconnect_count set_count
       set_last_reconnect_time].
  destruct (fe_config env) as [config|msg] eqn:Hcfg.
  - destruct (decide (qmt_path config = "")) as [Hp|Hp].
    { right. rewrite bool_decide_true by assumption. cbn [orb fst snd].
      split; [intros (c & ok & E & H1 & _); congruence|].
      split; [reflexivity|]. count_now. repeat split; try lia. }
    destruct (decide (account_id config = "")) as [Ha|Ha].
    { right. rewrite (bool_decide_false _ Hp), bool_decide_true by assumption.
      cbn [orb fst snd].
      split; [intros (c & ok & E & _ & H2 & _); congruence|].
      split; [reflexivity|]. count_now. repeat split; try lia. }
    rewrite (bool_decide_false _ Hp), (bool_decide_false _ Ha). cbn [orb].
    destruct (fe_connect env) as [ok|msg] eqn:Hconn.
    + destruct (fe_revalidated env) eqn:Hre.
      * left. split; [exists config, ok; auto | reflexivity].
      * right. split; [intros (c & ok' & _ & _ & _ & _ & E); congruence|].
        split; [reflexivity|]. cbn [fst snd].
        destruct (Z.leb_spec (_qmt_max_reconnect_attempts st)
                    (_qmt_reconnect_count st + 1));
          count_now; repeat split; try lia.
    + right. split; [intros (c & ok' & _ & _ & _ & E & _); congruence|].
      split; [reflexivity|]. cbn [fst snd].
      destruct (Z.leb_spec (_qmt_max_reconnect_attempts st)
                  (_qmt_reconnect_count st + 1));
        count_now; repeat split; try lia.
  - right. split; [intros (c & ok' & E & _); congruence|].
    split; [reflexivity|]. cbn [fst snd].
    destruct (Z.leb_spec (_qmt_max_reconnect_attempts st)
                (_qmt_reconnect_count st + 1));
      count_now; repeat split; try lia.
Qed.

Lemma cooled_down_or_too_soon st env :
  cooled_down st env
  ∨ ∃ last, _qmt_last_reconnect_time st = Some last
            ∧ fe_now_cooldown env - last < 60000000.
Proof.
  unfold cooled_down. destruct (_qmt_last_reconnect_time st) as [last|]; [|auto].
  destruct (Z_lt_le_dec (fe_now_cooldown env - last) 60000000); eauto.
Qed.

(** One call of [_reconnect_qmt]: how the counter moves and how many
    connects it makes. *)
Lemma reconnect_step st env :
  0 <= _qmt_reconnect_count st <= _qmt_max_reconnect_attempts st →
  let st' := fst (_reconnect_qmt st env) in
  let done := snd (_reconnect_qmt st env) in
  _qmt_max_reconnect_attempts st' = _qmt_max_reconnect_attempts st
  ∧ _running st' = _running st
  ∧ 0 <= _qmt_reconnect_count st' <= _qmt_max_reconnect_attempts st
  ∧ (count_connects done <= 1)%nat
  ∧ (¬ reconnect_succeeds env →
     _qmt_reconnect_count st + Z.of_nat (count_connects done)
     <= _qmt_reconnect_count st').
Proof.
  intros Hrange st' done. unfold st', done.
  destruct (Z_lt_le_dec (_qmt_reconnect_count st) (_qmt_max_reconnect_attempts st))
    as [Hlt|Hge].
  - destruct (cooled_down_or_too_soon st env) as [Hcool|(last & Hlast & Hsoon)].
    + destruct (reconnect_attempt st env Hlt Hcool)
        as [[Hok ->]|(Hno & -> & Hc & _)].
      * cbn [fst snd _qmt_max_reconnect_attempts _running _qmt_reconnect_count
             set_count set_last_reconnect_time].
        count_now. repeat split; try lia. intros H. contradiction.
      * cbn [_qmt_max_reconnect_attempts _running _qmt_reconnect_count
             set_count set_last_reconnect_time].
        repeat split; try lia.
    + rewrite (reconnect_too_soon st env last Hlt Hlast Hsoon).
      cbn [fst snd]. count_now. repeat split; lia.
  - rewrite (reconnect_at_limit st env Hge). cbn [fst snd]. count_now.
    repeat split; lia.
Qed.

(** One firing of the health check, in the same terms. *)
Lemma callback_step st env :
  0 <= _qmt_reconnect_count st <= _qmt_max_reconnect_attempts st →
  let st' := fst (_qmt_health_check_callback st env) in
  let done := snd (_qmt_health_check_callback st env) in
  _qmt_max_reconnect_attempts st' = _qmt_max_reconnect_attempts st
  ∧ _running st' = _running st
  ∧ 0 <= _qmt_reconnect_count st' <= _qmt_max_reconnect_attempts st
  ∧ (count_connects done <= 1)%nat
  ∧ (fe_healthy env = false → ¬ reconnect_succeeds env →
     _qmt_reconnect_count st + Z.of_nat (count_connects done)
     <= _qmt_reconnect_count st').
Proof.
  intros Hrange. unfold _qmt_health_check_callback.
  destruct (_running st) eqn:Hrun; cbn [negb].
  - destruct (fe_healthy env); cbn [negb].
    + cbn [_qmt_reconnect_count set_last_health_check_time].
      destruct (0 <? _qmt_reconnect_count st);
        cbn [fst snd _qmt_max_reconnect_attempts _running _qmt_reconnect_count
             set_count set_last_health_check_time];
        count_now; repeat split; try lia; try assumption; discriminate.
    + pose proof (reconnect_step (set_last_health_check_time st (fe_now_health env))
                    env Hrange) as Hstep.
      destruct (_reconnect_qmt (set_last_health_check_time st (fe_now_health env)) env)
        as [st2 done2].
      cbn [fst snd _qmt_max_reconnect_attempts _running _qmt_reconnect_count
           set_last_health_check_time] in *.
      destruct Hstep as (H1 & H2 & H3 & H4 & H5).
      change (count_connects (AddLog "WARNING" :: done2))
        with (count_connects done2).
      repeat split; try lia; try congruence. intros _ Hno. auto.
  - cbn [fst snd]. count_now. rewrite Hrun. repeat split; try lia.
Qed.

Lemma count_connects_app (l k : list event) :
  count_connects (l ++ k) = (count_connects l + count_connects k)%nat.
Proof. apply count_events_app. Qed.

Lemma firings_steps st envs :
  0 <= _qmt_reconnect_count st <= _qmt_max_reconnect_attempts st →
  let st' := fst (firings st envs) in
  _qmt_max_reconnect_attempts st' = _qmt_max_reconnect_attempts st
  ∧ 0 <= _qmt_reconnect_count st' <= _qmt_max_reconnect_attempts st
  ∧ (count_connects (snd (firings st envs)) <= length envs)%nat
  ∧ (Forall (λ env, fe_healthy env = false ∧ ¬ reconnect_succeeds env) envs →
     _qmt_reconnect_count st + Z.of_nat (count_connects (snd (firings st envs)))
     <= _qmt_reconnect_count st').
Proof.
  revert st. induction envs as [|env envs IH]; intros st Hrange; simpl.
  - count_now. repeat split; try lia.
  - pose proof (callback_step st env Hrange) as Hstep.
    destruct (_qmt_health_check_callback st env) as [st1 done1].
    cbn [fst snd] in Hstep. destruct Hstep as (H1 & _ & H3 & H4 & H5).
    assert (Hrange1 : 0 <= _qmt_reconnect_count st1
                      <= _qmt_max_reconnect_attempts st1) by lia.
    specialize (IH st1 Hrange1).
    destruct (firings st1 envs) as [st2 done2].
    cbn [fst snd] in *. destruct IH as (I1 & I2 & I3 & I4).
    rewrite count_connects_app.
    repeat split; try lia.
    intros Hall. apply Forall_cons in Hall as [[Hdown Hno] Hrest].
    specialize (H5 Hdown Hno). specialize (I4 Hrest). lia.
Qed.

(** X13.  The cool-down between reconnections.  While the counter is below
    the limit, a firing that finds the session down less than 60 seconds
    after the last reconnection attempt only records the time of the check
    and logs a warning: no disconnect or connect, no notification, counter
    unchanged. *)
Theorem reconnect_cooldown :
  ∀ st env last,
    _running st = true → fe_healthy env = false →
    _qmt_reconnect_count st < _qmt_max_reconnect_attempts st →
    _qmt_last_reconnect_time st = Some last →
    fe_now_cooldown env - last < 60000000 →
    _qmt_health_check_callback st env
    = (set_last_health_check_time st (fe_now_health env), [AddLog "WARNING"]).
Proof.
  intros st env last Hrun Hdown Hlt Hlast Hsoon.
  unfold _qmt_health_check_callback. rewrite Hrun, Hdown. cbn [negb].
  rewrite (reconnect_too_soon _ env last); [reflexivity | exact Hlt | exact Hlast
                                            | exact Hsoon].
Qed.

(** X14.  The reconnection attempts are bounded.  Over any sequence of
    firings the failure counter stays between 0 and the limit, the limit
    itself never changes, and a firing makes at most one connect.  While
    no check finds the session healthy and no reconnection goes through,
    the number of connects made is at most the limit minus the counter at
    the start: at most 3 from a fresh start, however long the outage. *)
Theorem reconnect_attempts_bounded :
  ∀ st envs,
    0 <= _qmt_reconnect_count st <= _qmt_max_reconnect_attempts st →
    _qmt_max_reconnect_attempts (fst (firings st envs))
    = _qmt_max_reconnect_attempts st
    ∧ 0 <= _qmt_reconnect_count (fst (firings st envs))
      <= _qmt_max_reconnect_attempts st
    ∧ (count_connects (snd (firings st envs)) <= length envs)%nat
    ∧ (Forall (λ env, fe_healthy env = false ∧ ¬ reconnect_succeeds env) envs →
       Z.of_nat (count_connects (snd (firings st envs)))
       <= _qmt_max_reconnect_attempts st - _qmt_reconnect_count st).
Proof.
  intros st envs Hrange.
  destruct (firings_steps st envs Hrange) as (H1 & H2 & H3 & H4).
  repeat split; try assumption; try lia.
  intros Hall. specialize (H4 Hall). lia.
Qed.

(** X15.  Recovery gives the attempts back.  A firing that finds the
    session healthy sets the counter to 0 without touching the connection.
    A firing that finds it down, below the limit and past the cool-down,
    and whose reconnection goes through, disconnects, waits, connects,
    sets the counter to 0 and sends one success notification.  A firing
    while trading is not running does nothing. *)
Theorem recovery_resets_counter :
  (∀ st env,
      _running st = true → fe_healthy env = true →
      _qmt_reconnect_count (fst (_qmt_health_check_callback st env))
      = (if 0 <? _qmt_reconnect_count st then 0 else _qmt_reconnect_count st)
      ∧ count_events is_reconnect_step (snd (_qmt_health_check_callback st env))
        = 0%nat
      ∧ count_events is_terminal_notification
          (snd (_qmt_health_check_callback st env)) = 0%nat)
  ∧ (∀ st env,
       _running st = true → fe_healthy env = false →
       _qmt_reconnect_count st < _qmt_max_reconnect_attempts st →
       cooled_down st env → reconnect_succeeds env →
       _qmt_reconnect_count (fst (_qmt_health_check_callback st env)) = 0
       ∧ _qmt_last_reconnect_time (fst (_qmt_health_check_callback st env))
         = Some (fe_now_attempt env)
       ∧ snd (_qmt_health_check_callback st env)
         = [AddLog "WARNING"; AddLog "INFO"; Disconnect; Sleep 2; Connect;
            AddLog "SUCCESS"; SuccessNotification "QMT重连成功"])
  ∧ (∀ st env,
       _running st = false → _qmt_health_check_callback st env = (st, [])).
Proof.
  split; [|split].
  - intros st env Hrun Hok. unfold _qmt_health_check_callback.
    rewrite Hrun, Hok. cbn [negb _qmt_reconnect_count set_last_health_check_time].
    destruct (0 <? _qmt_reconnect_count st); cbn [fst snd]; count_now; auto.
  - intros st env Hrun Hdown Hlt Hcool Hok. unfold _qmt_health_check_callback.
    rewrite Hrun, Hdown. cbn [negb].
    destruct (reconnect_attempt (set_last_health_check_time st (fe_now_health env))
                env Hlt Hcool) as [[_ ->]|[Hno _]]; [|contradiction].
    cbn [fst snd]. auto.
  - intros st env Hrun. unfold _qmt_health_check_callback. rewrite Hrun.
    reflexivity.
Qed.

End ReconnectSteps.

Section StrategyStore.

(** X16.  The stored strategy.  Saving overwrites the single row of the
    table (or adds it to the empty table), and reading it back gives the
    saved configuration, except that a configuration whose id is 0 reads
    back as no strategy at all, and a stop-profit or stop-loss ratio of 0
    reads back as the default 0.1 or 0.05.  With a non-zero id and
    non-zero ratios the configuration comes back unchanged.  After
    [clear_strategy_config] there is no strategy. *)
Theorem strategy_config_round_trip :
  ∀ table strategy,
    get_strategy_config (save_strategy_config table strategy)
    = (if strategy_id strategy =? 0 then None else Some (reloaded strategy))
    ∧ length (save_strategy_config table strategy) = Nat.max 1 (length table)
    ∧ (strategy_id strategy ≠ 0 →
       ¬ (stop_profit_ratio strategy == 0)%Q →
       ¬ (stop_loss_ratio strategy == 0)%Q →
       get_strategy_config (save_strategy_config table strategy) = Some strategy)
    ∧ get_strategy_config (clear_strategy_config table) = None.
Proof.
  intros table strategy.
  assert (Hget : get_strategy_config (save_strategy_config table strategy)
                 = (if strategy_id strategy =? 0 then None
                    else Some (reloaded strategy))).
  { destruct table; reflexivity. }
  split; [exact Hget|]. split; [destruct table; reflexivity|].
  split; [|reflexivity].
  intros Hid Hp Hl. rewrite Hget.
  destruct (Z.eqb_spec (strategy_id strategy) 0); [contradiction|].
  unfold reloaded.
  destruct (Qeq_bool (stop_profit_ratio strategy) 0) eqn:Ep;
    [apply Qeq_bool_eq in Ep; contradiction|].
  destruct (Qeq_bool (stop_loss_ratio strategy) 0) eqn:El;
    [apply Qeq_bool_eq in El; contradiction|].
  destruct strategy; reflexivity.
Qed.

End StrategyStore.

Section QueueEmptiness.

Lemma filter_nil_length {A} (P : A → Prop) `{∀ x, Decision (P x)} (l : list A) :
  length (filter P l) = 0%nat ↔ filter P l = [].
Proof. split; [apply nil_length_inv | intros ->; reflexivity]. Qed.

(** X17.  [is_refill_queue_empty] agrees with [get_refill_queue]: it is
    true exactly when the queue of the day is the empty list.  It is true
    after [clear_refill_queue], and false after [add_refill_queue], on the
    same day. *)
Theorem refill_queue_emptiness :
  ∀ db now,
    (is_refill_queue_empty db now = true ↔ get_refill_queue db now = [])
    ∧ is_refill_queue_empty (clear_refill_queue db now) now = true
    ∧ (∀ c nm vol sell_price reason,
         is_refill_queue_empty
           (add_refill_queue db now c nm vol sell_price reason) now = false).
Proof.
  intros db now. split; [|split].
  - unfold is_refill_queue_empty. rewrite bool_decide_eq_true, filter_nil_length.
    split.
    + intros E. apply Permutation_nil_r. rewrite <- E.
      apply get_refill_queue_perm.
    + intros E. apply Permutation_nil_r. rewrite <- E.
      symmetry. apply get_refill_queue_perm.
  - unfold is_refill_queue_empty, clear_refill_queue; simpl.
    rewrite bool_decide_eq_true, filter_nil_length.
    induction (refill_queue db) as [|r q IH]; [reflexivity|].
    destruct (decide (rq_date r = date_of now)) as [E|E].
    + rewrite (filter_cons_False (λ r, rq_date r ≠ date_of now)) by tauto.
      exact IH.
    + rewrite (filter_cons_True (λ r, rq_date r ≠ date_of now)) by assumption.
      rewrite filter_cons_False by assumption. exact IH.
  - intros c nm vol sell_price reason.
    unfold is_refill_queue_empty, add_refill_queue; simpl.
    rewrite bool_decide_eq_false, filter_app, length_app.
    rewrite (filter_cons_True (λ r, rq_date r = date_of now)) by reflexivity.
    simpl. lia.
Qed.

End QueueEmptiness.

Section LogBuffer.
Import Api.

Lemma slice_to_take {A} (l : list A) (n : Z) :
  0 <= n → slice_to l n = take (Z.to_nat n) l.
Proof.
  intros Hn. unfold slice_to.
  destruct (Z.ltb_spec n 0); [lia|reflexivity].
Qed.

Lemma add_log_take entries now_str level message :
  (length entries <= 200)%nat →
  _add_log entries now_str level message
  = take 200 ({| log_time := now_str; log_level := level;
                 log_message := message |} :: entries).
Proof.
  intros Hlen. unfold _add_log.
  set (entry := {| log_time := now_str |}).
  destruct (Z.ltb_spec 200 (Z.of_nat (length (entry :: entries)))) as [Hgt|Hle].
  - rewrite slice_to_take by lia. reflexivity.
  - rewrite take_ge; [reflexivity|]. lia.
Qed.

Lemma take_app_take {A} (n : nat) (l k : list A) :
  take n (l ++ take n k) = take n (l ++ k).
Proof.
  rewrite !take_app, take_take. f_equal. f_equal. lia.
Qed.

Lemma add_logs_take entries added :
  (length entries <= 200)%nat →
  add_logs entries added = take 200 (reverse added ++ entries).
Proof.
  revert entries. induction added as [|e added IH]; intros entries Hlen.
  - simpl. rewrite take_ge; [reflexivity | assumption].
  - unfold add_logs in *. simpl.
    rewrite IH.
    + rewrite add_log_take by assumption.
      rewrite take_app_take, reverse_cons, <- app_assoc.
      destruct e; reflexivity.
    + rewrite add_log_take by assumption. rewrite length_take. lia.
Qed.

(** X18.  The log buffer.  After any number of [_add_log] calls on a
    buffer of at most 200 entries, the buffer holds the 200 newest
    entries, newest first, and never more than 200.  [get_logs(limit)]
    with a limit of 0 or more returns the [limit] newest entries; with a
    negative limit it returns the buffer without its [-limit] oldest
    entries. *)
Theorem log_buffer_keeps_newest :
  ∀ entries added limit,
    (length entries <= 200)%nat →
    let buffer := add_logs entries added in
    buffer = take 200 (reverse added ++ entries)
    ∧ (length buffer <= 200)%nat
    ∧ (0 <= limit →
       get_logs buffer limit
       = take (Z.to_nat (Z.min limit 200)) (reverse added ++ entries))
    ∧ (limit < 0 →
       get_logs buffer limit
       = take (length buffer - Z.to_nat (- limit)) buffer).
Proof.
  intros entries added limit Hlen buffer.
  assert (E : buffer = take 200 (reverse added ++ entries))
    by (apply add_logs_take; assumption).
  split; [exact E|]. split; [rewrite E, length_take; lia|]. split.
  - intros Hlimit. unfold get_logs. rewrite slice_to_take by assumption.
    rewrite E, take_take. f_equal. lia.
  - intros Hlimit. unfold get_logs, slice_to.
    destruct (Z.ltb_spec limit 0); [|lia]. f_equal. lia.
Qed.

End LogBuffer.

Section Calendar.
Import DatetimeHelper SchedulerService.

Lemma is_trading_day_hit cache env cached :
  _cached_trading_day_date cache = Some (date_of (cal_now env)) →
  _cached_is_trading_day cache = Some cached →
  is_trading_day true cache env = (cached, cache).
Proof.
  intros Hd Hb. unfold is_trading_day; simpl.
  rewrite bool_decide_eq_true_2 by assumption. rewrite Hb. reflexivity.
Qed.

Lemma is_trading_day_miss cache env :
  _cached_trading_day_date cache ≠ Some (date_of (cal_now env))
  ∨ _cached_is_trading_day cache = None →
  is_trading_day true cache env
  = match cal_trading_dates env with
    | Returns trading_dates =>
        let result := bool_decide (0 < length trading_dates)%nat in
        (result, {| _cached_trading_day_date := Some (date_of (cal_now env));
                    _cached_is_trading_day := Some result |})
    | Raises _ => (weekday (cal_now_weekday env) <? 5, cache)
    end.
Proof.
  intros Hmiss. unfold is_trading_day; simpl.
  destruct (bool_decide _) eqn:Hd; [|reflexivity].
  apply bool_decide_eq_true in Hd.
  destruct (_cached_is_trading_day cache) eqn:Hb; [|reflexivity].
  destruct Hmiss; [contradiction|discriminate].
Qed.

Lemma cache_hit_or_miss cache (d : Z) :
  (∃ cached, _cached_trading_day_date cache = Some d
             ∧ _cached_is_trading_day cache = Some cached)
  ∨ (_cached_trading_day_date cache ≠ Some d
     ∨ _cached_is_trading_day cache = None).
Proof.
  destruct (decide (_cached_trading_day_date cache = Some d)) as [E|E]; [|auto].
  destruct (_cached_is_trading_day cache) as [cached|]; eauto.
Qed.

(** X19.  The trading-day cache.  Once the calendar of the terminal was
    read on some day, every later call on that day gives the same answer
    and leaves the cache as it is, whatever the terminal would answer
    then.  A call whose read of the calendar raises leaves the cache
    unchanged, and unless the cache already holds the day it answers by
    the weekday alone (Monday to Friday).  A cached answer of another day
    is not used.  Without a terminal service the answer is the weekday's
    and the cache is not touched. *)
Theorem trading_day_cache :
  (∀ cache env env' trading_dates,
      cal_trading_dates env = Returns trading_dates →
      date_of (cal_now env') = date_of (cal_now env) →
      is_trading_day true (snd (is_trading_day true cache env)) env'
      = is_trading_day true cache env)
  ∧ (∀ cache env msg,
       cal_trading_dates env = Raises msg →
       snd (is_trading_day true cache env) = cache
       ∧ (_cached_trading_day_date cache ≠ Some (date_of (cal_now env))
          ∨ _cached_is_trading_day cache = None →
          fst (is_trading_day true cache env)
          = (weekday (cal_now_weekday env) <? 5)))
  ∧ (∀ cache env trading_dates,
       cal_trading_dates env = Returns trading_dates →
       _cached_trading_day_date cache ≠ Some (date_of (cal_now env)) →
       is_trading_day true cache env
       = (bool_decide (0 < length trading_dates)%nat,
          {| _cached_trading_day_date := Some (date_of (cal_now env));
             _cached_is_trading_day :=
               Some (bool_decide (0 < length trading_dates)%nat) |}))
  ∧ (∀ cache env,
       is_trading_day false cache env
       = (weekday (cal_now_weekday env) <? 5, cache)).
Proof.
  split; [|split; [|split]].
  - intros cache env env' trading_dates Hdates Hday.
    destruct (cache_hit_or_miss cache (date_of (cal_now env)))
      as [(cached & Hd & Hb)|Hmiss].
    + rewrite (is_trading_day_hit cache env cached Hd Hb). cbn [snd].
      apply is_trading_day_hit; [rewrite Hday|]; assumption.
    + rewrite (is_trading_day_miss cache env Hmiss), Hdates. cbn [snd].
      apply is_trading_day_hit; [rewrite Hday|]; reflexivity.
  - intros cache env msg Hdates.
    destruct (cache_hit_or_miss cache (date_of (cal_now env)))
      as [(cached & Hd & Hb)|Hmiss].
    + rewrite (is_trading_day_hit cache env cached Hd Hb). cbn [fst snd].
      split; [reflexivity|]. intros [H|H]; [contradiction|congruence].
    + rewrite (is_trading_day_miss cache env Hmiss), Hdates. auto.
  - intros cache env trading_dates Hdates Hstale.
    rewrite (is_trading_day_miss cache env) by auto. rewrite Hdates. reflexivity.
  - reflexivity.
Qed.

(** X20.  [_is_trading_time] never answers true.  On a day that is not a
    trading day it returns false; on a trading day it raises
    [UnboundLocalError] at [now = now().time()], before the clock is
    compared with the trading hours.  It leaves the cache as
    [is_trading_day] left it. *)
Theorem trading_time_never_holds :
  ∀ (W : Type) (self : Scheduler W) cache env,
    fst (_is_trading_time self cache env) ≠ Returns true
    ∧ (fst (is_trading_day (_qmt self) cache env) = false →
       fst (_is_trading_time self cache env) = Returns false)
    ∧ (fst (is_trading_day (_qmt self) cache env) = true →
       fst (_is_trading_time self cache env) = Raises "UnboundLocalError")
    ∧ snd (_is_trading_time self cache env)
      = snd (is_trading_day (_qmt self) cache env).
Proof.
  intros W self cache env. unfold _is_trading_time, _is_trading_day.
  destruct (is_trading_day (_qmt self) cache env) as [[] cache'];
    cbn [negb fst snd]; repeat split; congruence.
Qed.

(** X21.  The scheduled jobs and their callbacks.  The rebalance job and
    the refill job call their callback on a trading day, at any time of
    the day, and do nothing on another day; the token-refresh job calls
    its callback on every firing; an exception of these callbacks ends
    there.  The stop-profit/stop-loss job never calls its callback: it
    returns on a day that is not a trading day and ends with
    [UnboundLocalError] on a trading day.  The health-check job never
    calls its callback either: every firing ends with [UnboundLocalError]
    at its first statement.  Neither changes anything. *)
Theorem scheduled_jobs_and_their_callbacks :
  ∀ (W : Type) (self : Scheduler W) cache env (w : W),
    let trading_day := fst (is_trading_day (_qmt self) cache env) in
    snd (_execute_bond_selection self cache env w)
    = (if trading_day then after_call (_bond_selection_callback self) w else w)
    ∧ snd (_execute_refill self cache env w)
      = (if trading_day then after_call (_refill_callback self) w else w)
    ∧ _execute_token_refresh self w
      = after_call (_token_refresh_callback self) w
    ∧ _execute_stop_profit_loss self cache env w
      = (snd (is_trading_day (_qmt self) cache env), w,
         if trading_day then Raises "UnboundLocalError" else Returns ())
    ∧ _execute_qmt_health_check self w = (self, w, Raises "UnboundLocalError").
Proof.
  intros W self cache env w trading_day. unfold trading_day.
  split; [|split; [|split; [|split]]].
  - unfold _execute_bond_selection, _is_trading_day.
    destruct (is_trading_day (_qmt self) cache env) as [[] cache'];
      cbn [negb fst snd]; [|reflexivity].
    destruct (_bond_selection_callback self); reflexivity.
  - unfold _execute_refill, _is_trading_day.
    destruct (is_trading_day (_qmt self) cache env) as [[] cache'];
      cbn [negb fst snd]; [|reflexivity].
    destruct (_refill_callback self); reflexivity.
  - unfold _execute_token_refresh.
    destruct (_token_refresh_callback self); reflexivity.
  - unfold _execute_stop_profit_loss, _is_trading_time, _is_trading_day.
    destruct (is_trading_day (_qmt self) cache env) as [[] cache'];
      reflexivity.
  - reflexivity.
Qed.

End Calendar.

Section PositionsView.

Lemma dict_keys_fold (records : list PositionRecord) (keys : list string) :
  NoDup keys →
  let result := foldl (λ keys r, if decide (stock_code r ∈ keys) then keys
                                 else keys ++ [stock_code r]) keys records in
  NoDup result
  ∧ ∀ c, c ∈ result ↔ c ∈ keys ∨ c ∈ stock_code <$> records.
Proof.
  revert keys. induction records as [|r records IH]; intros keys Hnd; simpl.
  - split; [assumption|]. intros c. rewrite elem_of_nil. tauto.
  - destruct (decide (stock_code r ∈ keys)) as [Hin|Hout].
    + destruct (IH keys Hnd) as [H1 H2]. split; [assumption|].
      intros c. rewrite H2, elem_of_cons.
      split; [tauto|]. intros [?|[->|?]]; auto.
    + assert (Hnd' : NoDup (keys ++ [stock_code r])).
      { apply NoDup_app. split; [assumption|]. split.
        - intros x Hx Hx'. apply list_elem_of_singleton in Hx'. subst. contradiction.
        - apply NoDup_singleton. }
      destruct (IH _ Hnd') as [H1 H2]. split; [assumption|].
      intros c. rewrite H2, elem_of_app, list_elem_of_singleton, elem_of_cons. tauto.
Qed.

Lemma dict_keys_spec (records : list PositionRecord) :
  NoDup (dict_keys records)
  ∧ ∀ c, c ∈ dict_keys records ↔ c ∈ stock_code <$> records.
Proof.
  destruct (dict_keys_fold records [] (NoDup_nil_2)) as [H1 H2].
  split; [exact H1|]. intros c. unfold dict_keys. rewrite H2, elem_of_nil. tauto.
Qed.

Lemma position_view_code self pos quote :
  pv_stock_code (position_view self pos quote) = pos_stock_code pos
  ∧ pv_volume (position_view self pos quote) = pos_volume pos.
Proof.
  unfold position_view.
  destruct (match strategy_config self with Some _ => _ | None => _ end).
  auto.
Qed.

Lemma view_codes_rows self get_quote positions codes rows :
  view_codes self get_quote (positions_by_code positions) codes = Returns rows →
  pv_stock_code <$> rows `sublist_of` codes
  ∧ Forall (λ v, ∃ pos quote,
                pos ∈ positions
                ∧ pos_stock_code pos = pv_stock_code v
                ∧ 0 < pos_volume pos
                ∧ is_bond_code (pv_stock_code v) = true
                ∧ get_quote (pv_stock_code v) = Returns quote
                ∧ v = position_view self pos quote) rows.
Proof.
  revert rows. induction codes as [|c codes IH]; intros rows; simpl.
  - intros [= <-]. split; constructor.
  - destruct (positions_by_code positions !! c) as [pos|] eqn:Hpos.
    + apply positions_by_code_lookup in Hpos as [Hin Hc].
      destruct (Z.leb_spec (pos_volume pos) 0) as [Hv|Hv].
      { intros H. destruct (IH rows H). split; [apply sublist_cons|]; assumption. }
      destruct (is_bond_code c) eqn:Hbond; cbn [negb].
      2:{ intros H. destruct (IH rows H). split; [apply sublist_cons|]; assumption. }
      destruct (get_quote (pos_stock_code pos)) as [quote|] eqn:Hq; simpl;
        [|discriminate].
      destruct (view_codes self get_quote (positions_by_code positions) codes)
        as [result|]; simpl; [|discriminate].
      intros [= <-]. destruct (IH result eq_refl) as [Hsub Hall].
      split.
      * rewrite fmap_cons, (proj1 (position_view_code self pos quote)), Hc.
        apply sublist_skip. assumption.
      * constructor; [|assumption].
        exists pos, quote.
        rewrite (proj1 (position_view_code self pos quote)), Hc.
        rewrite Hc in Hq. auto 10.
    + intros H. destruct (IH rows H). split; [apply sublist_cons|]; assumption.
Qed.

(** X23.  The rows of the positions view.  [get_positions_with_quote]
    returns at most one row per code, and every row is a code of the
    ledger that the account holds with a volume above 0 and that starts
    with 11 or 12, built from the account's position and the quote of
    that code.  Without a session, or when the connection check fails, it
    returns the empty list without asking the terminal. *)
Theorem positions_view_rows :
  (∀ self env rows,
      get_positions_with_quote self env = Returns rows →
      NoDup (pv_stock_code <$> rows)
      ∧ ∀ v, v ∈ rows →
          (∃ db record, database self = Some db
                        ∧ record ∈ get_position_records db
                        ∧ stock_code record = pv_stock_code v)
          ∧ (∃ positions pos quote,
                vw_positions env = Returns positions
                ∧ pos ∈ positions
                ∧ pos_stock_code pos = pv_stock_code v
                ∧ vw_quote env (pv_stock_code v) = Returns quote
                ∧ v = position_view self pos quote)
          ∧ 0 < pv_volume v
          ∧ is_bond_code (pv_stock_code v) = true)
  ∧ (∀ self env,
       vw_is_connected env = false ∨ vw_ensure_connected env = false →
       get_positions_with_quote self env = Returns []).
Proof.
  split.
  - intros self env rows. unfold get_positions_with_quote.
    destruct (vw_is_connected env); cbn [negb].
    2:{ intros [= <-]. split; [constructor|]. intros v Hv. inversion Hv. }
    destruct (vw_ensure_connected env); cbn [negb].
    2:{ intros [= <-]. split; [constructor|]. intros v Hv. inversion Hv. }
    destruct (database self) as [db|] eqn:Hdb.
    2:{ intros [= <-]. split; [constructor|]. intros v Hv. inversion Hv. }
    destruct (get_position_records db) as [|r records] eqn:Hrec.
    { intros [= <-]. split; [constructor|]. intros v Hv. inversion Hv. }
    destruct (vw_positions env) as [positions|] eqn:Hpos; simpl; [|discriminate].
    intros Hview. apply view_codes_rows in Hview as [Hsub Hall].
    destruct (dict_keys_spec (r :: records)) as [Hnd Hkeys].
    split; [eapply sublist_NoDup; eassumption|].
    intros v Hv. rewrite Forall_forall in Hall.
    destruct (Hall v Hv) as (pos & quote & Hin & Hc & Hvol & Hbond & Hq & ->).
    split; [|split; [|split]].
    + assert (Hk : pv_stock_code (position_view self pos quote)
                   ∈ dict_keys (r :: records)).
      { eapply elem_of_sublist; [|exact Hsub].
        apply list_elem_of_fmap. eauto. }
      apply Hkeys, list_elem_of_fmap in Hk as (record & E & Hr).
      exists db, record. rewrite Hrec. auto.
    + exists positions, pos, quote. auto.
    + rewrite (proj2 (position_view_code self pos quote)). assumption.
    + assumption.
  - intros self env [H|H]; unfold get_positions_with_quote.
    + rewrite H. reflexivity.
    + destruct (vw_is_connected env); [|reflexivity]. rewrite H. reflexivity.
Qed.

End PositionsView.

Section Terminal.
Import QMTTerminal.

Lemma is_connected_disconnect self : is_connected (disconnect self) = false.
Proof.
  unfold disconnect, is_connected.
  destruct (trader self) eqn:Ht; simpl; [reflexivity|].
  rewrite Ht. apply andb_false_r.
Qed.

Lemma health_check_needs_session self query_stock_asset :
  is_connected self = false → health_check self query_stock_asset = false.
Proof. intros H. unfold health_check. rewrite H. reflexivity. Qed.

(** X24.  The life of a session.  [connect] returns true only when the
    terminal answered 0 to both the connection and the subscription, and
    the session is then connected; whenever it raises, the session is left
    not connected.  After [disconnect] the session is not connected.  A
    session that is not connected fails every health check without asking
    the terminal, so [ensure_connected] on it makes all its [max_retries]
    probes, sleeps between them and returns false: it never reconnects. *)
Theorem session_lifecycle :
  (∀ self env,
      match snd (connect self env) with
      | Returns ok =>
          ok = true
          ∧ cn_connect_result env = Returns 0
          ∧ cn_subscribe_result env = Returns 0
          ∧ is_connected (fst (connect self env)) = true
      | Raises _ => is_connected (fst (connect self env)) = false
      end)
  ∧ (∀ self, is_connected (disconnect self) = false)
  ∧ (∀ self query_stock_asset,
       health_check self query_stock_asset = true → is_connected self = true)
  ∧ (∀ self (query_stock_asset : nat → pyresult (option Asset))
       max_retries retry_interval,
       is_connected self = false → 0 < max_retries →
       ensure_connected (λ k, health_check self (query_stock_asset k))
         max_retries retry_interval
       = (false,
          probes_with_sleeps retry_interval (Z.to_nat max_retries - 1))).
Proof.
  split; [|split; [|split]].
  - intros self env. unfold connect.
    destruct (cn_trader env); simpl; [|reflexivity].
    destruct (cn_account env); simpl; [|reflexivity].
    destruct (cn_start env); simpl; [|reflexivity].
    destruct (cn_connect_result env) as [connect_result|]; simpl; [|reflexivity].
    destruct (Z.eqb_spec connect_result 0) as [->|]; simpl; [|reflexivity].
    destruct (cn_subscribe_result env) as [subscribe_result|]; simpl;
      [|reflexivity].
    destruct (Z.eqb_spec subscribe_result 0) as [->|]; simpl; [|reflexivity].
    auto.
  - apply is_connected_disconnect.
  - intros self query_stock_asset. unfold health_check.
    destruct (is_connected self); [reflexivity|discriminate].
  - intros self query_stock_asset max_retries retry_interval Hdown Hpos.
    unfold ensure_connected.
    destruct (Z.to_nat max_retries) as [|todo] eqn:E; [lia|].
    replace (S todo - 1)%nat with todo by lia.
    apply loop_all_fail; [lia|].
    intros j _. apply health_check_needs_session. assumption.
Qed.

Lemma place_sent self get_quote order_stock o :
  place self get_quote order_stock o
  = if negb (is_connected self) then (Raises "QMT 未连接", None)
    else
      match o_price_type o with
      | limit =>
          let sent := {| w_side := o_side o; w_stock_code := o_stock_code o;
                         w_volume := o_volume o; w_price := o_price o |} in
          (order_stock sent, Some sent)
      | market =>
          match get_quote with
          | Raises msg => (Raises msg, None)
          | Returns quote =>
              if Py.le (get_or_zero (lastPrice quote)) 0
              then (Raises "无法获取当前价格", None)
              else
                let sent :=
                  {| w_side := o_side o; w_stock_code := o_stock_code o;
                     w_volume := o_volume o;
                     w_price := fmul (get_or_zero (lastPrice quote))
                                  (market_factor (o_side o)) |} in
                (order_stock sent, Some sent)
          end
      end.
Proof.
  unfold place, buy_stock, sell_stock.
  destruct (o_side o); destruct (is_connected self); cbn [negb]; try reflexivity;
    destruct (o_price_type o); try reflexivity;
    destruct get_quote as [quote|]; simpl; try reflexivity;
    destruct (Py.le (get_or_zero (lastPrice quote)) 0); reflexivity.
Qed.

(** X25.  What reaches the terminal.  Without a session nothing is sent
    and the call raises.  A ["limit"] order is sent at the price the engine
    gave.  A ["market"] order is sent as a fixed-price order at the last
    price of a fresh quote times 1.01 for a buy and 0.99 for a sell,
    whatever price the engine gave, and is not sent at all when that quote
    raises or has no price above 0.  The volume and the code are the
    engine's.  The product with 1.01 or 0.99 is one binary64
    multiplication of the last price by the literal. *)
Theorem market_orders_priced_off_the_quote :
  (∀ self get_quote order_stock o,
      is_connected self = false →
      place self get_quote order_stock o = (Raises "QMT 未连接", None))
  ∧ (∀ self get_quote order_stock o,
       is_connected self = true → o_price_type o = limit →
       place self get_quote order_stock o
       = (order_stock {| w_side := o_side o; w_stock_code := o_stock_code o;
                         w_volume := o_volume o; w_price := o_price o |},
          Some {| w_side := o_side o; w_stock_code := o_stock_code o;
                  w_volume := o_volume o; w_price := o_price o |}))
  ∧ (∀ self get_quote order_stock o,
       is_connected self = true → o_price_type o = market →
       match snd (place self get_quote order_stock o) with
       | Some sent =>
           ∃ quote, get_quote = Returns quote
             ∧ (0 < get_or_zero (lastPrice quote))%Q
             ∧ w_side sent = o_side o ∧ w_stock_code sent = o_stock_code o
             ∧ w_volume sent = o_volume o
             ∧ w_price sent = fmul (get_or_zero (lastPrice quote))
                                (market_factor (o_side o))
             ∧ fst (place self get_quote order_stock o) = order_stock sent
       | None =>
           (∃ msg, fst (place self get_quote order_stock o) = Raises msg)
           ∧ ∀ quote, get_quote = Returns quote →
                      (get_or_zero (lastPrice quote) <= 0)%Q
       end).
Proof.
  split; [|split].
  - intros self get_quote order_stock o Hdown.
    rewrite place_sent, Hdown. reflexivity.
  - intros self get_quote order_stock o Hup Hlimit.
    rewrite place_sent, Hup, Hlimit. reflexivity.
  - intros self get_quote order_stock o Hup Hmarket.
    rewrite place_sent, Hup, Hmarket. cbn [negb].
    destruct get_quote as [quote|msg]; cbn [fst snd].
    + destruct (Py.le (get_or_zero (lastPrice quote)) 0) eqn:Hp; cbn [fst snd].
      * split; [eauto|]. intros quote' [= <-]. apply le_true. assumption.
      * apply le_false in Hp. exists quote. cbn. auto 10.
    + split; [eauto|]. intros quote [=].
Qed.

End Terminal.

Section TerminalQueries.
Import QMTTerminal.

Lemma named_positions_rows names positions rows :
  named_positions names positions = Returns rows →
  Forall2 (λ row pos,
             names (pos_stock_code pos) = Returns (pos_stock_name row)
             ∧ row = named pos (pos_stock_name row))
    rows (filter (λ pos, 0 < pos_volume pos) positions).
Proof.
  revert rows. induction positions as [|pos rest IH]; intros rows; simpl.
  - intros [= <-]. constructor.
  - destruct (Z.ltb_spec 0 (pos_volume pos)) as [Hv|Hv].
    + rewrite filter_cons_True by assumption.
      destruct (names (pos_stock_code pos)) as [stock_name|] eqn:Hn; simpl;
        [|discriminate].
      destruct (named_positions names rest) as [result|]; simpl; [|discriminate].
      intros [= <-]. constructor; [|apply IH; reflexivity].
      simpl. auto.
    + rewrite filter_cons_False by lia. apply IH.
Qed.

Lemma named_rows_held (names : string → pyresult string) rows held :
  Forall2 (λ row pos,
             names (pos_stock_code pos) = Returns (pos_stock_name row)
             ∧ row = named pos (pos_stock_name row)) rows held →
  Forall (λ pos, 0 < pos_volume pos) held →
  Forall (λ row, 0 < pos_volume row) rows.
Proof.
  induction 1 as [|row pos rows held [_ ->] _ IH]; intros Hheld; [constructor|].
  apply Forall_cons in Hheld as [Hpos Hrest].
  constructor; [exact Hpos | apply IH; assumption].
Qed.

Lemma named_positions_raises names positions pos msg :
  pos ∈ positions → 0 < pos_volume pos →
  names (pos_stock_code pos) = Raises msg →
  ∃ msg', named_positions names positions = Raises msg'.
Proof.
  intros Hin Hv Hn. induction positions as [|p rest IH]; [inversion Hin|].
  simpl. apply elem_of_cons in Hin as [<-|Hin].
  - destruct (Z.ltb_spec 0 (pos_volume pos)); [|lia]. rewrite Hn. simpl. eauto.
  - destruct (IH Hin) as [msg' E].
    destruct (0 <? pos_volume p); [|eauto].
    destruct (names (pos_stock_code p)); simpl; [|eauto].
    rewrite E. simpl. eauto.
Qed.

(** X26.  The queries of the terminal.  Without a session [get_asset] and
    [get_positions] raise.  With one, [get_positions] hands on exactly the
    rows of the terminal whose volume is above 0, in the terminal's order,
    each with the name found for its code and its other fields unchanged;
    no row when the terminal answers [None].  If the name lookup raises
    for one held row, the whole call raises and no position is handed
    on. *)
Theorem get_positions_held_rows :
  (∀ self query_stock_asset query_stock_positions get_stock_name,
      is_connected self = false →
      get_asset self query_stock_asset = Raises "QMT 未连接"
      ∧ get_positions self query_stock_positions get_stock_name
        = Raises "QMT 未连接")
  ∧ (∀ self query_stock_positions get_stock_name rows,
       get_positions self query_stock_positions get_stock_name = Returns rows →
       is_connected self = true
       ∧ Forall (λ row, 0 < pos_volume row) rows
       ∧ ∃ positions,
           query_stock_positions = Returns positions
           ∧ Forall2 (λ row pos,
                        get_stock_name (pos_stock_code pos)
                        = Returns (pos_stock_name row)
                        ∧ row = named pos (pos_stock_name row))
               rows (filter (λ pos, 0 < pos_volume pos) (default [] positions)))
  ∧ (∀ self positions get_stock_name pos msg,
       is_connected self = true →
       pos ∈ positions → 0 < pos_volume pos →
       get_stock_name (pos_stock_code pos) = Raises msg →
       ∃ msg', get_positions self (Returns (Some positions)) get_stock_name
               = Raises msg').
Proof.
  split; [|split].
  - intros self query_stock_asset query_stock_positions get_stock_name Hdown.
    unfold get_asset, get_positions. rewrite Hdown. auto.
  - intros self query_stock_positions get_stock_name rows.
    unfold get_positions.
    destruct (is_connected self); cbn [negb]; [|discriminate].
    destruct query_stock_positions as [[positions|]|]; simpl; [| |discriminate].
    + intros Hrows. apply named_positions_rows in Hrows as Hall.
      split; [reflexivity|]. split; [|eauto].
      assert (Hheld : Forall (λ pos, 0 < pos_volume pos)
                        (filter (λ pos, 0 < pos_volume pos) positions)).
      { apply Forall_forall. intros pos Hpos.
        apply list_elem_of_filter in Hpos as [? _]. assumption. }
      eapply named_rows_held; eassumption.
    + intros [= <-]. split; [reflexivity|]. split; [constructor|].
      exists None. split; [reflexivity|]. constructor.
  - intros self positions get_stock_name pos msg Hup Hin Hv Hn.
    unfold get_positions. rewrite Hup. simpl.
    eapply named_positions_raises; eassumption.
Qed.

End TerminalQueries.

(** ** Instances of the further properties *)

Section FurtherInstances.

(** The first buy of a code opens its row. *)
Lemma add_then_get_position_record_witness :
  get_position_record
    (add_position_record Database.empty "113001" "bond A" 90 (f64 (1053 # 10)) 0
       "调仓买入") "113001"
  = Some {| id := 1; stock_code := "113001"; stock_name := "bond A";
            volume := 90; buy_price := f64 (1053 # 10); buy_time := 0;
            strategy_name := "调仓买入" |}.
Proof.
  apply (proj1 (add_then_get_position_record Database.empty "113001" "bond A" 90
                  (f64 (1053 # 10)) 0 "调仓买入")).
  reflexivity.
Defined.

(** Deleting A leaves X. *)
Lemma delete_position_record_lookup_witness :
  get_position_record (delete_position_record two_rows "A") "X"
  = get_position_record two_rows "X".
Proof.
  apply (proj1 (proj2 (delete_position_record_lookup two_rows "A")) "X").
  discriminate.
Defined.

(** Selling 4 of A leaves X and the queue. *)
Lemma update_position_record_other_codes_witness :
  get_position_record (update_position_record two_rows "A" 4) "X"
  = get_position_record two_rows "X"
  ∧ refill_queue (update_position_record two_rows "A" 4) = refill_queue two_rows.
Proof.
  apply (update_position_record_other_codes two_rows "A" 4 "X").
  discriminate.
Defined.

(** A sell queued at 10:00 is in the queue read at 14:00 the same day. *)
Lemma add_then_get_refill_queue_witness :
  length (get_refill_queue
            (add_refill_queue Database.empty (at_time 0 10 0 0 0) "113001" ""
               90 110 "止盈") (at_time 0 14 0 0 0)) = 1%nat.
Proof.
  destruct (add_then_get_refill_queue Database.empty (at_time 0 10 0 0 0)
              "113001" "" 90 110 "止盈" (at_time 0 14 0 0 0)) as (Hsame & _).
  exact (proj2 (Hsame eq_refl)).
Defined.

(** Clearing day 1 leaves the queue of day 0. *)
Lemma clear_refill_queue_of_the_day_witness :
  get_refill_queue (clear_refill_queue two_rows (at_time 1 14 0 0 0))
    (at_time 0 14 0 0 0)
  = get_refill_queue two_rows (at_time 0 14 0 0 0).
Proof.
  destruct (clear_refill_queue_of_the_day two_rows (at_time 1 14 0 0 0))
    as (_ & _ & Hother & _).
  apply Hother. vm_compute. discriminate.
Defined.

(** A protective sell of a row of 10 with 4 available sells 4. *)
Lemma sells_within_ledger_and_available_witness :
  let pos := {| pos_stock_code := "A"; pos_stock_name := ""; pos_volume := 10;
                can_use_volume := 4; avg_price := 100 |} in
  let o := {| o_side := Sell; o_stock_code := "A"; o_volume := 4;
              o_price := 110; o_price_type := limit |} in
  o_stock_code o = pos_stock_code pos
  ∧ o_volume o = Z.min (volume (ledger_row 1 "A" 10)) (can_use_volume pos)
  ∧ 0 < o_volume o <= volume (ledger_row 1 "A" 10)
  ∧ o_volume o <= can_use_volume pos.
Proof.
  intros pos o.
  apply (proj1 (proj2 sells_within_ledger_and_available)
           (service_over None [ledger_row 1 "A" 10]) (Returns 1) pos
           (ledger_row 1 "A" 10) 110%Q stop_profit o).
  reflexivity.
Defined.

(** A buy the terminal answers with -1 leaves the service as it was. *)
Lemma rejected_order_changes_nothing_witness :
  fst (_buy_bond (service_over None [])
         (quoted (f64 (1053 # 10)) (Returns (-1)) (Returns "bond A") 0) "113001" 10000)
  = service_over None [].
Proof.
  apply (proj1 rejected_order_changes_nothing (service_over None [])
           (quoted (f64 (1053 # 10)) (Returns (-1)) (Returns "bond A") 0)
           "113001" 10000%Q).
  intros n [= <-]. lia.
Defined.

(** An accepted buy whose name lookup raises is not recorded. *)
Lemma accepted_buy_is_recorded_witness :
  fst (_buy_bond (service_over None [])
         (quoted (f64 (1053 # 10)) (Returns 1) (Raises "no name") 0) "113001" 10000)
  = service_over None [].
Proof.
  apply (proj2 accepted_buy_is_recorded (service_over None [])
           (quoted (f64 (1053 # 10)) (Returns 1) (Raises "no name") 0)
           "113001" 10000%Q "no name").
  reflexivity.
Defined.

(** The replenishment that buys B and C clears the queue of the day. *)
Lemma scheduled_refill_clears_after_buys_witness :
  queue_of (fst (fst (execute_scheduled_refill refill_service refill_env))) = [].
Proof.
  apply (proj1 (scheduled_refill_clears_after_buys refill_service refill_env)).
  vm_compute. discriminate.
Defined.

(** Without a session the risk check does nothing. *)
Lemma risk_monitor_orders_witness :
  let env := {| mn_is_connected := false; mn_positions := Raises "QMT 未连接";
                mn_check := λ _, {| ck_ensure_connected := false;
                                    ck_quote := Raises "QMT 未连接";
                                    ck_is_suspended := false;
                                    ck_order_id := Raises "QMT 未连接" |};
                mn_now := 0; mn_clock := λ _, 0 |} in
  execute_stop_profit_loss_check refill_service env = (refill_service, []).
Proof.
  intros env. apply (proj1 risk_monitor_orders refill_service env).
  right. left. reflexivity.
Defined.

(** A second failure 30 seconds after a failed reconnection: cool-down. *)
Lemma reconnect_cooldown_witness :
  let st := fst (Api.firings (Api.start_trading Api.init) (failing_firings 0 1)) in
  Api._qmt_health_check_callback st (failing_firing 30)
  = (Api.set_last_health_check_time st 30000000, [Api.AddLog "WARNING"]).
Proof.
  intros st.
  apply (reconnect_cooldown st (failing_firing 30) 0); reflexivity.
Defined.

(** An outage of nine firings, 30 seconds apart: three connects. *)
Lemma reconnect_attempts_bounded_witness :
  Z.of_nat (count_connects
              (snd (Api.firings (Api.start_trading Api.init)
                      (failing_firings 0 9)))) <= 3.
Proof.
  refine (proj2 (proj2 (proj2 (reconnect_attempts_bounded
                                 (Api.start_trading Api.init)
                                 (failing_firings 0 9) _))) _).
  - vm_compute. split; discriminate.
  - apply Forall_forall. intros env Henv.
    apply list_elem_of_fmap in Henv as (k & -> & _).
    split; [reflexivity|].
    intros (config & ok & _ & _ & _ & Hconnect & _). discriminate Hconnect.
Defined.

(** A reconnection that goes through gives the attempts back. *)
Lemma recovery_resets_counter_witness :
  Api._qmt_reconnect_count
    (fst (Api._qmt_health_check_callback (Api.start_trading Api.init)
            (recovering_firing 0))) = 0.
Proof.
  refine (proj1 (proj1 (proj2 recovery_resets_counter)
                   (Api.start_trading Api.init) (recovering_firing 0)
                   eq_refl eq_refl eq_refl I _)).
  exists (fixed_config (Some 10000%Q)), true.
  repeat split; discriminate.
Defined.

(** The strategy of the examples comes back as it was saved. *)
Lemma strategy_config_round_trip_witness :
  get_strategy_config (save_strategy_config [] some_strategy) = Some some_strategy.
Proof.
  destruct (strategy_config_round_trip [] some_strategy) as (_ & _ & Hsame & _).
  apply Hsame; vm_compute; discriminate.
Defined.

(** Two entries logged, one asked for: the newer one. *)
Lemma log_buffer_keeps_newest_witness :
  Api.get_logs (add_logs [] [log_entry "first"; log_entry "second"]) 1
  = [log_entry "second"].
Proof.
  destruct (log_buffer_keeps_newest [] [log_entry "first"; log_entry "second"] 1)
    as (_ & _ & Hget & _).
  - simpl. lia.
  - apply Hget. lia.
Defined.

(** On Wednesday 2026-11-04, a trading day by the terminal's calendar, the
    question ends with the exception. *)
Lemma trading_time_never_holds_witness :
  fst (SchedulerService._is_trading_time idle_scheduler DatetimeHelper.no_cache
         (calendar 9 (Returns [20761])))
  = Raises "UnboundLocalError".
Proof.
  apply (proj1 (proj2 (proj2 (trading_time_never_holds unit idle_scheduler
                                DatetimeHelper.no_cache
                                (calendar 9 (Returns [20761])))))).
  reflexivity.
Defined.

(** The calendar read at 9:00 answers for the day, also when the terminal
    fails at 10:00. *)
Lemma trading_day_cache_witness :
  DatetimeHelper.is_trading_day true
    (snd (DatetimeHelper.is_trading_day true DatetimeHelper.no_cache
            (calendar 9 (Returns [20761]))))
    (calendar 10 (Raises "QMT 未连接"))
  = DatetimeHelper.is_trading_day true DatetimeHelper.no_cache
      (calendar 9 (Returns [20761])).
Proof.
  apply (proj1 trading_day_cache DatetimeHelper.no_cache
           (calendar 9 (Returns [20761])) (calendar 10 (Raises "QMT 未连接"))
           [20761]); reflexivity.
Defined.

(** The view of a ledger with one held bond. *)
Lemma positions_view_rows_witness :
  let env := {| vw_is_connected := true; vw_ensure_connected := true;
                vw_positions := Returns [holding "113001" 90; holding "600000" 100];
                vw_quote := λ _, Returns risen_quote |} in
  match get_positions_with_quote
          (service_over None [ledger_row 1 "113001" 90; ledger_row 2 "600000" 100])
          env with
  | Returns rows => NoDup (pv_stock_code <$> rows) ∧ length rows = 1%nat
  | Raises _ => False
  end.
Proof.
  intros env.
  destruct (get_positions_with_quote
              (service_over None [ledger_row 1 "113001" 90;
                                  ledger_row 2 "600000" 100]) env)
    as [rows|msg] eqn:E.
  - split.
    + exact (proj1 (proj1 positions_view_rows _ _ rows E)).
    + vm_compute in E. injection E as <-. reflexivity.
  - vm_compute in E. discriminate E.
Defined.

(** After [disconnect], two probes with a sleep between them, and false. *)
Lemma session_lifecycle_witness :
  ensure_connected
    (λ _, QMTTerminal.health_check (QMTTerminal.disconnect connected_session)
            (Returns None)) 2 1
  = (false, [Probe; QMTService.Sleep 1; Probe]).
Proof.
  apply (proj2 (proj2 (proj2 session_lifecycle))
           (QMTTerminal.disconnect connected_session) (λ _, Returns None) 2 1%Q);
    reflexivity.
Defined.

(** A market buy of 90 units quoted at 105.3 goes out at 105.3 × 1.01. *)
Lemma market_orders_priced_off_the_quote_witness :
  let o := {| o_side := Buy; o_stock_code := "113001"; o_volume := 90;
              o_price := f64 (1053 # 10); o_price_type := market |} in
  let quote := {| lastPrice := Some (f64 (1053 # 10)); lastClose := None |} in
  ∃ sent,
    snd (QMTTerminal.place connected_session (Returns quote) (λ _, Returns 1) o)
    = Some sent
    ∧ QMTTerminal.w_volume sent = 90
    ∧ QMTTerminal.w_price sent = fmul (f64 (1053 # 10)) (f64 (101 # 100)).
Proof.
  intros o quote.
  pose proof (proj2 (proj2 market_orders_priced_off_the_quote) connected_session
                (Returns quote) (λ _, Returns 1) o eq_refl eq_refl) as Hsent.
  destruct (snd (QMTTerminal.place connected_session (Returns quote)
                   (λ _, Returns 1) o)) as [sent|] eqn:E.
  - exists sent.
    destruct Hsent as (quote' & Hquote & _ & _ & _ & Hvolume & Hprice & _).
    injection Hquote as <-. auto.
  - vm_compute in E. discriminate E.
Defined.

(** Of a held row and an emptied row the terminal reports, the held one
    is handed on. *)
Lemma get_positions_held_rows_witness :
  Forall (λ row, 0 < pos_volume row)
    [named (holding "113001" 90) "bond A"].
Proof.
  apply (proj1 (proj2 (proj1 (proj2 get_positions_held_rows) connected_session
                         (Returns (Some [holding "113001" 90; holding "128001" 0]))
                         (λ _, Returns "bond A")
                         [named (holding "113001" 90) "bond A"] eq_refl))).
Defined.

End FurtherInstances.

(** ** The rounding of the arithmetic, at inputs where it shows *)

Section Binary64.

(** [round64] on the decimal literals of these examples gives the machine
    float of the literal. *)
Example literals_are_machine_floats :
  f64 (11968 # 100) = value_of 0x1.deb851eb851ecp+6
  ∧ f64 (1002 # 10) = value_of 0x1.90ccccccccccdp+6
  ∧ f64 (1 # 10) = value_of 0x1.999999999999ap-4
  ∧ f64 (1053 # 10) = value_of 0x1.a533333333333p+6
  ∧ f64 (101 # 100) = value_of 0x1.028f5c28f5c29p+0.
Proof. vm_compute. repeat split. Qed.

(** The four operations agree with the machine's on these operands. *)
Example operations_are_machine_operations :
  fdiv 29920 (value_of 0x1.deb851eb851ecp+6)
  = value_of (29920 / 0x1.deb851eb851ecp+6)%float
  ∧ fdiv (fsub (value_of 0x1.8ce147ae147aep+6) (value_of 0x1.68ccccccccccdp+6))
      (value_of 0x1.68ccccccccccdp+6)
    = value_of ((0x1.8ce147ae147aep+6 - 0x1.68ccccccccccdp+6)
                / 0x1.68ccccccccccdp+6)%float
  ∧ fmul 100 (fadd 1 (value_of 0x1.999999999999ap-4))
    = value_of (100 * (1 + 0x1.999999999999ap-4))%float
  ∧ fmul (value_of 0x1.a533333333333p+6) (value_of 0x1.028f5c28f5c29p+0)
    = value_of (0x1.a533333333333p+6 * 0x1.028f5c28f5c29p+0)%float.
Proof. vm_compute. repeat split. Qed.

(** The lot computation follows the rounded quotient: 29920 at 119.68 is
    240 units although 29920 / 119.68 / 10 is 25 on paper, and 10020 at
    100.2 is 100 units; the machine expression gives the same. *)
Example buy_volume_follows_the_rounding :
  buy_volume 29920 (f64 (11968 # 100)) = 240
  ∧ buy_volume_binary64 29920 0x1.deb851eb851ecp+6 = 240
  ∧ buy_volume 10020 (f64 (1002 # 10)) = 100
  ∧ buy_volume_binary64 10020 0x1.90ccccccccccdp+6 = 100
  ∧ buy_volume 10000 (f64 (1053 # 10)) = 90.
Proof. vm_compute. repeat split. Qed.

(** The day's change follows the rounded quotient: from 100 to 110 it is
    the float 0.1 and reaches a ratio of 0.1; from 90.2 to 99.22 it is
    0.09999999999999995 and does not. *)
Example day_change_follows_the_rounding :
  stop_branch (pct_change_of 110 100) (f64 (1 # 10)) (f64 (5 # 100))
  = Some stop_profit
  ∧ stop_branch (pct_change_of (f64 (9922 # 100)) (f64 (902 # 10)))
      (f64 (1 # 10)) (f64 (5 # 100))
    = None.
Proof. vm_compute. repeat split. Qed.

(** The average price kept for a code is rounded as well: 90 units and
    10 more, all bought at 119.88, leave 119.87999999999998 in the
    ledger. *)
Example average_price_is_rounded :
  buy_price
    <$> get_position_record
          (add_position_record
             (add_position_record Database.empty "113001" "" 90
                (f64 (11988 # 100)) 0 "")
             "113001" "" 10 (f64 (11988 # 100)) 0 "")
          "113001"
  = Some (value_of 0x1.df851eb851eb7p+6).
Proof. vm_compute. reflexivity. Qed.

(** The stop-profit price shown for a close of 100 and a ratio of 0.1 is
    110.00000000000001. *)
Example stop_price_shown_is_rounded :
  pv_stop_profit_price
    (position_view (service_over None []) (holding "113001" 90) risen_quote)
  = value_of 0x1.b800000000001p+6.
Proof. vm_compute. reflexivity. Qed.

End Binary64.
